(** * salonFunctions: profile, access-control and salon callables

    A shallow embedding of the callable Cloud Functions under
    [functions/src] (salons/addSalon.ts, salons/updateSalon.ts,
    salons/deleteSalon.ts, users/ensureUserProfile.ts,
    users/getAuthUserProfile.ts, users/updateAuthUserProfile.ts,
    users/getAllUserProfiles.ts, users/searchUsers.ts and
    utils/firebaseAdmin.ts), together with the properties the specification
    states about them.

    Modelling conventions.
    - A Firestore document is a finite map from field names to JSON-like
      values; the database is a finite map from document paths to documents.
      Field paths with dots are the store's business and are not modelled:
      keys are top-level field names.  [db.doc] is taken to accept the
      path it is given: its rejection of a path that names no document,
      which an identifier with a slash in it can produce, is not modelled,
      and a property about an identifier that the caller supplies and
      that need not name a stored document assumes [is_document_id].
    - A property that holds [undefined] is an absent key ([None] on lookup).
    - Text is a [string] of the bytes of its UTF-8 encoding, by which the
      store orders strings; [js_length] is its length in UTF-16 code
      units, the [.length] of the source.
    - The payload [request.data] is the object that the handler's type
      declares, a missing property being an absent or empty field;
      [destructured] adds the request that carries no payload.
    - Every [await] is a step of a state-and-exception monad over the
      database and the error console.  [FieldValue.serverTimestamp()] and
      [new Date()] both resolve to the instant [now] of the invocation.
    - [console.error] is recorded by its fixed first argument; [console.log]
      is informational and is not recorded.  The third argument of
      [HttpsError] (the details) is not modelled. *)

From Stdlib Require Import ZArith String Ascii Lia List.
From stdpp Require Import base option gmap strings list sorting.

Set Warnings "-register-all".

Local Open Scope Z_scope.

(** ** Values and documents *)

Inductive value : Type :=
| VNull
| VBool (b : bool)
| VNum (n : Z)
| VStr (s : string)
| VTime (t : Z)                         (* Firestore Timestamp *)
| VIso (t : Z)                          (* Date.toISOString() of instant t *)
| VArr (l : list value)
| VObj (fields : list (string * value)).

Abbreviation doc := (gmap string value).
Abbreviation store := (gmap string (gmap string value)).

(** JavaScript truthiness of a property read ([None] is [undefined]). *)
Definition truthy (v : option value) : bool :=
  match v with
  | None | Some VNull => false
  | Some (VBool b) => b
  | Some (VNum n) => negb (n =? 0)
  | Some (VStr s) => negb (String.eqb s "")
  | Some (VTime _) | Some (VIso _) | Some (VArr _) | Some (VObj _) => true
  end.

Definition truthy_str (s : string) : bool := negb (String.eqb s "").

(** The UTF-16 code units that the character starting at a byte takes: one
    for a byte below 0x80 and for the lead byte of a sequence of two or
    three bytes, two (a surrogate pair) for the lead byte of a sequence of
    four; a continuation byte (0x80 to 0xBF) starts no character. *)
Definition utf16_units (c : ascii) : nat :=
  let n := N_of_ascii c in
  if (n <? 128)%N then 1%nat
  else if (n <? 192)%N then 0%nat
  else if (n <? 240)%N then 1%nat
  else 2%nat.

(** [s.length]: the length of a text in UTF-16 code units. *)
Fixpoint js_length (s : string) : nat :=
  match s with
  | EmptyString => 0%nat
  | String c r => (utf16_units c + js_length r)%nat
  end.

(** [s || d] for an optional string [s]. *)
Definition str_or (s : option string) (d : string) : string :=
  match s with
  | Some x => if truthy_str x then x else d
  | None => d
  end.

(** [===] on a property read against a string literal. *)
Definition is_str (v : option value) (lit : string) : bool :=
  match v with
  | Some (VStr s) => String.eqb s lit
  | _ => false
  end.

(** [===] between two property reads: primitives compare by value, arrays
    and objects by reference (two distinct objects are never equal). *)
Definition strict_eq (a b : option value) : bool :=
  match a, b with
  | None, None | Some VNull, Some VNull => true
  | Some (VBool x), Some (VBool y) => Bool.eqb x y
  | Some (VNum x), Some (VNum y) => x =? y
  | Some (VStr x), Some (VStr y) => String.eqb x y
  | _, _ => false
  end.

(** An object literal keeps a property only when its value is defined. *)
Definition set_opt (k : string) (v : option value) (d : doc) : doc :=
  match v with
  | Some x => <[k := x]> d
  | None => d
  end.

(** ** Errors *)

Inductive ErrorCode : Type :=
| unauthenticated | permission_denied | not_found | invalid_argument | internal.

Inductive exn : Type :=
| HttpsError (code : ErrorCode) (message : string)
| SdkError (code : string).             (* an error thrown by an SDK call *)

Inductive outcome (A : Type) : Type :=
| Ok (a : A)
| Throw (e : exn).
Arguments Ok {A} a.
Arguments Throw {A} e.

(** ** The handler monad *)

Record world : Type := World { db : store; errors : list string }.

Definition M (A : Type) : Type := world -> outcome A * world.

Definition ret {A} (a : A) : M A := fun w => (Ok a, w).

Definition bind {A B} (m : M A) (k : A -> M B) : M B :=
  fun w => match m w with
           | (Ok a, w') => k a w'
           | (Throw e, w') => (Throw e, w')
           end.

Definition throw {A} (e : exn) : M A := fun w => (Throw e, w).

(** [try { m } catch (error) { h error }] *)
Definition try_catch {A} (m : M A) (h : exn -> M A) : M A :=
  fun w => match m w with
           | (Ok a, w') => (Ok a, w')
           | (Throw e, w') => h e w'
           end.

Notation "x <- m ;; k" := (bind m (fun x => k))
  (at level 100, m at next level, right associativity).
Notation "m ;;; k" := (bind m (fun _ => k))
  (at level 100, right associativity).

Definition console_error (msg : string) : M unit :=
  fun w => (Ok tt, World (db w) (errors w ++ [msg])).

(** ** Store primitives *)

(** [ref.get()]: the snapshot; [None] when [snap.exists] is false. *)
Definition doc_get (path : string) : M (option doc) :=
  fun w => (Ok (db w !! path), w).

(** [ref.set(d)]: unconditional overwrite. *)
Definition doc_set (path : string) (d : doc) : M unit :=
  fun w => (Ok tt, World (<[path := d]> (db w)) (errors w)).

(** [ref.set(d, { merge: true })]: create, or patch the given fields. *)
Definition doc_set_merge (path : string) (d : doc) : M unit :=
  fun w => (Ok tt, World (<[path := d ∪ default ∅ (db w !! path)]> (db w))
                         (errors w)).

(** [ref.update(d)]: patch the given fields; rejects when the document
    does not exist. *)
Definition doc_update (path : string) (d : doc) : M unit :=
  fun w => match db w !! path with
           | Some old => (Ok tt, World (<[path := d ∪ old]> (db w)) (errors w))
           | None => (Throw (SdkError "not-found"), w)
           end.

(** [ref.delete()] *)
Definition doc_delete (path : string) : M unit :=
  fun w => (Ok tt, World (delete path (db w)) (errors w)).

(** [collection.add(d)] with the identifier [newId] the SDK generates:
    a create, which rejects when the document already exists. *)
Definition collection_add (coll newId : string) (d : doc) : M string :=
  fun w => let path := coll +:+ "/" +:+ newId in
           match db w !! path with
           | Some _ => (Throw (SdkError "already-exists"), w)
           | None => (Ok newId, World (<[path := d]> (db w)) (errors w))
           end.

(** ** utils/firebaseAdmin.ts *)

Definition getUserProfilePath (appId userId : string) : string :=
  "artifacts/" +:+ appId +:+ "/users/" +:+ userId +:+ "/profile/data".

Definition getSalonsCollectionPath (appId : string) : string :=
  "artifacts/" +:+ appId +:+ "/public/data/salons".

(** The verified claims of the caller: [request.auth.token]. *)
Module Token.
Record t : Type :=
  { email : option string; name : option string; picture : option string }.
End Token.

Record AuthData : Type := { uid : string; token : Token.t }.

Record CallableRequest (D : Type) : Type :=
  { auth : option AuthData; data : D }.
Arguments auth {D} _.
Arguments data {D} _.

Definition assertAdmin {D} (request : CallableRequest D) (appId : string)
  : M unit :=
  match auth request with
  | None => throw (HttpsError unauthenticated
                     "The function must be called while authenticated.")
  | Some a =>
      let userId := uid a in
      userProfileSnap <- doc_get (getUserProfilePath appId userId) ;;
      match userProfileSnap with
      | None => throw (HttpsError permission_denied "User profile not found.")
      | Some d =>
          if is_str (d !! "role") "admin" then ret tt
          else throw (HttpsError permission_denied
                        "Only administrators can perform this action.")
      end
  end.

(** What [authAdmin.getUserByEmail] answers: a user record, or an error
    with its [code]. *)
Inductive AuthLookup : Type :=
| UserRecord (uid : string)
| AuthError (code : string).

(** The process environment and the external identity provider. *)
Record Env : Type :=
  { FIREBASE_APP_ID : option string;
    (* authAdmin.getUserByEmail(email) *)
    getUserByEmail : string -> AuthLookup;
    (* authAdmin.updateUser(uid, props): [None] when the call resolves,
       the code of the error when it rejects *)
    updateUser : string -> doc -> option string;
    (* the identifier generated by collection.add *)
    autoId : string }.

(** [process.env.FIREBASE_APP_ID || 'default-app-id'] *)
Definition envAppId (env : Env) : string :=
  str_or (FIREBASE_APP_ID env) "default-app-id".

(** The application id written into ensureUserProfile.ts and
    getAllUserProfiles.ts. *)
Definition hardcodedAppId : string := "1:514813479729:web:4a0ec92280f130e8b63e10".

(** ** salons/addSalon.ts *)

Module AddSalonData.
Record t : Type :=
  { name : string; address : value; description : string;
    ownerEmail : string }.
End AddSalonData.

Definition addSalon (env : Env) (now : Z)
    (request : CallableRequest AddSalonData.t) : M (string * string) :=
  let name := AddSalonData.name (data request) in
  let address := AddSalonData.address (data request) in
  let description := AddSalonData.description (data request) in
  let ownerEmail := AddSalonData.ownerEmail (data request) in
  let appId := envAppId env in
  assertAdmin request appId ;;;
  if negb (truthy_str name) || negb (truthy (Some address))
     || negb (truthy_str description) || negb (truthy_str ownerEmail)
  then throw (HttpsError invalid_argument
                "Missing required salon fields or owner email.")
  else
    let ownerIdentifier := ownerEmail in
    try_catch
      (newSalonRef <- collection_add (getSalonsCollectionPath appId) (autoId env)
         (<["name" := VStr name]>
          (<["address" := address]>
           (<["description" := VStr description]>
            (<["ownerId" := VStr ownerIdentifier]>
             (<["createdAt" := VTime now]>
              {["updatedAt" := VTime now]}))))) ;;
       ret (newSalonRef, "Salon added successfully!"))
      (fun error =>
         console_error "Error adding salon in Cloud Function:" ;;;
         throw (HttpsError internal "Failed to add salon.")).

(** ** salons/updateSalon.ts *)

Module UpdateSalonData.
Record t : Type :=
  { id : string; name : option string; address : option value;
    description : option string; ownerEmail : option string }.
End UpdateSalonData.

Definition opt_truthy_str (s : option string) : bool :=
  match s with Some x => truthy_str x | None => false end.

(** [if (v) updateData[k] = v] for an optional string. *)
Definition set_if_str (k : string) (v : option string) (d : doc) : doc :=
  match v with
  | Some x => if truthy_str x then <[k := VStr x]> d else d
  | None => d
  end.

(** [if (v) updateData[k] = v] for an optional value. *)
Definition set_if (k : string) (v : option value) (d : doc) : doc :=
  if truthy v then set_opt k v d else d.

(** Lines 40-45: the patch of the salon document before the owner is
    added to it. *)
Definition salonUpdateData (now : Z) (name : option string)
    (address : option value) (description : option string) : doc :=
  set_if_str "description" description
    (set_if "address" address
       (set_if_str "name" name {["updatedAt" := VTime now]})).

(** Lines 49-61: the new owner's profile is read, then promoted when its
    role is ['user'], or created by a merging set when it does not exist. *)
Definition promoteNewOwner (appId : string) (ownerEmail : option string)
    (now : Z) (ownerId : string) : M unit :=
  let newOwnerProfileRef := getUserProfilePath appId ownerId in
  newOwnerProfileSnap <- doc_get newOwnerProfileRef ;;
  match newOwnerProfileSnap with
  | Some d =>
      if is_str (d !! "role") "user"
      then doc_update newOwnerProfileRef {["role" := VStr "salon"]}
      else ret tt
  | None =>
      doc_set_merge newOwnerProfileRef
        (<["email" := VStr (default "" ownerEmail)]>
         (<["role" := VStr "salon"]>
          {["createdAt" := VTime now]}))
  end.

(** Lines 24-36: the owner's email is resolved by the identity provider. *)
Definition resolveOwner (env : Env) (ownerEmail : option string)
  : M (option string) :=
  if opt_truthy_str ownerEmail then
    match getUserByEmail env (default "" ownerEmail) with
    | UserRecord u => ret (Some u)
    | AuthError code =>
        console_error "Error looking up new owner by email:" ;;;
        if String.eqb code "auth/user-not-found" then
          throw (HttpsError not_found
                   ("User with email " +:+ default "" ownerEmail
                    +:+ " not found. Please ensure the user exists."))
        else throw (HttpsError internal "Failed to verify new owner email.")
    end
  else ret None.

Definition updateSalon (env : Env) (now : Z)
    (request : CallableRequest UpdateSalonData.t) : M string :=
  let id := UpdateSalonData.id (data request) in
  let name := UpdateSalonData.name (data request) in
  let address := UpdateSalonData.address (data request) in
  let description := UpdateSalonData.description (data request) in
  let ownerEmail := UpdateSalonData.ownerEmail (data request) in
  let appId := envAppId env in
  assertAdmin request appId ;;;
  if negb (truthy_str id)
     || (negb (opt_truthy_str name) && negb (truthy address)
         && negb (opt_truthy_str description) && negb (opt_truthy_str ownerEmail))
  then throw (HttpsError invalid_argument "Missing salon ID or update fields.")
  else
    ownerId <- resolveOwner env ownerEmail ;;
    try_catch
      ((* [db.doc] here and at line 49: see the conventions *)
       let salonDocRef := getSalonsCollectionPath appId +:+ "/" +:+ id in
       let updateData := salonUpdateData now name address description in
       updateData <-
         (if opt_truthy_str ownerId then
            let o := default "" ownerId in
            promoteNewOwner appId ownerEmail now o ;;;
            ret (<["ownerId" := VStr o]> updateData)
          else ret updateData) ;;
       doc_update salonDocRef updateData ;;;
       ret "Salon updated successfully!")
      (fun error =>
         console_error "Error updating salon in Cloud Function:" ;;;
         throw (HttpsError internal "Failed to update salon.")).

(** ** salons/deleteSalon.ts *)

Definition deleteSalon (env : Env) (request : CallableRequest string)
  : M string :=
  let id := data request in
  let appId := envAppId env in
  assertAdmin request appId ;;;
  if negb (truthy_str id) then
    throw (HttpsError invalid_argument "Missing salon ID.")
  else
    try_catch
      ((* [db.doc] of line 24: see the conventions *)
       doc_delete (getSalonsCollectionPath appId +:+ "/" +:+ id) ;;;
       ret "Salon deleted successfully!")
      (fun error =>
         console_error "Error deleting salon in Cloud Function:" ;;;
         throw (HttpsError internal "Failed to delete salon.")).

(** ** users/ensureUserProfile.ts *)

(** [ts.toDate().toISOString()]: a TypeError unless [ts] is a Timestamp. *)
Definition toDateISO (ts : option value) : M value :=
  match ts with
  | Some (VTime t) => ret (VIso t)
  | _ => throw (SdkError "TypeError")
  end.

(** [v || d] on a property read. *)
Definition val_or (v : option value) (d : value) : value :=
  if truthy v then default d v else d.

(** The document written for an identity seen for the first time. *)
Definition newUserProfile (a : AuthData) (now : Z) : doc :=
  let userEmail := Token.email (token a) in
  let displayName := str_or (Token.name (token a)) "New User" in
  let photoURL :=
    if opt_truthy_str (Token.picture (token a))
    then VStr (default "" (Token.picture (token a))) else VNull in
  <["uid" := VStr (uid a)]>
  (<["displayName" := VStr displayName]>
   (<["email" := if opt_truthy_str userEmail
                 then VStr (default "" userEmail) else VNull]>
    (<["photoURL" := photoURL]>
     (<["phoneNumber" := VNull]>
      (<["createdAt" := VTime now]>
       (<["lastLoginAt" := VTime now]>
        (<["role" := VStr "customer"]>
         (<["ownedSalons" := VArr []]>
          (<["associatedSalons" := VArr []]>
           (<["favoriteSalons" := VArr []]>
            {["address" := VNull]})))))))))).

(** Lines 60-74: the record answered for an existing profile. *)
Definition renderProfile (updatedProfileData : doc) : M doc :=
  createdAt <- toDateISO (updatedProfileData !! "createdAt") ;;
  lastLoginAt <- toDateISO (updatedProfileData !! "lastLoginAt") ;;
  updatedAt <-
    (if truthy (updatedProfileData !! "updatedAt")
     then v <- toDateISO (updatedProfileData !! "updatedAt") ;;
          ret (Some v)
     else ret None) ;;
  ret (set_opt "uid" (updatedProfileData !! "uid")
       (set_opt "email" (updatedProfileData !! "email")
        (set_opt "displayName" (updatedProfileData !! "displayName")
         (set_opt "photoURL" (updatedProfileData !! "photoURL")
          (<["phoneNumber" :=
               val_or (updatedProfileData !! "phoneNumber") VNull]>
           (<["createdAt" := createdAt]>
            (<["lastLoginAt" := lastLoginAt]>
             (set_opt "updatedAt" updatedAt
              (set_opt "role" (updatedProfileData !! "role")
               (<["ownedSalons" :=
                    val_or (updatedProfileData !! "ownedSalons") (VArr [])]>
                (<["associatedSalons" :=
                     val_or (updatedProfileData !! "associatedSalons") (VArr [])]>
                 (<["favoriteSalons" :=
                      val_or (updatedProfileData !! "favoriteSalons") (VArr [])]>
                  {["address" :=
                      val_or (updatedProfileData !! "address") VNull]})))))))))))).

(** Lines 99-112: the record answered for a profile just created.  Its
    two dates are [new Date()], the clock of the function and not the
    timestamps that the server stores; both clocks are read as the
    instant [now] of the invocation. *)
Definition renderCreated (p : doc) (now : Z) : doc :=
  <["createdAt" := VIso now]> (<["lastLoginAt" := VIso now]> p).

(** Lines 114-117: the catch block. *)
Definition ensureFailed (error : exn) : M doc :=
  console_error "Error in ensureUserProfile Cloud Function:" ;;;
  throw (HttpsError internal "Failed to set up user profile.").

Definition ensureUserProfile (now : Z) (request : CallableRequest unit)
  : M doc :=
  match auth request with
  | None =>
      console_error "ensureUserProfile: Unauthenticated request." ;;;
      throw (HttpsError unauthenticated
               "The function must be called while authenticated.")
  | Some a =>
      let userId := uid a in
      let appId := hardcodedAppId in
      if negb (truthy_str appId) then
        throw (HttpsError internal
                 "FIREBASE_APP_ID environment variable is not set or is empty.")
      else
        let userProfileRef := getUserProfilePath appId userId in
        try_catch
          (docSnap <- doc_get userProfileRef ;;
           match docSnap with
           | Some _ =>
               doc_update userProfileRef {["lastLoginAt" := VTime now]} ;;;
               snap <- doc_get userProfileRef ;;
               (* [.data()] of a missing document is undefined, and reading
                  a property of undefined is a TypeError *)
               match snap with
               | None => throw (SdkError "TypeError")
               | Some updatedProfileData => renderProfile updatedProfileData
               end
           | None =>
               let p := newUserProfile a now in
               doc_set userProfileRef p ;;;
               ret (renderCreated p now)
           end)
          ensureFailed
  end.

(** ** users/getAuthUserProfile.ts *)

(** [!snap.exists || snap.data()?.role !== 'admin'] *)
Definition not_admin (snap : option doc) : bool :=
  match snap with
  | None => true
  | Some d => negb (is_str (d !! "role") "admin")
  end.

Definition getAuthUserProfile (env : Env) (now : Z)
    (request : CallableRequest (option string)) : M (option doc) :=
  match auth request with
  | None => throw (HttpsError unauthenticated
                     "The function must be called while authenticated.")
  | Some a =>
      let callerUid := uid a in
      let targetUid := str_or (data request) callerUid in
      let appId := envAppId env in
      (if negb (String.eqb callerUid targetUid) then
         callerProfileSnap <- doc_get (getUserProfilePath appId callerUid) ;;
         if not_admin callerProfileSnap then
           throw (HttpsError permission_denied
                    "You do not have permission to fetch other user profiles.")
         else ret tt
       else ret tt) ;;;
      try_catch
        (docSnap <- doc_get (getUserProfilePath appId targetUid) ;;
         match docSnap with
         | Some profileData =>
             createdAt <-
               (if truthy (profileData !! "createdAt")
                then toDateISO (profileData !! "createdAt")
                else ret (VIso now)) ;;
             ret (Some (<["createdAt" := createdAt]> profileData))
         | None => ret None
         end)
        (fun error =>
           console_error "Error fetching user profile in Cloud Function:" ;;;
           throw (HttpsError internal "Failed to fetch user profile."))
  end.

(** ** users/updateAuthUserProfile.ts *)

Module UpdateData.
(** [Partial<UserProfile> & { targetUid?: string }]: [targetUid] apart,
    the properties of the request are kept as sent, in [fields]. *)
Record t : Type := { targetUid : option string; fields : doc }.
End UpdateData.

(** [typeof v !== 'string' && v !== null] *)
Definition not_string_nor_null (v : value) : bool :=
  match v with VStr _ | VNull => false | _ => true end.

Definition updateAuthUserProfile (env : Env) (now : Z)
    (request : CallableRequest UpdateData.t) : M string :=
  match auth request with
  | None => throw (HttpsError unauthenticated
                     "The function must be called while authenticated.")
  | Some a =>
      let callerUid := uid a in
      let targetUid := UpdateData.targetUid (data request) in
      let role := UpdateData.fields (data request) !! "role" in
      let updates :=
        delete "targetUid" (delete "role" (UpdateData.fields (data request))) in
      let uidToUpdate := str_or targetUid callerUid in
      let appId := envAppId env in
      let userProfileRef := getUserProfilePath appId uidToUpdate in
      userProfileSnap <- doc_get userProfileRef ;;
      match userProfileSnap with
      | None => throw (HttpsError not_found "Target user profile not found.")
      | Some currentProfile =>
          (if negb (String.eqb callerUid uidToUpdate) then
             callerProfileSnap <- doc_get (getUserProfilePath appId callerUid) ;;
             if not_admin callerProfileSnap then
               throw (HttpsError permission_denied
                        "You do not have permission to update other user profiles.")
             else ret tt
           else ret tt) ;;;
          finalUpdates <-
            match role with
            | Some r =>
                (if negb (String.eqb callerUid uidToUpdate)
                    || negb (strict_eq (currentProfile !! "role") (Some r))
                 then
                   callerProfileSnap <- doc_get (getUserProfilePath appId callerUid) ;;
                   if not_admin callerProfileSnap then
                     throw (HttpsError permission_denied
                              "Only administrators can change user roles.")
                   else ret tt
                 else ret tt) ;;;
                ret (<["role" := r]> updates)
            | None => ret updates
            end ;;
          match finalUpdates !! "photoURL" with
          | Some v =>
              if not_string_nor_null v then
                throw (HttpsError invalid_argument
                         "photoURL must be a string URL or null.")
              else ret tt
          | None => ret tt
          end ;;;
          let finalUpdates := <["updatedAt" := VTime now]> finalUpdates in
          try_catch
            (doc_update userProfileRef finalUpdates ;;;
             (if truthy (finalUpdates !! "displayName")
                 || truthy (finalUpdates !! "photoURL")
              then
                let authUpdate :=
                  set_if "photoURL" (finalUpdates !! "photoURL")
                    (set_if "displayName" (finalUpdates !! "displayName") ∅) in
                match updateUser env uidToUpdate authUpdate with
                | None => ret tt
                | Some code => throw (SdkError code)
                end
              else ret tt) ;;;
             ret "User profile updated successfully!")
            (fun error =>
               console_error "Error updating user profile in Cloud Function:" ;;;
               throw (HttpsError internal "Failed to update user profile."))
      end
  end.

(** ** Queries over a collection group *)

(** The segments of a document path, split at ["/"]. *)
Fixpoint segments_from (cur s : string) : list string :=
  match s with
  | EmptyString => [cur]
  | String c r =>
      if Ascii.eqb c "/" then cur :: segments_from "" r
      else segments_from (cur +:+ String c "") r
  end.

Definition segments (path : string) : list string := segments_from "" path.

(** A document belongs to the collection group [g] when the collection
    that holds it (the segment before its identifier) is named [g]. *)
Definition in_collection_group (g path : string) : bool :=
  match rev (segments path) with
  | _ :: c :: _ => String.eqb c g
  | _ => false
  end.

(** Document names are compared segment by segment, a segment by its
    bytes; a name that is a prefix of another comes first. *)
Fixpoint segments_leb (a b : list string) : bool :=
  match a, b with
  | [], _ => true
  | _ :: _, [] => false
  | x :: a', y :: b' =>
      match String.compare x y with
      | Lt => true
      | Gt => false
      | Eq => segments_leb a' b'
      end
  end.

Definition path_le (x y : string * doc) : Prop :=
  Is_true (segments_leb (segments x.1) (segments y.1)).

(** [db.collectionGroup(g).get()]: every document of the group, in the
    order of the document names. *)
Definition collectionGroup (g : string) (st : store) : list (string * doc) :=
  merge_sort path_le
    (List.filter (fun pd => in_collection_group g pd.1) (map_to_list st)).

Definition email_of (d : doc) : option string :=
  match d !! "email" with
  | Some (VStr s) => Some s
  | _ => None
  end.

(** A range filter on a string field matches string values only. *)
Definition email_in_range (lo hi : string) (d : doc) : bool :=
  match email_of d with
  | Some e => String.leb lo e && String.leb e hi
  | None => false
  end.

Definition email_le (x y : string * doc) : Prop :=
  Is_true (String.leb (default "" (email_of x.2)) (default "" (email_of y.2))).

(** [.where('email','>=',lo).where('email','<=',hi).limit(n).get()]:
    the matching documents in the order of the filtered field, cut at [n]. *)
Definition query_email_range (g lo hi : string) (n : nat) (st : store)
  : list (string * doc) :=
  take n (merge_sort email_le
            (List.filter (fun pd => email_in_range lo hi pd.2)
                         (collectionGroup g st))).

Definition get_db : M store := fun w => (Ok (db w), w).

Fixpoint mapM {A B} (f : A -> M B) (l : list A) : M (list B) :=
  match l with
  | [] => ret []
  | x :: r => y <- f x ;; ys <- mapM f r ;; ret (y :: ys)
  end.

(** ** users/getAllUserProfiles.ts *)

Definition getAllUserProfiles (now : Z) (request : CallableRequest unit)
  : M (list doc) :=
  let appId := hardcodedAppId in
  assertAdmin request appId ;;;
  try_catch
    (st <- get_db ;;
     mapM (fun pd : string * doc =>
             let data := pd.2 in
             createdAt <-
               (if truthy (data !! "createdAt")
                then toDateISO (data !! "createdAt")
                else ret (VIso now)) ;;
             ret (<["createdAt" := createdAt]> data))
          (collectionGroup "profile" st))
    (fun error =>
       console_error "Error fetching all user profiles in Cloud Function:" ;;;
       throw (HttpsError internal "Failed to fetch all user profiles.")).

(** ** users/searchUsers.ts *)

(** U+F8FF, the upper sentinel of the prefix range (its UTF-8 bytes). *)
Definition MAX_SENTINEL : string :=
  String "239"%char (String "163"%char (String "191"%char "")).

(** The projection pushed for each match. *)
Definition suggestion (data : doc) : doc :=
  set_opt "uid" (data !! "uid")
    (set_opt "email" (data !! "email")
       (set_opt "displayName"
          (if truthy (data !! "displayName")
           then data !! "displayName" else data !! "email") ∅)).

Definition searchUsersByEmail (env : Env)
    (request : CallableRequest value) : M (list doc) :=
  let searchTerm := data request in
  let appId := envAppId env in
  assertAdmin request appId ;;;
  match searchTerm with
  | VStr term =>
      if (js_length term <? 2)%nat then ret []
      else
        try_catch
          (st <- get_db ;;
           let querySnapshot :=
             query_email_range "profile" term (term +:+ MAX_SENTINEL) 10 st in
           ret (map (fun pd : string * doc => suggestion pd.2) querySnapshot))
          (fun error =>
             console_error "Error searching users by email in Cloud Function:" ;;;
             throw (HttpsError internal "Failed to search users."))
  | _ => ret []
  end.

(** ** A request without a payload

    [const { ... } = request.data], the first statement of addSalon,
    updateSalon, deleteSalon and searchUsersByEmail: the object pattern
    throws a TypeError when the payload is [null] or [undefined], which is
    what a call made without arguments carries ([None]).  Nothing catches
    it: the handler has not reached [assertAdmin] yet. *)
Definition destructured {D A} (handler : CallableRequest D -> M A)
    (request : CallableRequest (option D)) : M A :=
  match data request with
  | None => throw (SdkError "TypeError")
  | Some d => handler {| auth := auth request; data := d |}
  end.

(** Running a handler on a database with an empty console. *)
Definition run {A} (m : M A) (st : store) : outcome A * world :=
  m (World st []).

(** ** Concurrent invocations of ensureUserProfile

    An invocation suspends at each [await]; between two of its store calls
    any other invocation may run.  A [thread] records where an
    authenticated invocation of [ensureUserProfile] stands, and [step]
    performs its next store call, each at its own instant. *)

Inductive thread : Type :=
| AtGet (a : AuthData)                         (* before the get of line 46 *)
| AtWrite (a : AuthData) (docSnap : option doc) (* before line 51 or line 94 *)
| AtReread (a : AuthData)                      (* before the get of line 56 *)
| Finished (result : outcome doc).

Definition ensureRef (a : AuthData) : string :=
  getUserProfilePath hardcodedAppId (uid a).

(** An awaited call [m], continued by [k] or caught by the catch block. *)
Definition await {A} (m : M A) (k : A -> thread) (w : world) : thread * world :=
  match m w with
  | (Ok x, w') => (k x, w')
  | (Throw e, w') => let r := ensureFailed e w' in (Finished r.1, r.2)
  end.

Definition step (now : Z) (t : thread) (w : world) : thread * world :=
  match t with
  | AtGet a => await (doc_get (ensureRef a)) (AtWrite a) w
  | AtWrite a (Some _) =>
      await (doc_update (ensureRef a) {["lastLoginAt" := VTime now]})
            (fun _ => AtReread a) w
  | AtWrite a None =>
      let p := newUserProfile a now in
      await (doc_set (ensureRef a) p)
            (fun _ => Finished (Ok (renderCreated p now))) w
  | AtReread a =>
      await (snap <- doc_get (ensureRef a) ;;
             match snap with
             | None => throw (SdkError "TypeError")
             | Some updatedProfileData => renderProfile updatedProfileData
             end)
            (fun r => Finished (Ok r)) w
  | Finished r => (Finished r, w)
  end.

(** Two invocations in flight over one database. *)
Inductive tid : Type := First | Second.

Record race : Type :=
  Race { thread1 : thread; thread2 : thread; shared : world }.

Definition race_step (s : race) (turn : tid * Z) : race :=
  match turn.1 with
  | First => let r := step turn.2 (thread1 s) (shared s) in
             Race r.1 (thread2 s) r.2
  | Second => let r := step turn.2 (thread2 s) (shared s) in
              Race (thread1 s) r.1 r.2
  end.

(** A schedule says whose store call comes next, and when. *)
Definition run_schedule (sched : list (tid * Z)) (s : race) : race :=
  fold_left race_step sched s.

(** Two first logins of one identity, on a database [st]. *)
Definition two_logins (a : AuthData) (claims' : Token.t) (st : store) : race :=
  Race (AtGet a) (AtGet {| uid := uid a; token := claims' |}) (World st []).

(** The invocation a thread belongs to is one of identity [u]. *)
Definition thread_of (u : string) (t : thread) : Prop :=
  match t with
  | AtGet a | AtWrite a _ | AtReread a => uid a = u
  | Finished _ => True
  end.

(** ** Auxiliary definitions for the statements *)

(** A computation that leaves the database as it found it. *)
Definition keeps_db {A} (m : M A) : Prop := forall w, db (m w).2 = db w.

(** The verdict of [assertAdmin] for an authenticated caller, read off
    the database. *)
Definition isAdminIn (st : store) (appId caller : string) : bool :=
  match st !! getUserProfilePath appId caller with
  | Some d => is_str (d !! "role") "admin"
  | None => false
  end.

(** The stub written for an owner without a profile. *)
Definition ownerStub (ownerEmail : option string) (now : Z) : doc :=
  <["email" := VStr (default "" ownerEmail)]>
  (<["role" := VStr "salon"]> {["createdAt" := VTime now]}).

(** The database [promoteNewOwner] leaves behind. *)
Definition ownerProfileAfter (appId : string) (ownerEmail : option string)
    (now : Z) (ownerId : string) (st : store) : store :=
  let p := getUserProfilePath appId ownerId in
  match st !! p with
  | Some d =>
      if is_str (d !! "role") "user"
      then <[p := <["role" := VStr "salon"]> d]> st else st
  | None => <[p := ownerStub ownerEmail now]> st
  end.

(** [ref.update(upd)] on the database alone: nothing is written when the
    document does not exist. *)
Definition update_at (path : string) (upd : doc) (st : store) : store :=
  match st !! path with
  | Some old => <[path := upd ∪ old]> st
  | None => st
  end.

(** The input check of [updateSalon] (line 20). *)
Definition updateSalon_invalid (d : UpdateSalonData.t) : bool :=
  negb (truthy_str (UpdateSalonData.id d))
  || (negb (opt_truthy_str (UpdateSalonData.name d))
      && negb (truthy (UpdateSalonData.address d))
      && negb (opt_truthy_str (UpdateSalonData.description d))
      && negb (opt_truthy_str (UpdateSalonData.ownerEmail d))).

(** The database [updateSalon] leaves behind, as a function of the
    database it starts from. *)
Definition updateSalon_db (env : Env) (now : Z)
    (request : CallableRequest UpdateSalonData.t) (st : store) : store :=
  let d := data request in
  let appId := envAppId env in
  let salonDocRef := getSalonsCollectionPath appId +:+ "/" +:+ UpdateSalonData.id d in
  let upd := salonUpdateData now (UpdateSalonData.name d)
               (UpdateSalonData.address d) (UpdateSalonData.description d) in
  match auth request with
  | None => st
  | Some a =>
      if negb (isAdminIn st appId (uid a)) then st
      else if updateSalon_invalid d then st
      else if opt_truthy_str (UpdateSalonData.ownerEmail d) then
        match getUserByEmail env (default "" (UpdateSalonData.ownerEmail d)) with
        | AuthError _ => st
        | UserRecord o =>
            if truthy_str o then
              update_at salonDocRef (<["ownerId" := VStr o]> upd)
                (ownerProfileAfter appId (UpdateSalonData.ownerEmail d) now o st)
            else update_at salonDocRef upd st
        end
      else update_at salonDocRef upd st
  end.

(** Two databases that agree everywhere, except possibly on the field
    [updatedAt] of the document at [path]. *)
Definition same_up_to_updatedAt (path : string) (st1 st2 : store) : Prop :=
  (forall q, q <> path -> st2 !! q = st1 !! q) /\
  match st1 !! path, st2 !! path with
  | Some d1, Some d2 => forall f, f <> "updatedAt" -> d2 !! f = d1 !! f
  | None, None => True
  | _, _ => False
  end.

(** The input check of [addSalon] (line 21). *)
Definition addSalon_invalid (d : AddSalonData.t) : bool :=
  negb (truthy_str (AddSalonData.name d))
  || negb (truthy (Some (AddSalonData.address d)))
  || negb (truthy_str (AddSalonData.description d))
  || negb (truthy_str (AddSalonData.ownerEmail d)).

(** C3 as the specification words it, for [addSalon]: an administrator's
    well-formed request whose owner email matches no account is refused
    with NotFound. *)
Definition addSalon_resolves_owner_email : Prop :=
  forall (env : Env) (now : Z) (a : AuthData) (d : AddSalonData.t) (st : store),
    isAdminIn st (envAppId env) (uid a) = true ->
    addSalon_invalid d = false ->
    getUserByEmail env (AddSalonData.ownerEmail d)
      = AuthError "auth/user-not-found" ->
    exists msg,
      (run (addSalon env now {| auth := Some a; data := d |}) st).1
        = Throw (HttpsError not_found msg).

(** The patch [updateAuthUserProfile] hands to [update]: the request
    without [targetUid], stamped with [updatedAt]. *)
Definition finalUpdates_of (now : Z) (d : UpdateData.t) : doc :=
  <["updatedAt" := VTime now]> (delete "targetUid" (UpdateData.fields d)).



(** C5 as the specification words it: a call that succeeds when the
    identity provider accepts the mirrored attributes succeeds all the
    same when the provider rejects them. *)
Definition mirror_failure_not_surfaced : Prop :=
  forall (env env' : Env) (now : Z) (request : CallableRequest UpdateData.t)
         (st : store) (msg : string),
    FIREBASE_APP_ID env' = FIREBASE_APP_ID env ->
    (forall u props, updateUser env u props = None) ->
    (run (updateAuthUserProfile env now request) st).1 = Ok msg ->
    (run (updateAuthUserProfile env' now request) st).1 = Ok msg.

(** C7 as the specification words it: creation is conditional, so once
    one of two concurrent first logins has created the profile, no later
    store call of either invocation replaces what was created; the
    createdAt written at creation stays. *)
Definition first_logins_race_free : Prop :=
  forall (a : AuthData) (claims' : Token.t) (st : store)
         (sched later : list (tid * Z)) (d : doc),
    st !! ensureRef a = None ->
    db (shared (run_schedule sched (two_logins a claims' st))) !! ensureRef a
      = Some d ->
    exists d',
      db (shared (run_schedule (sched ++ later) (two_logins a claims' st)))
        !! ensureRef a = Some d' /\
      d' !! "createdAt" = d !! "createdAt".

(** The characters of a text: the code points that its UTF-8 bytes
    encode, one for every byte that is no continuation byte. *)
Fixpoint characters (s : string) : nat :=
  match s with
  | EmptyString => 0%nat
  | String c r =>
      let n := N_of_ascii c in
      ((if (n <? 128)%N || (192 <=? n)%N then 1 else 0) + characters r)%nat
  end.

(** C10 as the specification words it, for the short term: an
    administrator's search for a term shorter than 2 characters returns
    the empty list. *)
Definition short_term_never_queries : Prop :=
  forall (env : Env) (a : AuthData) (term : string) (st : store),
    isAdminIn st (envAppId env) (uid a) = true ->
    (characters term < 2)%nat ->
    (run (searchUsersByEmail env {| auth := Some a; data := VStr term |}) st).1
      = Ok [].

(** An identifier that the store accepts as one segment of a document
    path: not empty, without a slash, neither ["."] nor [".."], not
    starting with two underscores (the reserved names are among those)
    and of at most 1500 bytes. *)
Definition is_document_id (id : string) : bool :=
  truthy_str id
  && (forallb (fun c => negb (Ascii.eqb c "/")) (list_ascii_of_string id)
      && (negb (String.eqb id ".")
          && (negb (String.eqb id "..")
              && (negb (String.prefix "__" id)
                  && (String.length id <=? 1500)%nat)))).

(** The document [addSalon] hands to [add] (lines 34-41). *)
Definition newSalonDoc (now : Z) (d : AddSalonData.t) : doc :=
  <["name" := VStr (AddSalonData.name d)]>
  (<["address" := AddSalonData.address d]>
   (<["description" := VStr (AddSalonData.description d)]>
    (<["ownerId" := VStr (AddSalonData.ownerEmail d)]>
     (<["createdAt" := VTime now]> {["updatedAt" := VTime now]})))).

(** ** Sample inputs *)

Definition alice : AuthData :=
  {| uid := "u1";
     token := {| Token.email := Some "a@x.com"; Token.name := Some "Alice";
                 Token.picture := None |} |}.

Definition root : AuthData :=
  {| uid := "root";
     token := {| Token.email := Some "root@x.com"; Token.name := Some "Root";
                 Token.picture := None |} |}.

Definition carol : AuthData :=
  {| uid := "u3";
     token := {| Token.email := Some "c@x.com"; Token.name := Some "Carol";
                 Token.picture := None |} |}.

(** An identity provider that knows [a@x.com] as account [u1]. *)
Definition lookup_alice (e : string) : AuthLookup :=
  if String.eqb e "a@x.com" then UserRecord "u1"
  else AuthError "auth/user-not-found".

(** A deployment whose FIREBASE_APP_ID is the hardcoded application id. *)
Definition env_same : Env :=
  {| FIREBASE_APP_ID := Some hardcodedAppId;
     getUserByEmail := lookup_alice;
     updateUser := fun _ _ => None;
     autoId := "s2" |}.

(** A deployment without FIREBASE_APP_ID. *)
Definition env_unset : Env :=
  {| FIREBASE_APP_ID := None;
     getUserByEmail := lookup_alice;
     updateUser := fun _ _ => None;
     autoId := "s2" |}.

(** A deployment whose identity provider rejects every update. *)
Definition env_mirror_down : Env :=
  {| FIREBASE_APP_ID := Some hardcodedAppId;
     getUserByEmail := lookup_alice;
     updateUser := fun _ _ => Some "auth/internal-error";
     autoId := "s2" |}.

(** An administrator [root] and a salon [s1], under application id [appId]. *)
Definition seed (appId : string) : store :=
  <[getUserProfilePath appId "root" := {["role" := VStr "admin"]}]>
  (<[getSalonsCollectionPath appId +:+ "/s1" :=
       <["name" := VStr "Cut"]> {["ownerId" := VStr "u0"]}]> ∅).

(** [seed] after [alice] has logged in for the first time at instant 100. *)
Definition seed_alice : store :=
  db (run (ensureUserProfile 100 {| auth := Some alice; data := tt |})
          (seed hardcodedAppId)).2.

Definition transfer_to_alice : CallableRequest UpdateSalonData.t :=
  {| auth := Some root;
     data := {| UpdateSalonData.id := "s1"; UpdateSalonData.name := None;
                UpdateSalonData.address := None;
                UpdateSalonData.description := None;
                UpdateSalonData.ownerEmail := Some "a@x.com" |} |}.

Definition add_for_stranger : CallableRequest AddSalonData.t :=
  {| auth := Some root;
     data := {| AddSalonData.name := "Shear"; AddSalonData.address := VObj [];
                AddSalonData.description := "New salon";
                AddSalonData.ownerEmail := "nobody@x.com" |} |}.

(** [seed_alice] after [carol] has logged in too, at instant 150. *)
Definition seed_users : store :=
  db (ensureUserProfile 150 {| auth := Some carol; data := tt |}
        (World seed_alice [])).2.

(** [alice] patches her own phone number. *)
Definition alice_sets_phone : CallableRequest UpdateData.t :=
  {| auth := Some alice;
     data := {| UpdateData.targetUid := None;
                UpdateData.fields := {["phoneNumber" := VStr "555"]} |} |}.

(** [carol], who is no administrator, patches the profile of [target]. *)
Definition carol_renames (target : string) : CallableRequest UpdateData.t :=
  {| auth := Some carol;
     data := {| UpdateData.targetUid := Some target;
                UpdateData.fields := {["displayName" := VStr "x"]} |} |}.


(** U+1F600, one character outside the Basic Multilingual Plane (its
    UTF-8 bytes). *)
Definition astral_term : string :=
  String "240"%char
    (String "159"%char (String "152"%char (String "128"%char ""))).

(** U+20AC, one character of three UTF-8 bytes and one UTF-16 code unit. *)
Definition euro_term : string :=
  String "226"%char (String "130"%char (String "172"%char "")).

(** The administrator [root] and a profile whose email starts with that
    character. *)
Definition astral_directory : store :=
  <[getUserProfilePath hardcodedAppId "root" := {["role" := VStr "admin"]}]>
  {[getUserProfilePath hardcodedAppId "u7"
    := {["email" := VStr (astral_term +:+ "@x.com")]}]}.

(** [alice] changes her display name. *)
Definition alice_renames : CallableRequest UpdateData.t :=
  {| auth := Some alice;
     data := {| UpdateData.targetUid := None;
                UpdateData.fields := {["displayName" := VStr "Al"]} |} |}.

(** ** Further auxiliary definitions and sample inputs *)

(** The administrator hands a salon that does not exist to [a@x.com]. *)
Definition transfer_missing_salon : UpdateSalonData.t :=
  {| UpdateSalonData.id := "s9"; UpdateSalonData.name := None;
     UpdateSalonData.address := None; UpdateSalonData.description := None;
     UpdateSalonData.ownerEmail := Some "a@x.com" |}.

(** The administrator renames salon [s1]. *)
Definition rename_salon : UpdateSalonData.t :=
  {| UpdateSalonData.id := "s1"; UpdateSalonData.name := Some "Trim";
     UpdateSalonData.address := None; UpdateSalonData.description := None;
     UpdateSalonData.ownerEmail := None |}.

(** A later login of identity [u], with the claims and at the instant given. *)
Definition login_again (u : string) (w : world) (l : Token.t * Z) : world :=
  (ensureUserProfile l.2
     {| auth := Some {| uid := u; token := l.1 |}; data := tt |} w).2.

(** A sequence of later logins of identity [u]. *)
Definition logins (u : string) (ls : list (Token.t * Z)) (w : world) : world :=
  fold_left (login_again u) ls w.

(** Whether [updateAuthUserProfile] lets [caller] patch the profile [cur] of
    [target] with the requested [role] (lines 36-56): another user's
    profile takes an administrator, and so does a role that differs from
    the stored one. *)
Definition update_authorized (st : store) (appId caller target : string)
    (cur : doc) (role : option value) : bool :=
  (String.eqb caller target || isAdminIn st appId caller)
  && match role with
     | Some rv =>
         (String.eqb caller target && strict_eq (cur !! "role") (Some rv))
         || isAdminIn st appId caller
     | None => true
     end.

(** The attributes [updateAuthUserProfile] mirrors to the identity
    provider (lines 69-71). *)
Definition authUpdate_of (finalUpdates : doc) : doc :=
  set_if "photoURL" (finalUpdates !! "photoURL")
    (set_if "displayName" (finalUpdates !! "displayName") ∅).

(** A database that holds one profile, of [alice], under the environment's
    default application id. *)
Definition only_alice : store :=
  {[getUserProfilePath "default-app-id" "u1" := {["role" := VStr "customer"]}]}.

(** [alice] sends a photo that is not a string. *)
Definition alice_sends_file : UpdateData.t :=
  {| UpdateData.targetUid := None;
     UpdateData.fields := {["photoURL" := VObj []]} |}.

(** [alice] sets her phone number and tries to date the change herself. *)
Definition alice_backdates : UpdateData.t :=
  {| UpdateData.targetUid := None;
     UpdateData.fields :=
       <["phoneNumber" := VStr "555"]> {["updatedAt" := VStr "1999"]} |}.

(** Whether [getAllUserProfiles] can render the stored [createdAt]: a
    Timestamp, or a falsy value that is replaced by the instant of the call. *)
Definition createdAt_readable (d : doc) : bool :=
  match d !! "createdAt" with
  | Some (VTime _) => true
  | v => negb (truthy v)
  end.

(** The record [getAllUserProfiles] pushes for a readable document. *)
Definition listed (now : Z) (d : doc) : doc :=
  <["createdAt" := match d !! "createdAt" with
                   | Some (VTime t) => VIso t
                   | _ => VIso now
                   end]> d.

(** An administrator, and a profile whose createdAt a patch has replaced
    by a string. *)
Definition store_with_string_date : store :=
  <[getUserProfilePath hardcodedAppId "root" := {["role" := VStr "admin"]}]>
  {[getUserProfilePath "default-app-id" "u1"
    := {["createdAt" := VStr "2000-01-01T00:00:00.000Z"]}]}.

(** The patch by which a user replaces the createdAt of the own profile. *)
Definition redate (s : string) : UpdateData.t :=
  {| UpdateData.targetUid := None;
     UpdateData.fields := {["createdAt" := VStr s]} |}.

(** An administrator recorded under the hardcoded application id, beside
    [only_alice]. *)
Definition admin_and_alice : store :=
  <[getUserProfilePath hardcodedAppId "root" := {["role" := VStr "admin"]}]>
  only_alice.

(** What may follow the search term in an email that the prefix range
    still covers: nothing, or a character below the first byte of the
    sentinel, as every ASCII character is. *)
Definition below_sentinel (rest : string) : bool :=
  match rest with
  | EmptyString => true
  | String c _ => (N_of_ascii c <? 239)%N
  end.

(** The documents of the group [profile] that a search for [term] matches. *)
Definition matches (term : string) (st : store) : list (string * doc) :=
  List.filter (fun pd => email_in_range term (term +:+ MAX_SENTINEL) pd.2)
              (collectionGroup "profile" st).

(** A database of two profiles: the administrator [root] and a customer
    whose email is on record. *)
Definition directory : store :=
  <[getUserProfilePath hardcodedAppId "root" := {["role" := VStr "admin"]}]>
  {[getUserProfilePath hardcodedAppId "u1" := {["email" := VStr "a@x.com"]}]}.

(** * Properties *)

(** ** Monad and store lemmas *)

Lemma singleton_union_insert (k : string) (v : value) (d : doc) :
  {[k := v]} ∪ d = <[k := v]> d.
Proof. symmetry. apply insert_union_singleton_l. Qed.

Lemma keeps_db_ret {A} (a : A) : keeps_db (ret a).
Proof. intros w. reflexivity. Qed.

Lemma keeps_db_throw {A} (e : exn) : keeps_db (@throw A e).
Proof. intros w. reflexivity. Qed.

Lemma keeps_db_console_error (msg : string) : keeps_db (console_error msg).
Proof. intros w. reflexivity. Qed.

Lemma keeps_db_doc_get (path : string) : keeps_db (doc_get path).
Proof. intros w. reflexivity. Qed.

Lemma keeps_db_get_db : keeps_db get_db.
Proof. intros w. reflexivity. Qed.

Lemma keeps_db_toDateISO (ts : option value) : keeps_db (toDateISO ts).
Proof. intros w. unfold toDateISO. repeat case_match; reflexivity. Qed.

Lemma keeps_db_bind {A B} (m : M A) (k : A -> M B) :
  keeps_db m -> (forall a, keeps_db (k a)) -> keeps_db (bind m k).
Proof.
  intros Hm Hk w. unfold bind. specialize (Hm w).
  destruct (m w) as [[a|e] w']; cbn [snd] in *; [rewrite Hk|]; exact Hm.
Qed.

Lemma keeps_db_try_catch {A} (m : M A) (h : exn -> M A) :
  keeps_db m -> (forall e, keeps_db (h e)) -> keeps_db (try_catch m h).
Proof.
  intros Hm Hh w. unfold try_catch. specialize (Hm w).
  destruct (m w) as [[a|e] w']; cbn [snd] in *; [|rewrite Hh]; exact Hm.
Qed.

Lemma keeps_db_mapM {A B} (f : A -> M B) (l : list A) :
  (forall x, keeps_db (f x)) -> keeps_db (mapM f l).
Proof.
  intros Hf. induction l as [|x r IH]; cbn [mapM].
  - apply keeps_db_ret.
  - apply keeps_db_bind; [apply Hf|]. intros y.
    apply keeps_db_bind; [exact IH|]. intros ys. apply keeps_db_ret.
Qed.

Ltac keeps :=
  repeat (intros; unfold renderProfile, ensureFailed;
          first [ apply keeps_db_ret | apply keeps_db_throw
                | apply keeps_db_console_error | apply keeps_db_doc_get
                | apply keeps_db_get_db | apply keeps_db_toDateISO
                | apply keeps_db_bind | apply keeps_db_try_catch
                | apply keeps_db_mapM
                | match goal with
                  | |- keeps_db (match ?x with _ => _ end) => destruct x
                  end ]).

(** What follows a step cannot undo its write. *)
Lemma db_bind_keeps {A B} (m : M A) (k : A -> M B) (w : world) :
  (forall a, keeps_db (k a)) -> db (bind m k w).2 = db (m w).2.
Proof.
  intros Hk. unfold bind. destruct (m w) as [[a|e] w']; [apply Hk|reflexivity].
Qed.

Lemma db_try_catch_keeps {A} (m : M A) (h : exn -> M A) (w : world) :
  (forall e, keeps_db (h e)) -> db (try_catch m h w).2 = db (m w).2.
Proof.
  intros Hh. unfold try_catch.
  destruct (m w) as [[a|e] w']; [reflexivity|apply Hh].
Qed.

Lemma bind_doc_get {B} (path : string) (k : option doc -> M B) (w : world) :
  bind (doc_get path) k w = k (db w !! path) w.
Proof. reflexivity. Qed.

Lemma doc_update_present (path : string) (d old : doc) (w : world) :
  db w !! path = Some old ->
  doc_update path d w = (Ok tt, World (<[path := d ∪ old]> (db w)) (errors w)).
Proof. intros H. unfold doc_update. rewrite H. reflexivity. Qed.

Lemma doc_update_absent (path : string) (d : doc) (w : world) :
  db w !! path = None ->
  doc_update path d w = (Throw (SdkError "not-found"), w).
Proof. intros H. unfold doc_update. rewrite H. reflexivity. Qed.

Lemma newUserProfile_fields (a : AuthData) (now : Z) :
  let p := newUserProfile a now in
  p !! "uid" = Some (VStr (uid a)) /\
  p !! "role" = Some (VStr "customer") /\
  p !! "createdAt" = Some (VTime now) /\
  p !! "lastLoginAt" = Some (VTime now) /\
  p !! "ownedSalons" = Some (VArr []) /\
  p !! "associatedSalons" = Some (VArr []) /\
  p !! "favoriteSalons" = Some (VArr []) /\
  p !! "address" = Some VNull /\
  p !! "phoneNumber" = Some VNull /\
  p !! "updatedAt" = None.
Proof. repeat split; reflexivity. Qed.

(** The creation branch: an absent profile is written whole and returned. *)
Lemma ensureUserProfile_absent (a : AuthData) (now : Z) (w : world) :
  db w !! getUserProfilePath hardcodedAppId (uid a) = None ->
  ensureUserProfile now {| auth := Some a; data := tt |} w =
    (Ok (<["createdAt" := VIso now]>
           (<["lastLoginAt" := VIso now]> (newUserProfile a now))),
     World (<[getUserProfilePath hardcodedAppId (uid a) := newUserProfile a now]> (db w))
           (errors w)).
Proof.
  intros Habs. unfold ensureUserProfile. cbn [auth data].
  change (negb (truthy_str hardcodedAppId)) with false. cbv iota.
  unfold try_catch, bind, doc_get. rewrite Habs. reflexivity.
Qed.

(** The touch branch: on an existing profile only [lastLoginAt] is written,
    whatever the outcome of rendering the record. *)
Lemma ensureUserProfile_present (a : AuthData) (now : Z) (w : world) (d : doc) :
  db w !! getUserProfilePath hardcodedAppId (uid a) = Some d ->
  db (ensureUserProfile now {| auth := Some a; data := tt |} w).2 =
    <[getUserProfilePath hardcodedAppId (uid a) := <["lastLoginAt" := VTime now]> d]> (db w).
Proof.
  intros Hd. unfold ensureUserProfile. cbn [auth data].
  change (negb (truthy_str hardcodedAppId)) with false. cbv iota.
  rewrite db_try_catch_keeps by keeps.
  rewrite bind_doc_get, Hd.
  rewrite db_bind_keeps by keeps.
  rewrite (doc_update_present _ _ d) by exact Hd.
  cbn [snd db]. now rewrite singleton_union_insert.
Qed.

(** The touch branch answers with the re-read record when the stored
    [createdAt] is a Timestamp and no [updatedAt] has been stamped yet. *)
Lemma ensureUserProfile_present_ok (a : AuthData) (now t : Z) (w : world) (d : doc) :
  db w !! getUserProfilePath hardcodedAppId (uid a) = Some d ->
  d !! "createdAt" = Some (VTime t) ->
  d !! "updatedAt" = None ->
  exists r, (ensureUserProfile now {| auth := Some a; data := tt |} w).1 = Ok r.
Proof.
  intros Hd Hc Hu. unfold ensureUserProfile. cbn [auth data].
  change (negb (truthy_str hardcodedAppId)) with false. cbv iota.
  unfold try_catch. rewrite bind_doc_get, Hd.
  unfold bind at 1. rewrite (doc_update_present _ _ d) by exact Hd.
  rewrite bind_doc_get. cbn [db]. rewrite lookup_insert_eq.
  rewrite singleton_union_insert.
  unfold renderProfile.
  rewrite (lookup_insert_ne _ "lastLoginAt" "createdAt") by discriminate.
  rewrite (lookup_insert_ne _ "lastLoginAt" "updatedAt") by discriminate.
  rewrite lookup_insert_eq, Hc, Hu.
  unfold bind, toDateISO, ret. eexists; reflexivity.
Qed.

(** C6. For an identity never seen before, one call of ensureUserProfile
    returns and creates exactly one profile document, with role customer,
    createdAt equal to lastLoginAt, empty ownedSalons, associatedSalons and
    favoriteSalons and a null address; a second call for the same identity,
    whatever claims its token now carries, returns and changes only
    lastLoginAt: createdAt, role, displayName, photoURL and every other
    field, and every other document, are as the first call left them. *)
Theorem ensureUserProfile_create_then_touch
    (a : AuthData) (claims' : Token.t) (now now' : Z) (st : store) :
  let path := getUserProfilePath hardcodedAppId (uid a) in
  let first := run (ensureUserProfile now {| auth := Some a; data := tt |}) st in
  let second :=
    ensureUserProfile now'
      {| auth := Some {| uid := uid a; token := claims' |}; data := tt |}
      first.2 in
  st !! path = None ->
  (exists r, first.1 = Ok r) /\
  db first.2 = <[path := newUserProfile a now]> st /\
  (exists d1 d2,
      db first.2 !! path = Some d1 /\ db second.2 !! path = Some d2 /\
      d1 !! "role" = Some (VStr "customer") /\
      d1 !! "createdAt" = d1 !! "lastLoginAt" /\
      d1 !! "ownedSalons" = Some (VArr []) /\
      d1 !! "associatedSalons" = Some (VArr []) /\
      d1 !! "favoriteSalons" = Some (VArr []) /\
      d1 !! "address" = Some VNull /\
      d2 !! "lastLoginAt" = Some (VTime now') /\
      (forall k, k <> "lastLoginAt" -> d2 !! k = d1 !! k)) /\
  (exists r, second.1 = Ok r) /\
  (forall q, q <> path ->
     db first.2 !! q = st !! q /\ db second.2 !! q = st !! q).
Proof.
  intros path first second Habs.
  assert (Hfirst : first =
            (Ok (<["createdAt" := VIso now]>
                   (<["lastLoginAt" := VIso now]> (newUserProfile a now))),
             World (<[path := newUserProfile a now]> st) [])).
  { unfold first, run. now rewrite ensureUserProfile_absent. }
  assert (Hd1 : db first.2 !! path = Some (newUserProfile a now)).
  { rewrite Hfirst. cbn [snd db]. apply lookup_insert_eq. }
  assert (Hsecond : db second.2 =
            <[path := <["lastLoginAt" := VTime now']> (newUserProfile a now)]>
              (db first.2)).
  { unfold second.
    exact (ensureUserProfile_present {| uid := uid a; token := claims' |}
             now' first.2 _ Hd1). }
  split; [rewrite Hfirst; eexists; reflexivity|].
  split; [rewrite Hfirst; reflexivity|].
  split.
  { exists (newUserProfile a now),
      (<["lastLoginAt" := VTime now']> (newUserProfile a now)).
    split; [exact Hd1|].
    split; [rewrite Hsecond; apply lookup_insert_eq|].
    do 6 (split; [reflexivity|]).
    split; [apply lookup_insert_eq|].
    intros k Hk. apply lookup_insert_ne. congruence. }
  split.
  { unfold second.
    apply (ensureUserProfile_present_ok {| uid := uid a; token := claims' |}
             now' now first.2 (newUserProfile a now) Hd1); reflexivity. }
  intros q Hq.
  assert (Hq1 : db first.2 !! q = st !! q).
  { rewrite Hfirst. cbn [snd db]. now apply lookup_insert_ne. }
  split; [exact Hq1|].
  rewrite Hsecond, lookup_insert_ne by congruence. exact Hq1.
Qed.

Lemma ensureUserProfile_create_then_touch_witness :
  (∅ : store) !! getUserProfilePath hardcodedAppId (uid alice) = None /\
  db (run (ensureUserProfile 100 {| auth := Some alice; data := tt |}) ∅).2
    = <[getUserProfilePath hardcodedAppId "u1" := newUserProfile alice 100]> ∅.
Proof.
  split; [reflexivity|].
  apply (ensureUserProfile_create_then_touch alice
           {| Token.email := Some "a@y.org"; Token.name := Some "Al";
              Token.picture := Some "http://p" |} 100 200 ∅).
  reflexivity.
Defined.

(** ** Paths *)

Lemma str_app_cons (x : ascii) (a b : string) :
  String x a +:+ b = String x (a +:+ b).
Proof. reflexivity. Qed.

Lemma str_app_assoc (a b c : string) : (a +:+ b) +:+ c = a +:+ (b +:+ c).
Proof.
  induction a as [|x a IH]; [reflexivity|].
  rewrite !str_app_cons. f_equal. exact IH.
Qed.

Lemma str_app_length (a b : string) :
  String.length (a +:+ b) = (String.length a + String.length b)%nat.
Proof.
  induction a as [|x a IH]; [reflexivity|].
  rewrite str_app_cons. cbn [String.length]. now rewrite IH.
Qed.

Lemma str_app_inv_tail (a b s : string) : a +:+ s = b +:+ s -> a = b.
Proof.
  revert b. induction a as [|x a IH]; intros [|y b] H.
  - reflexivity.
  - apply (f_equal String.length) in H.
    rewrite !str_app_length in H. cbn [String.length] in H. lia.
  - apply (f_equal String.length) in H.
    rewrite !str_app_length in H. cbn [String.length] in H. lia.
  - rewrite !str_app_cons in H. injection H as -> H. f_equal. now apply IH.
Qed.

Lemma getUserProfilePath_inj (appId u v : string) :
  getUserProfilePath appId u = getUserProfilePath appId v -> u = v.
Proof.
  unfold getUserProfilePath. intros H.
  apply (inj (String.app _)) in H. apply (inj (String.app _)) in H.
  apply (inj (String.app _)) in H. now apply str_app_inv_tail in H.
Qed.

(** Two application ids give the same profile path only when equal. *)
Lemma getUserProfilePath_appId_inj (a b u : string) :
  getUserProfilePath a u = getUserProfilePath b u -> a = b.
Proof.
  unfold getUserProfilePath. intros H.
  apply (inj (String.app _)) in H.
  rewrite <- !str_app_assoc in H. apply str_app_inv_tail in H.
  apply str_app_inv_tail in H. now apply str_app_inv_tail in H.
Qed.

(** A salon document and a profile document never share a path. *)
Lemma salon_path_ne_profile (appId id u : string) :
  getSalonsCollectionPath appId +:+ "/" +:+ id <> getUserProfilePath appId u.
Proof.
  unfold getSalonsCollectionPath, getUserProfilePath. intros H.
  rewrite !str_app_assoc in H.
  apply (inj (String.app _)) in H. apply (inj (String.app _)) in H.
  discriminate H.
Qed.

(** ** assertAdmin *)

Lemma assertAdmin_unauthenticated {D} (request : CallableRequest D)
    (appId : string) (w : world) :
  auth request = None ->
  assertAdmin request appId w =
    (Throw (HttpsError unauthenticated
              "The function must be called while authenticated."), w).
Proof. intros H. unfold assertAdmin. now rewrite H. Qed.

Lemma assertAdmin_admin {D} (request : CallableRequest D) (a : AuthData)
    (appId : string) (w : world) :
  auth request = Some a -> isAdminIn (db w) appId (uid a) = true ->
  assertAdmin request appId w = (Ok tt, w).
Proof.
  intros Ha Hadm. unfold assertAdmin, isAdminIn in *. rewrite Ha.
  rewrite bind_doc_get.
  destruct (db w !! getUserProfilePath appId (uid a)) as [d|]; [|discriminate].
  now rewrite Hadm.
Qed.

Lemma assertAdmin_denied {D} (request : CallableRequest D) (a : AuthData)
    (appId : string) (w : world) :
  auth request = Some a -> isAdminIn (db w) appId (uid a) = false ->
  exists msg,
    assertAdmin request appId w = (Throw (HttpsError permission_denied msg), w).
Proof.
  intros Ha Hadm. unfold assertAdmin, isAdminIn in *. rewrite Ha.
  rewrite bind_doc_get.
  destruct (db w !! getUserProfilePath appId (uid a)) as [d|].
  - rewrite Hadm. eexists; reflexivity.
  - eexists; reflexivity.
Qed.

Lemma world_eta (w : world) : World (db w) (errors w) = w.
Proof. now destruct w. Qed.

Lemma promoteNewOwner_run (appId : string) (ownerEmail : option string)
    (now : Z) (o : string) (w : world) :
  promoteNewOwner appId ownerEmail now o w =
    (Ok tt, World (ownerProfileAfter appId ownerEmail now o (db w)) (errors w)).
Proof.
  unfold promoteNewOwner, ownerProfileAfter. rewrite bind_doc_get.
  destruct (db w !! getUserProfilePath appId o) as [d|] eqn:Hd.
  - destruct (is_str (d !! "role") "user").
    + rewrite (doc_update_present _ _ d) by exact Hd.
      now rewrite singleton_union_insert.
    + unfold ret. now rewrite world_eta.
  - unfold doc_set_merge. rewrite Hd. cbn [default].
    now rewrite (right_id_L ∅ (∪)).
Qed.

(** ** updateSalon *)

Lemma bind_ok {A B} (m : M A) (k : A -> M B) (w w' : world) (a : A) :
  m w = (Ok a, w') -> bind m k w = k a w'.
Proof. intros H. unfold bind. now rewrite H. Qed.

Lemma bind_throw {A B} (m : M A) (k : A -> M B) (w w' : world) (e : exn) :
  m w = (Throw e, w') -> bind m k w = (Throw e, w').
Proof. intros H. unfold bind. now rewrite H. Qed.

Lemma db_doc_update (path : string) (upd : doc) (w : world) :
  db (doc_update path upd w).2 = update_at path upd (db w).
Proof.
  unfold doc_update, update_at. now destruct (db w !! path).
Qed.

(** The effect of [updateSalon] on the database is [updateSalon_db]. *)
Lemma updateSalon_db_correct (env : Env) (now : Z)
    (request : CallableRequest UpdateSalonData.t) (w : world) :
  db (updateSalon env now request w).2 = updateSalon_db env now request (db w).
Proof.
  unfold updateSalon, updateSalon_db.
  destruct (auth request) as [a|] eqn:Ha.
  2:{ erewrite bind_throw by (now apply assertAdmin_unauthenticated).
      reflexivity. }
  destruct (isAdminIn (db w) (envAppId env) (uid a)) eqn:Hadm; cbn [negb].
  2:{ destruct (assertAdmin_denied request a (envAppId env) w Ha Hadm) as [msg Hm].
      erewrite bind_throw by exact Hm. reflexivity. }
  erewrite bind_ok by (now apply (assertAdmin_admin request a)).
  fold (updateSalon_invalid (data request)).
  destruct (updateSalon_invalid (data request)); [reflexivity|].
  unfold resolveOwner.
  destruct (opt_truthy_str (UpdateSalonData.ownerEmail (data request))).
  - destruct (getUserByEmail env _) as [o|code].
    + erewrite bind_ok by reflexivity.
      rewrite db_try_catch_keeps by keeps. cbn [opt_truthy_str default].
      destruct (truthy_str o).
      * erewrite bind_ok.
        2:{ erewrite bind_ok by apply promoteNewOwner_run. reflexivity. }
        rewrite db_bind_keeps by keeps. now rewrite db_doc_update.
      * erewrite bind_ok by reflexivity.
        rewrite db_bind_keeps by keeps. now rewrite db_doc_update.
    + unfold bind at 1. unfold bind at 1. unfold console_error.
      now destruct (String.eqb code _).
  - erewrite bind_ok by reflexivity.
    rewrite db_try_catch_keeps by keeps. cbn [opt_truthy_str].
    erewrite bind_ok by reflexivity.
    rewrite db_bind_keeps by keeps. now rewrite db_doc_update.
Qed.

Lemma update_at_lookup_ne (path q : string) (upd : doc) (st : store) :
  q <> path -> update_at path upd st !! q = st !! q.
Proof.
  intros Hq. unfold update_at. destruct (st !! path); [|reflexivity].
  apply lookup_insert_ne. congruence.
Qed.

Lemma update_at_lookup_eq (path : string) (upd : doc) (st : store) :
  update_at path upd st !! path = (fun old => upd ∪ old) <$> st !! path.
Proof.
  unfold update_at. destruct (st !! path) eqn:H; cbn.
  - apply lookup_insert_eq.
  - exact H.
Qed.

Lemma ownerProfileAfter_lookup_ne (appId : string) (oe : option string)
    (now : Z) (o q : string) (st : store) :
  q <> getUserProfilePath appId o ->
  ownerProfileAfter appId oe now o st !! q = st !! q.
Proof.
  intros Hq. unfold ownerProfileAfter.
  destruct (st !! getUserProfilePath appId o) as [d|].
  - destruct (is_str (d !! "role") "user"); [|reflexivity].
    apply lookup_insert_ne. congruence.
  - apply lookup_insert_ne. congruence.
Qed.

(** After the step the owner has a profile whose role is not ['user']. *)
Lemma ownerProfileAfter_lookup (appId : string) (oe : option string)
    (now : Z) (o : string) (st : store) :
  exists d, ownerProfileAfter appId oe now o st !! getUserProfilePath appId o = Some d
            /\ is_str (d !! "role") "user" = false.
Proof.
  unfold ownerProfileAfter.
  destruct (st !! getUserProfilePath appId o) as [d|] eqn:Hd.
  - destruct (is_str (d !! "role") "user") eqn:Hr.
    + eexists. split; [apply lookup_insert_eq|]. now rewrite lookup_insert_eq.
    + exists d. now split.
  - eexists. split; [apply lookup_insert_eq|]. reflexivity.
Qed.

(** A profile that exists with a role other than ['user'] is left alone. *)
Lemma ownerProfileAfter_settled (appId : string) (oe : option string)
    (now : Z) (o : string) (st : store) (d : doc) :
  st !! getUserProfilePath appId o = Some d ->
  is_str (d !! "role") "user" = false ->
  ownerProfileAfter appId oe now o st = st.
Proof. intros Hd Hr. unfold ownerProfileAfter. now rewrite Hd, Hr. Qed.

Lemma is_str_admin_not_user (v : option value) :
  is_str v "admin" = true -> is_str v "user" = false.
Proof.
  destruct v as [[]|]; cbn; try discriminate.
  intros H. apply String.eqb_eq in H. now subst.
Qed.

Lemma isAdminIn_ownerProfileAfter (appId : string) (oe : option string)
    (now : Z) (o c : string) (st : store) :
  isAdminIn st appId c = true ->
  isAdminIn (ownerProfileAfter appId oe now o st) appId c = true.
Proof.
  unfold isAdminIn. intros H.
  destruct (st !! getUserProfilePath appId c) as [d|] eqn:Hd; [|discriminate].
  destruct (decide (getUserProfilePath appId c = getUserProfilePath appId o))
    as [Heq|Hne].
  - rewrite Heq in *.
    rewrite (ownerProfileAfter_settled _ _ _ _ _ d Hd)
      by now apply is_str_admin_not_user.
    now rewrite Hd.
  - rewrite ownerProfileAfter_lookup_ne by exact Hne. now rewrite Hd.
Qed.

Lemma isAdminIn_update_at (appId id c : string) (upd : doc) (st : store) :
  isAdminIn (update_at (getSalonsCollectionPath appId +:+ "/" +:+ id) upd st)
            appId c = isAdminIn st appId c.
Proof.
  unfold isAdminIn. rewrite update_at_lookup_ne; [reflexivity|].
  intros H. symmetry in H. now apply salon_path_ne_profile in H.
Qed.

Lemma salonUpdateData_off_updatedAt (now1 now2 : Z) (n : option string)
    (a : option value) (d : option string) (f : string) :
  f <> "updatedAt" ->
  salonUpdateData now2 n a d !! f = salonUpdateData now1 n a d !! f.
Proof.
  intros Hf. unfold salonUpdateData, set_if_str, set_if, set_opt.
  repeat case_match; rewrite ?lookup_insert; repeat case_decide;
    rewrite ?lookup_singleton_ne by congruence; reflexivity.
Qed.

Lemma same_up_to_updatedAt_refl (path : string) (st : store) :
  same_up_to_updatedAt path st st.
Proof. split; [reflexivity|]. now destruct (st !! path). Qed.

Lemma union_agree_off (u1 u2 old : doc) (f : string) :
  u2 !! f = u1 !! f -> (u2 ∪ (u1 ∪ old)) !! f = (u1 ∪ old) !! f.
Proof.
  intros H. rewrite !lookup_union, H.
  destruct (u1 !! f), (old !! f); reflexivity.
Qed.

(** Patching a document twice with patches that agree off [updatedAt]. *)
Lemma update_at_replay (path : string) (u1 u2 : doc) (st : store) :
  (forall f, f <> "updatedAt" -> u2 !! f = u1 !! f) ->
  same_up_to_updatedAt path (update_at path u1 st)
    (update_at path u2 (update_at path u1 st)).
Proof.
  intros Hu. split.
  - intros q Hq. now rewrite update_at_lookup_ne.
  - rewrite !update_at_lookup_eq. destruct (st !! path) as [old|]; cbn; [|exact I].
    intros f Hf. apply union_agree_off. now apply Hu.
Qed.

Lemma update_at_twice (path : string) (u : doc) (st : store) :
  update_at path u (update_at path u st) = update_at path u st.
Proof.
  unfold update_at at 2 3. destruct (st !! path) as [old|] eqn:Hold.
  - unfold update_at. rewrite lookup_insert_eq, insert_insert_eq.
    f_equal. apply map_eq. intros f. now apply union_agree_off.
  - unfold update_at. now rewrite Hold.
Qed.

Lemma insert_agree_off (u1 u2 : doc) (v : value) (f : string) :
  u2 !! f = u1 !! f -> <["ownerId" := v]> u2 !! f = <["ownerId" := v]> u1 !! f.
Proof. intros H. rewrite !lookup_insert. now case_decide. Qed.

(** C9. Ownership transfer is idempotent: when updateSalon is invoked a
    second time with the same request, every document is as the first
    invocation left it, the salon's refreshed updatedAt stamp apart. In
    particular the salon's ownerId is the same and the owner's profile is
    not written again; replayed at the same instant the database is
    exactly the same. *)
Theorem updateSalon_idempotent (env : Env) (now1 now2 : Z)
    (request : CallableRequest UpdateSalonData.t) (st : store) :
  let once := run (updateSalon env now1 request) st in
  let twice := updateSalon env now2 request once.2 in
  let salonDocRef :=
    getSalonsCollectionPath (envAppId env) +:+ "/"
      +:+ UpdateSalonData.id (data request) in
  same_up_to_updatedAt salonDocRef (db once.2) (db twice.2) /\
  (forall o, db twice.2 !! getUserProfilePath (envAppId env) o
             = db once.2 !! getUserProfilePath (envAppId env) o) /\
  (now2 = now1 -> db twice.2 = db once.2).
Proof.
  intros once twice sp.
  assert (Hgoal : same_up_to_updatedAt sp (db once.2) (db twice.2) /\
                  (now2 = now1 -> db twice.2 = db once.2)).
  { unfold twice, once, run. rewrite !updateSalon_db_correct. cbn [db].
    set (oe := UpdateSalonData.ownerEmail (data request)).
    set (upd := fun now => salonUpdateData now (UpdateSalonData.name (data request))
                  (UpdateSalonData.address (data request))
                  (UpdateSalonData.description (data request))).
    (* the calls that write nothing *)
    assert (Hnone : forall now,
               updateSalon_db env now request st = st ->
               (forall now', updateSalon_db env now' request st = st) ->
               same_up_to_updatedAt sp (updateSalon_db env now1 request st)
                 (updateSalon_db env now2 request
                    (updateSalon_db env now1 request st)) /\
               (now2 = now1 ->
                updateSalon_db env now2 request (updateSalon_db env now1 request st)
                = updateSalon_db env now1 request st)).
    { intros _ _ Hall. rewrite !Hall.
      split; [apply same_up_to_updatedAt_refl|reflexivity]. }
    (* the calls that patch the salon *)
    assert (Hsome : forall (u : Z -> doc) (Y : store),
               (forall f, f <> "updatedAt" -> u now2 !! f = u now1 !! f) ->
               updateSalon_db env now1 request st = update_at sp (u now1) Y ->
               updateSalon_db env now2 request (update_at sp (u now1) Y)
               = update_at sp (u now2) (update_at sp (u now1) Y) ->
               same_up_to_updatedAt sp (updateSalon_db env now1 request st)
                 (updateSalon_db env now2 request
                    (updateSalon_db env now1 request st)) /\
               (now2 = now1 ->
                updateSalon_db env now2 request (updateSalon_db env now1 request st)
                = updateSalon_db env now1 request st)).
    { intros u Y Hu H1 H2. rewrite H1, H2. split.
      - now apply update_at_replay.
      - intros ->. apply update_at_twice. }
    destruct (auth request) as [a|] eqn:Ha.
    2:{ apply (Hnone now1); [|intros now']; unfold updateSalon_db;
          now rewrite Ha. }
    destruct (isAdminIn st (envAppId env) (uid a)) eqn:Hadm.
    2:{ apply (Hnone now1); [|intros now']; unfold updateSalon_db;
          now rewrite Ha, Hadm. }
    destruct (updateSalon_invalid (data request)) eqn:Hinv.
    { apply (Hnone now1); [|intros now']; unfold updateSalon_db;
        now rewrite Ha, Hadm, Hinv. }
    assert (Hadm' : forall u Y,
               isAdminIn Y (envAppId env) (uid a) = true ->
               isAdminIn (update_at sp u Y) (envAppId env) (uid a) = true).
    { intros u Y HY. unfold sp. now rewrite isAdminIn_update_at. }
    destruct (opt_truthy_str oe) eqn:Hoe.
    - destruct (getUserByEmail env (default "" oe)) as [o|code] eqn:Hres.
      2:{ apply (Hnone now1); [|intros now']; unfold updateSalon_db;
            fold oe; now rewrite Ha, Hadm, Hinv, Hoe, Hres. }
      destruct (truthy_str o) eqn:Ho.
      + apply (Hsome (fun now => <["ownerId" := VStr o]> (upd now))
                 (ownerProfileAfter (envAppId env) oe now1 o st)).
        * intros f Hf. apply insert_agree_off.
          now apply salonUpdateData_off_updatedAt.
        * unfold updateSalon_db. fold oe sp.
          now rewrite Ha, Hadm, Hinv, Hoe, Hres, Ho.
        * unfold updateSalon_db at 1. fold oe sp.
          rewrite Ha, Hadm' by now apply isAdminIn_ownerProfileAfter.
          cbn [negb]. rewrite Hinv, Hoe, Hres, Ho.
          destruct (ownerProfileAfter_lookup (envAppId env) oe now1 o st)
            as (d & Hd & Hr).
          rewrite (ownerProfileAfter_settled _ _ now2 o _ d); [reflexivity| |exact Hr].
          rewrite update_at_lookup_ne; [exact Hd|].
          intros H. symmetry in H. now apply salon_path_ne_profile in H.
      + apply (Hsome upd st).
        * intros f Hf. now apply salonUpdateData_off_updatedAt.
        * unfold updateSalon_db. fold oe sp.
          now rewrite Ha, Hadm, Hinv, Hoe, Hres, Ho.
        * unfold updateSalon_db at 1. fold oe sp.
          rewrite Ha, Hadm' by exact Hadm.
          cbn [negb]. now rewrite Hinv, Hoe, Hres, Ho.
    - apply (Hsome upd st).
      + intros f Hf. now apply salonUpdateData_off_updatedAt.
      + unfold updateSalon_db. fold oe sp.
        now rewrite Ha, Hadm, Hinv, Hoe.
      + unfold updateSalon_db at 1. fold oe sp.
        rewrite Ha, Hadm' by exact Hadm.
        cbn [negb]. now rewrite Hinv, Hoe. }
  destruct Hgoal as [Hsame Heq]. split; [exact Hsame|]. split; [|exact Heq].
  intros o. apply Hsame. intros H. symmetry in H.
  now apply salon_path_ne_profile in H.
Qed.

(** The three cases of the owner's profile, as the code decides them. *)
Lemma promoteNewOwner_cases (appId : string) (oe : option string) (now : Z)
    (o : string) (w : world) :
  let p := getUserProfilePath appId o in
  let w' := (promoteNewOwner appId oe now o w).2 in
  match db w !! p with
  | None => db w' !! p = Some (ownerStub oe now)
  | Some d =>
      if is_str (d !! "role") "user"
      then db w' !! p = Some (<["role" := VStr "salon"]> d)
      else db w' = db w
  end.
Proof.
  intros p w'. unfold w'. rewrite promoteNewOwner_run. cbn [snd db].
  unfold ownerProfileAfter. fold p.
  destruct (db w !! p) as [d|].
  - destruct (is_str (d !! "role") "user"); [apply lookup_insert_eq|reflexivity].
  - apply lookup_insert_eq.
Qed.

(** A profile whose role is ['customer'] is not promoted. *)
Lemma promoteNewOwner_customer (appId : string) (oe : option string) (now : Z)
    (o : string) (w : world) (d : doc) :
  db w !! getUserProfilePath appId o = Some d ->
  d !! "role" = Some (VStr "customer") ->
  db (promoteNewOwner appId oe now o w).2 = db w.
Proof.
  intros Hd Hr. pose proof (promoteNewOwner_cases appId oe now o w) as H.
  cbn zeta in H. now rewrite Hd, Hr in H.
Qed.

(** C1. On the profile that ensureUserProfile created for [alice] (role
    customer), the ownership transfer of salon [s1] to [a@x.com] by the
    administrator succeeds and stores [u1] as the salon's owner, and leaves
    the owner's profile exactly as it was: its role is still customer, it
    is not updated to the promoted role. *)
Theorem updateSalon_customer_owner_not_promoted :
  let r := run (updateSalon env_same 200 transfer_to_alice) seed_alice in
  let owner := getUserProfilePath hardcodedAppId "u1" in
  r.1 = Ok "Salon updated successfully!" /\
  (db r.2 !! (getSalonsCollectionPath hardcodedAppId +:+ "/s1"))
    ≫= (fun d => d !! "ownerId") = Some (VStr "u1") /\
  seed_alice !! owner ≫= (fun d => d !! "role") = Some (VStr "customer") /\
  db r.2 !! owner = seed_alice !! owner.
Proof. vm_compute. repeat split; reflexivity. Qed.

(** ** Resolution of the owner's email *)

Lemma updateSalon_lookup_failure (env : Env) (now : Z) (a : AuthData)
    (d : UpdateSalonData.t) (w : world) (code : string) :
  isAdminIn (db w) (envAppId env) (uid a) = true ->
  updateSalon_invalid d = false ->
  opt_truthy_str (UpdateSalonData.ownerEmail d) = true ->
  getUserByEmail env (default "" (UpdateSalonData.ownerEmail d)) = AuthError code ->
  updateSalon env now {| auth := Some a; data := d |} w =
    (Throw
       (if String.eqb code "auth/user-not-found"
        then HttpsError not_found
               ("User with email " +:+ default "" (UpdateSalonData.ownerEmail d)
                +:+ " not found. Please ensure the user exists.")
        else HttpsError internal "Failed to verify new owner email."),
     World (db w) (errors w ++ ["Error looking up new owner by email:"])).
Proof.
  intros Hadm Hinv Hoe Hres. unfold updateSalon. cbn [auth data].
  erewrite bind_ok by (now apply (assertAdmin_admin _ a)).
  fold (updateSalon_invalid d). rewrite Hinv.
  unfold resolveOwner. rewrite Hoe, Hres.
  unfold bind, console_error. now destruct (String.eqb code _).
Qed.

Lemma updateSalon_owner_stored (env : Env) (now : Z) (a : AuthData)
    (d : UpdateSalonData.t) (w : world) (o : string) (sd : doc) :
  isAdminIn (db w) (envAppId env) (uid a) = true ->
  updateSalon_invalid d = false ->
  opt_truthy_str (UpdateSalonData.ownerEmail d) = true ->
  getUserByEmail env (default "" (UpdateSalonData.ownerEmail d)) = UserRecord o ->
  truthy_str o = true ->
  db w !! (getSalonsCollectionPath (envAppId env) +:+ "/" +:+ UpdateSalonData.id d)
    = Some sd ->
  let r := updateSalon env now {| auth := Some a; data := d |} w in
  r.1 = Ok "Salon updated successfully!" /\
  exists sd',
    db r.2 !! (getSalonsCollectionPath (envAppId env) +:+ "/" +:+ UpdateSalonData.id d)
      = Some sd' /\ sd' !! "ownerId" = Some (VStr o).
Proof.
  intros Hadm Hinv Hoe Hres Ho Hsd r. unfold r, updateSalon. cbn [auth data].
  erewrite bind_ok by (now apply (assertAdmin_admin _ a)).
  fold (updateSalon_invalid d). rewrite Hinv.
  unfold resolveOwner. rewrite Hoe, Hres.
  erewrite bind_ok by reflexivity. cbn [opt_truthy_str default]. rewrite Ho.
  unfold try_catch.
  erewrite bind_ok.
  2:{ erewrite bind_ok by apply promoteNewOwner_run. reflexivity. }
  erewrite bind_ok.
  2:{ apply doc_update_present. cbn [db].
      rewrite ownerProfileAfter_lookup_ne; [exact Hsd|].
      apply salon_path_ne_profile. }
  cbn [ret fst snd db]. split; [reflexivity|].
  eexists. split; [apply lookup_insert_eq|].
  rewrite lookup_union, lookup_insert_eq. now destruct (sd !! "ownerId").
Qed.

(** [addSalon] never consults the identity provider: the email itself is
    stored as the owner identifier. *)
Lemma addSalon_stores_email (env : Env) (now : Z) (a : AuthData)
    (d : AddSalonData.t) (w : world) :
  isAdminIn (db w) (envAppId env) (uid a) = true ->
  addSalon_invalid d = false ->
  db w !! (getSalonsCollectionPath (envAppId env) +:+ "/" +:+ autoId env) = None ->
  let r := addSalon env now {| auth := Some a; data := d |} w in
  r.1 = Ok (autoId env, "Salon added successfully!") /\
  exists sd,
    db r.2 !! (getSalonsCollectionPath (envAppId env) +:+ "/" +:+ autoId env)
      = Some sd /\ sd !! "ownerId" = Some (VStr (AddSalonData.ownerEmail d)).
Proof.
  intros Hadm Hinv Hfree r. unfold r, addSalon. cbn [auth data].
  erewrite bind_ok by (now apply (assertAdmin_admin _ a)).
  fold (addSalon_invalid d). rewrite Hinv.
  unfold try_catch, bind, collection_add. rewrite Hfree.
  cbn [ret fst snd db]. split; [reflexivity|].
  eexists. split; [apply lookup_insert_eq|]. reflexivity.
Qed.

Lemma addSalon_resolves_owner_email_fails : ~ addSalon_resolves_owner_email.
Proof.
  intros H.
  destruct (H env_same 300 root (data add_for_stranger) (seed hardcodedAppId))
    as [msg Hmsg]; try reflexivity.
  vm_compute in Hmsg. discriminate Hmsg.
Qed.

(** C3. The owner's email is resolved through the identity provider by
    updateSalon only. For an administrator's well-formed updateSalon call
    that supplies ownerEmail: when the lookup fails the call writes nothing
    and fails with NotFound if the error code is auth/user-not-found and
    with Internal for any other code; when it yields an account, the
    account's uid is what is stored as the salon's ownerId. For an
    administrator's well-formed addSalon call the identity provider is not
    consulted: whatever it would answer, the call succeeds and stores the
    supplied ownerEmail itself as the salon's ownerId. *)
Theorem owner_email_resolution (env : Env) (now : Z) (a : AuthData) (st : store) :
  isAdminIn st (envAppId env) (uid a) = true ->
  (forall d : UpdateSalonData.t,
      updateSalon_invalid d = false ->
      opt_truthy_str (UpdateSalonData.ownerEmail d) = true ->
      let r := run (updateSalon env now {| auth := Some a; data := d |}) st in
      let salonDocRef :=
        getSalonsCollectionPath (envAppId env) +:+ "/" +:+ UpdateSalonData.id d in
      match getUserByEmail env (default "" (UpdateSalonData.ownerEmail d)) with
      | AuthError code =>
          db r.2 = st /\
          exists msg,
            r.1 = Throw (HttpsError
                           (if String.eqb code "auth/user-not-found"
                            then not_found else internal) msg)
      | UserRecord o =>
          truthy_str o = true ->
          forall sd, st !! salonDocRef = Some sd ->
            r.1 = Ok "Salon updated successfully!" /\
            exists sd', db r.2 !! salonDocRef = Some sd' /\
                        sd' !! "ownerId" = Some (VStr o)
      end) /\
  (forall d : AddSalonData.t,
      addSalon_invalid d = false ->
      let salonDocRef :=
        getSalonsCollectionPath (envAppId env) +:+ "/" +:+ autoId env in
      st !! salonDocRef = None ->
      let r := run (addSalon env now {| auth := Some a; data := d |}) st in
      r.1 = Ok (autoId env, "Salon added successfully!") /\
      exists sd, db r.2 !! salonDocRef = Some sd /\
                 sd !! "ownerId" = Some (VStr (AddSalonData.ownerEmail d))).
Proof.
  intros Hadm. split.
  - intros d Hinv Hoe r sp.
    destruct (getUserByEmail env _) as [o|code] eqn:Hres.
    + intros Ho sd Hsd.
      exact (updateSalon_owner_stored env now a d (World st []) o sd
               Hadm Hinv Hoe Hres Ho Hsd).
    + unfold r, run.
      rewrite (updateSalon_lookup_failure env now a d (World st []) code
                 Hadm Hinv Hoe Hres).
      split; [reflexivity|]. cbn [fst].
      destruct (String.eqb code _); eexists; reflexivity.
  - intros d Hinv sp Hfree.
    exact (addSalon_stores_email env now a d (World st []) Hadm Hinv Hfree).
Qed.

Lemma owner_email_resolution_witness :
  isAdminIn (seed hardcodedAppId) (envAppId env_same) (uid root) = true /\
  (run (addSalon env_same 300 add_for_stranger) (seed hardcodedAppId)).1
    = Ok ("s2", "Salon added successfully!").
Proof.
  split; [reflexivity|].
  destruct (owner_email_resolution env_same 300 root (seed hardcodedAppId)
              eq_refl) as [_ Hadd].
  apply (Hadd (data add_for_stranger)); reflexivity.
Defined.

(** ** The profile document key *)

(** Paths built from the hardcoded id and from the environment agree
    exactly when FIREBASE_APP_ID holds the hardcoded id. *)
Lemma profile_paths_agree_iff (env : Env) (u : string) :
  getUserProfilePath hardcodedAppId u = getUserProfilePath (envAppId env) u
  <-> envAppId env = hardcodedAppId.
Proof.
  split.
  - intros H. symmetry. now apply getUserProfilePath_appId_inj in H.
  - now intros ->.
Qed.

(** C4. With FIREBASE_APP_ID unset, the profile that ensureUserProfile
    wrote for [u1] is not the document the other handlers read: the two
    keys differ, updateAuthUserProfile on one's own profile fails with
    NotFound, getAuthUserProfile answers null, and an administrator
    recorded under the hardcoded id is accepted by getAllUserProfiles but
    refused by searchUsersByEmail. *)
Theorem profile_key_differs_when_env_unset :
  let st := seed_alice in
  getUserProfilePath hardcodedAppId "u1"
    <> getUserProfilePath (envAppId env_unset) "u1" /\
  is_Some (st !! getUserProfilePath hardcodedAppId "u1") /\
  (run (updateAuthUserProfile env_unset 200 alice_sets_phone) st).1
    = Throw (HttpsError not_found "Target user profile not found.") /\
  (run (getAuthUserProfile env_unset 200 {| auth := Some alice; data := None |}) st).1
    = Ok None /\
  (exists l, (run (getAllUserProfiles 200 {| auth := Some root; data := tt |}) st).1
             = Ok l) /\
  (run (searchUsersByEmail env_unset {| auth := Some root; data := VStr "a@" |}) st).1
    = Throw (HttpsError permission_denied "User profile not found.").
Proof.
  cbn zeta. split; [|split; [|split; [|split; [|split]]]].
  - intros H. apply getUserProfilePath_appId_inj in H. discriminate H.
  - vm_compute. eexists; reflexivity.
  - vm_compute. reflexivity.
  - vm_compute. reflexivity.
  - vm_compute. eexists; reflexivity.
  - vm_compute. reflexivity.
Qed.

(** C8. A caller who is no administrator and names an absent target gets
    NotFound from updateAuthUserProfile, not PermissionDenied: the target
    is read before the permission check, so the outcome tells whether the
    target exists (an existing target gives PermissionDenied). On the same
    input getAuthUserProfile checks the permission first. *)
Theorem updateAuthUserProfile_reads_target_before_permission :
  (run (updateAuthUserProfile env_same 200 (carol_renames "ghost")) seed_users).1
    = Throw (HttpsError not_found "Target user profile not found.") /\
  (run (updateAuthUserProfile env_same 200 (carol_renames "u1")) seed_users).1
    = Throw (HttpsError permission_denied
               "You do not have permission to update other user profiles.") /\
  isAdminIn seed_users (envAppId env_same) (uid carol) = false /\
  (run (getAuthUserProfile env_same 200
          {| auth := Some carol; data := Some "ghost" |}) seed_users).1
    = Throw (HttpsError permission_denied
               "You do not have permission to fetch other user profiles.").
Proof. vm_compute. repeat split; reflexivity. Qed.

(** ** updateAuthUserProfile *)

(** Taking [role] out of the request and putting it back changes nothing. *)
Lemma role_reinsert (fields : doc) (r : value) :
  fields !! "role" = Some r ->
  <["role" := r]> (delete "targetUid" (delete "role" fields))
  = delete "targetUid" fields.
Proof.
  intros Hr. apply map_eq. intros k.
  destruct (decide (k = "role")) as [->|Hk].
  - rewrite lookup_insert_eq, lookup_delete_ne by discriminate. now rewrite Hr.
  - rewrite lookup_insert_ne by congruence.
    destruct (decide (k = "targetUid")) as [->|Hk'].
    + now rewrite !lookup_delete_eq.
    + rewrite !lookup_delete_ne by congruence. reflexivity.
Qed.

Lemma role_absent (fields : doc) :
  fields !! "role" = None ->
  delete "targetUid" (delete "role" fields) = delete "targetUid" fields.
Proof. intros Hr. now rewrite (delete_id fields "role"). Qed.

Ltac run_handler :=
  repeat first
    [ progress cbn [fst snd db errors]
    | progress unfold bind, ret, throw, try_catch, doc_get, console_error
    | match goal with
      | |- context [match ?x with _ => _ end] =>
          lazymatch x with
          | context [match _ with _ => _ end] => fail
          | _ => destruct x eqn:?
          end
      end ].

Ltac effect_case a cur Hcur :=
  solve [ left; eexists; split; reflexivity
        | right; exists a, cur;
          repeat match goal with
                 | H : doc_update _ _ _ = _ |- _ =>
                     unfold doc_update in H; rewrite Hcur in H
                 end;
          simplify_eq; repeat split; first [reflexivity | assumption] ].

(** What [updateAuthUserProfile] does to the database: nothing, with an
    error; or one patch of the target's existing profile. *)
Lemma updateAuthUserProfile_effect (env : Env) (now : Z)
    (request : CallableRequest UpdateData.t) (w : world) :
  let r := updateAuthUserProfile env now request w in
  (exists e, r.1 = Throw e /\ db r.2 = db w) \/
  (exists a cur,
      auth request = Some a /\
      let p := getUserProfilePath (envAppId env)
                 (str_or (UpdateData.targetUid (data request)) (uid a)) in
      db w !! p = Some cur /\
      db r.2 = <[p := finalUpdates_of now (data request) ∪ cur]> (db w)).
Proof.
  intros r. unfold r, updateAuthUserProfile.
  destruct (auth request) as [a|] eqn:Ha; [|left; eexists; split; reflexivity].
  set (p := getUserProfilePath (envAppId env)
              (str_or (UpdateData.targetUid (data request)) (uid a))).
  rewrite bind_doc_get.
  destruct (db w !! p) as [cur|] eqn:Hcur; [|left; eexists; split; reflexivity].
  destruct (UpdateData.fields (data request) !! "role") as [rv|] eqn:Hrole.
  - rewrite (role_reinsert _ rv Hrole). fold (finalUpdates_of now (data request)).
    run_handler; effect_case a cur Hcur.
  - rewrite (role_absent _ Hrole). fold (finalUpdates_of now (data request)).
    run_handler; effect_case a cur Hcur.
Qed.

Lemma finalUpdates_of_lookup (now : Z) (d : UpdateData.t) (f : string) :
  f <> "updatedAt" -> f <> "targetUid" ->
  finalUpdates_of now d !! f = UpdateData.fields d !! f.
Proof.
  intros H1 H2. unfold finalUpdates_of.
  rewrite lookup_insert_ne, lookup_delete_ne by congruence. reflexivity.
Qed.





Lemma mirror_failure_not_surfaced_fails : ~ mirror_failure_not_surfaced.
Proof.
  intros H.
  specialize (H env_same env_mirror_down 200 alice_renames seed_alice
                "User profile updated successfully!" eq_refl
                (fun _ _ => eq_refl) eq_refl).
  vm_compute in H. discriminate H.
Qed.

Ltac mirror_cases Hcur Hacc Hrej a cur :=
  repeat first
    [ progress cbn [fst snd db errors app]
    | progress unfold bind, ret, throw, try_catch, doc_get, doc_update,
        console_error
    | rewrite Hcur | rewrite Hacc
    | match goal with
      | |- context [match ?x with _ => _ end] =>
          lazymatch x with
          | context [match _ with _ => _ end] => fail
          | _ => destruct x eqn:?
          end
      end ];
  let Hok := fresh "Hok" in
  intros Hok; try discriminate Hok;
  try (match goal with
       | H : updateUser _ ?u ?p = None |- _ =>
           let Hc := fresh "Hc" in
           destruct (Hrej u p) as [? Hc]; rewrite H in Hc; discriminate Hc
       end);
  (split; [reflexivity|]);
  (split; [exists a, cur|]);
  repeat split; first [reflexivity | assumption].

(** C5. The propagation to the identity provider is not best-effort: it
    runs inside the same try block as the profile write. When a call would
    succeed with a provider that accepts the update, then with a provider
    that rejects it the profile write is committed all the same and is not
    rolled back; if the patch carries a truthy displayName or photoURL the
    call fails with Internal and the failure is logged, and otherwise the
    provider is not called and the call succeeds. *)
Theorem updateAuthUserProfile_mirror_failure (env env' : Env) (now : Z)
    (request : CallableRequest UpdateData.t) (st : store) (msg : string) :
  FIREBASE_APP_ID env' = FIREBASE_APP_ID env ->
  (forall u props, updateUser env u props = None) ->
  (forall u props, is_Some (updateUser env' u props)) ->
  (run (updateAuthUserProfile env now request) st).1 = Ok msg ->
  let r := run (updateAuthUserProfile env now request) st in
  let r' := run (updateAuthUserProfile env' now request) st in
  let fields := UpdateData.fields (data request) in
  db r'.2 = db r.2 /\
  (exists a cur,
      auth request = Some a /\
      let p := getUserProfilePath (envAppId env)
                 (str_or (UpdateData.targetUid (data request)) (uid a)) in
      st !! p = Some cur /\
      db r'.2 = <[p := finalUpdates_of now (data request) ∪ cur]> st) /\
  if truthy (fields !! "displayName") || truthy (fields !! "photoURL")
  then r'.1 = Throw (HttpsError internal "Failed to update user profile.") /\
       errors r'.2 = ["Error updating user profile in Cloud Function:"]
  else r'.1 = Ok msg /\ errors r'.2 = [].
Proof.
  intros Happ Hacc Hrej Hok r r' fields.
  assert (Henv : envAppId env' = envAppId env)
    by (unfold envAppId; now rewrite Happ).
  subst fields. cbv zeta.
  rewrite <- (finalUpdates_of_lookup now (data request) "displayName")
    by discriminate.
  rewrite <- (finalUpdates_of_lookup now (data request) "photoURL")
    by discriminate.
  assert (Hdb : exists a cur,
             auth request = Some a /\
             st !! getUserProfilePath (envAppId env)
                     (str_or (UpdateData.targetUid (data request)) (uid a))
               = Some cur /\
             db r.2 = <[getUserProfilePath (envAppId env)
                          (str_or (UpdateData.targetUid (data request)) (uid a))
                        := finalUpdates_of now (data request) ∪ cur]> st).
  { destruct (updateAuthUserProfile_effect env now request (World st []))
      as [(e & He & _)|(a & cur & Ha & Hcur & Hd)].
    - unfold run in Hok. rewrite Hok in He. discriminate He.
    - exists a, cur. auto. }
  destruct Hdb as (a & cur & Ha & Hcur & Hdb).
  revert Hok. subst r r'. unfold run, updateAuthUserProfile.
  rewrite Ha, Henv, !bind_doc_get. cbn [db]. rewrite Hcur.
  destruct (UpdateData.fields (data request) !! "role") as [rv|] eqn:Hrole.
  - rewrite (role_reinsert _ rv Hrole). unfold finalUpdates_of.
    mirror_cases Hcur Hacc Hrej a cur.
  - rewrite (role_absent _ Hrole). unfold finalUpdates_of.
    mirror_cases Hcur Hacc Hrej a cur.
Qed.

Lemma updateAuthUserProfile_mirror_failure_witness :
  FIREBASE_APP_ID env_mirror_down = FIREBASE_APP_ID env_same /\
  (run (updateAuthUserProfile env_same 200 alice_renames) seed_alice).1
    = Ok "User profile updated successfully!" /\
  (run (updateAuthUserProfile env_mirror_down 200 alice_renames) seed_alice).1
    = Throw (HttpsError internal "Failed to update user profile.").
Proof.
  split; [reflexivity|]. split; [reflexivity|].
  apply (updateAuthUserProfile_mirror_failure env_same env_mirror_down 200
           alice_renames seed_alice "User profile updated successfully!"
           eq_refl (fun _ _ => eq_refl)
           (fun _ _ => ex_intro _ "auth/internal-error" eq_refl) eq_refl).
Defined.

(** ** searchUsersByEmail *)

(** Every string of the range [[term, term ++ x]] starts with [term]. *)
Lemma range_is_prefix (term x e : string) :
  String.leb term e = true -> String.leb e (term +:+ x) = true ->
  String.prefix term e = true.
Proof.
  revert x e. induction term as [|c t IH]; intros x e H1 H2.
  - now destruct e.
  - destruct e as [|b e]; [discriminate H1|].
    unfold String.leb in H1, H2. rewrite str_app_cons in H2.
    cbn [String.compare] in H1, H2.
    rewrite (Ascii.compare_antisym b c) in H2.
    destruct (Ascii.compare c b) eqn:Hcb; cbn [CompOpp] in H2;
      try discriminate.
    apply Ascii.compare_eq_iff in Hcb. subst b.
    cbn [String.prefix]. destruct (ascii_dec c c); [|congruence].
    now apply (IH x e).
Qed.

Lemma collectionGroup_lookup (g : string) (st : store) (pd : string * doc) :
  pd ∈ collectionGroup g st -> st !! pd.1 = Some pd.2.
Proof.
  unfold collectionGroup. rewrite merge_sort_Permutation.
  rewrite list_elem_of_In, filter_In, <- list_elem_of_In.
  intros [H _]. destruct pd as [path d]. now apply elem_of_map_to_list in H.
Qed.

Lemma query_email_range_length (g lo hi : string) (n : nat) (st : store) :
  (length (query_email_range g lo hi n st) <= n)%nat.
Proof. unfold query_email_range. rewrite length_take. lia. Qed.

Lemma query_email_range_elem (g lo hi : string) (n : nat) (st : store)
    (pd : string * doc) :
  pd ∈ query_email_range g lo hi n st ->
  st !! pd.1 = Some pd.2 /\ email_in_range lo hi pd.2 = true.
Proof.
  unfold query_email_range. intros H. apply subseteq_take in H.
  rewrite merge_sort_Permutation in H.
  rewrite list_elem_of_In, filter_In, <- list_elem_of_In in H.
  destruct H as [Hg Hr]. split; [|exact Hr].
  now apply collectionGroup_lookup in Hg.
Qed.

Lemma suggestion_keys (d : doc) (k : string) :
  is_Some (suggestion d !! k) ->
  k = "uid" \/ k = "email" \/ k = "displayName".
Proof.
  unfold suggestion, set_opt. intros [v Hv]. revert Hv.
  repeat case_match; rewrite ?lookup_insert; repeat case_decide;
    rewrite ?lookup_empty; intros; subst; auto; discriminate.
Qed.

Lemma suggestion_fields (d : doc) :
  suggestion d !! "uid" = d !! "uid" /\
  suggestion d !! "email" = d !! "email" /\
  suggestion d !! "displayName"
    = if truthy (d !! "displayName") then d !! "displayName" else d !! "email".
Proof.
  unfold suggestion, set_opt.
  repeat split; repeat case_match; subst;
    rewrite ?lookup_insert; repeat case_decide; try congruence;
    rewrite ?lookup_empty; congruence.
Qed.

(** The specification counts characters, the guard of line 70 counts
    UTF-16 code units.  One character outside the Basic Multilingual Plane
    takes two units, so a term of that single character is searched, and
    found when an email starts with it. *)
Lemma short_term_never_queries_fails : ~ short_term_never_queries.
Proof.
  intros H.
  assert (Hadm : isAdminIn astral_directory (envAppId env_same) (uid root)
                 = true) by (vm_compute; reflexivity).
  assert (Hone : (characters astral_term < 2)%nat) by (vm_compute; lia).
  specialize (H env_same root astral_term astral_directory Hadm Hone).
  vm_compute in H. discriminate H.
Qed.

(** C10. Called by an administrator, searchUsersByEmail writes nothing and
    logs no error. With a term of fewer than 2 UTF-16 code units, the
    term's length as line 70 measures it (or a term that is not a string),
    the handler is the admin check followed by returning the empty list:
    no query is issued. With a term of at least 2 code units it returns at
    most 10 records; each record has no field besides uid, email and
    displayName, comes from a stored document whose email is a string that
    starts with the term, carries that email and the document's uid, and
    carries the document's displayName when it is truthy and the email
    otherwise. *)
Theorem searchUsersByEmail_spec (env : Env) (a : AuthData) (v : value)
    (st : store) :
  isAdminIn st (envAppId env) (uid a) = true ->
  let request := {| auth := Some a; data := v |} in
  let r := run (searchUsersByEmail env request) st in
  let short :=
    r.1 = Ok [] /\
    searchUsersByEmail env request
      = (assertAdmin request (envAppId env) ;;; ret []) in
  r.2 = World st [] /\
  match v with
  | VStr term =>
      if (js_length term <? 2)%nat then short
      else
        exists l,
          r.1 = Ok l /\ (length l <= 10)%nat /\
          forall rec, In rec l ->
            (forall k, is_Some (rec !! k) ->
                       k = "uid" \/ k = "email" \/ k = "displayName") /\
            exists path d e,
              st !! path = Some d /\
              d !! "email" = Some (VStr e) /\
              String.prefix term e = true /\
              rec !! "email" = Some (VStr e) /\
              rec !! "uid" = d !! "uid" /\
              rec !! "displayName"
                = if truthy (d !! "displayName") then d !! "displayName"
                  else Some (VStr e)
  | _ => short
  end.
Proof.
  intros Hadm request r short.
  assert (Hrun : forall k : M (list doc),
             (assertAdmin request (envAppId env) ;;; k) (World st [])
             = k (World st [])).
  { intros k. now erewrite bind_ok by (now apply (assertAdmin_admin _ a)). }
  assert (Hshort : forall k : M (list doc),
             searchUsersByEmail env request
             = (assertAdmin request (envAppId env) ;;; ret []) ->
             r.2 = World st [] /\ short).
  { intros _ Heq. unfold short, r, run. rewrite Heq, Hrun. now repeat split. }
  destruct v as [| | |term| | | |];
    try (destruct (Hshort (ret [])) as [H1 H2]; [reflexivity|now split]).
  destruct (js_length term <? 2)%nat eqn:Hlen.
  { destruct (Hshort (ret [])) as [H1 H2]; [|now split].
    unfold searchUsersByEmail. cbn [data request]. now rewrite Hlen. }
  unfold r, run, searchUsersByEmail. cbn [data request]. rewrite Hlen, Hrun.
  unfold try_catch, bind, get_db, ret. cbn [fst snd db].
  split; [reflexivity|]. eexists. split; [reflexivity|]. split.
  { rewrite length_map. apply query_email_range_length. }
  intros rec Hrec. apply in_map_iff in Hrec as ([path d] & <- & Hin).
  apply list_elem_of_In, query_email_range_elem in Hin as [Hst Hrange].
  cbn [fst snd] in *. split; [apply suggestion_keys|].
  unfold email_in_range, email_of in Hrange.
  destruct (d !! "email") as [[| | |e| | | |]|] eqn:He; try discriminate Hrange.
  apply andb_true_iff in Hrange as [Hlo Hhi].
  destruct (suggestion_fields d) as (Hu & Hem & Hdn).
  exists path, d, e. rewrite Hu, Hem, Hdn, He.
  repeat split; try assumption.
  now apply (range_is_prefix term MAX_SENTINEL e).
Qed.

Lemma searchUsersByEmail_spec_witness :
  isAdminIn seed_alice (envAppId env_same) (uid root) = true /\
  (run (searchUsersByEmail env_same {| auth := Some root; data := VStr "a@" |})
       seed_alice).2 = World seed_alice [].
Proof.
  split; [reflexivity|].
  apply (searchUsersByEmail_spec env_same root (VStr "a@") seed_alice eq_refl).
Defined.

(** The length that the guard of line 70 tests: a character of the Basic
    Multilingual Plane is one unit whatever the number of its bytes, so a
    term of that one character is not searched; a character outside the
    plane is two. *)
Example term_length_samples :
  js_length "a@" = 2%nat /\
  (js_length euro_term = 1%nat /\ characters euro_term = 1%nat) /\
  (js_length astral_term = 2%nat /\ characters astral_term = 1%nat) /\
  run (searchUsersByEmail env_same {| auth := Some root; data := VStr euro_term |})
      astral_directory
  = (Ok [], World astral_directory []).
Proof.
  do 3 (split; [now vm_compute|]).
  unfold run, searchUsersByEmail. cbn [data].
  erewrite bind_ok by (apply (assertAdmin_admin _ root);
                       [reflexivity|vm_compute; reflexivity]).
  reflexivity.
Qed.

(** The search of the sample database for ["a@"] finds [alice]. *)
Example searchUsersByEmail_sample :
  (run (searchUsersByEmail env_same {| auth := Some root; data := VStr "a@" |})
       seed_alice).1
  = Ok [ <["uid" := VStr "u1"]>
         (<["email" := VStr "a@x.com"]> {["displayName" := VStr "Alice"]}) ].
Proof. vm_compute. reflexivity. Qed.

(** ** Concurrent first logins *)

(** Run alone, the steps of a thread are the handler. *)
Lemma step_sequential (now : Z) (a : AuthData) (w : world) :
  let s1 := step now (AtGet a) w in
  let s2 := step now s1.1 s1.2 in
  let s3 := step now s2.1 s2.2 in
  let r := ensureUserProfile now {| auth := Some a; data := tt |} w in
  s3 = (Finished r.1, r.2).
Proof.
  cbn zeta.
  assert (H1 : step now (AtGet a) w = (AtWrite a (db w !! ensureRef a), w))
    by reflexivity.
  rewrite H1. cbn [fst snd].
  unfold ensureUserProfile. cbn [auth data].
  change (negb (truthy_str hardcodedAppId)) with false. cbv iota.
  fold (ensureRef a). unfold try_catch. rewrite bind_doc_get.
  destruct (db w !! ensureRef a) as [d|] eqn:Hd; [|reflexivity].
  assert (H2 : step now (AtWrite a (Some d)) w
               = (AtReread a,
                  World (<[ensureRef a := {["lastLoginAt" := VTime now]} ∪ d]> (db w))
                        (errors w))).
  { unfold step, await. now rewrite (doc_update_present _ _ d). }
  rewrite H2. cbn [fst snd].
  rewrite !(bind_ok _ _ w _ tt (doc_update_present _ _ d w Hd)).
  unfold step, await.
  now destruct (bind (doc_get (ensureRef a)) _ _) as [[r|e] w'].
Qed.

Lemma keeps_db_ensureFailed (e : exn) : keeps_db (ensureFailed e).
Proof. keeps. Qed.

(** A store call of an invocation for identity [u] touches no document
    but the profile of [u]. *)
Lemma step_other (now : Z) (u : string) (t : thread) (w : world) (q : string) :
  thread_of u t -> q <> getUserProfilePath hardcodedAppId u ->
  thread_of u (step now t w).1 /\ db (step now t w).2 !! q = db w !! q.
Proof.
  intros Ht Hq. destruct t as [a|a [d|]|a|r]; cbn [thread_of] in Ht;
    unfold step, await, ensureRef; try rewrite Ht.
  - now split.
  - unfold doc_update.
    destruct (db w !! getUserProfilePath hardcodedAppId u); cbn [fst snd db].
    + split; [exact Ht|]. apply lookup_insert_ne. congruence.
    + now split.
  - cbn [doc_set fst snd db]. split; [exact I|].
    apply lookup_insert_ne. congruence.
  - match goal with
    | |- context [bind ?m ?k w] =>
        assert (Hk : keeps_db (bind m k)) by keeps;
        specialize (Hk w); destruct (bind m k w) as [[r|e] w']
    end; cbn [fst snd] in *.
    + split; [exact I|]. now rewrite Hk.
    + split; [exact I|]. now rewrite keeps_db_ensureFailed, Hk.
  - now split.
Qed.

Lemma run_schedule_other (u : string) (sched : list (tid * Z)) (s : race)
    (q : string) :
  thread_of u (thread1 s) -> thread_of u (thread2 s) ->
  q <> getUserProfilePath hardcodedAppId u ->
  db (shared (run_schedule sched s)) !! q = db (shared s) !! q.
Proof.
  intros H1 H2 Hq. revert s H1 H2.
  induction sched as [|[who now] sched IH]; intros s H1 H2; [reflexivity|].
  unfold run_schedule in *. cbn [fold_left]. unfold race_step at 2. cbn [fst snd].
  destruct who.
  - destruct (step_other now u (thread1 s) (shared s) q H1 Hq) as [Ht Hdb].
    rewrite IH; cbn [thread1 thread2 shared]; assumption.
  - destruct (step_other now u (thread2 s) (shared s) q H2 Hq) as [Ht Hdb].
    rewrite IH; cbn [thread1 thread2 shared]; assumption.
Qed.

Lemma run_schedule_cons (turn : tid * Z) (sched : list (tid * Z)) (s : race) :
  run_schedule (turn :: sched) s = run_schedule sched (race_step s turn).
Proof. reflexivity. Qed.

Lemma step_get (now : Z) (a : AuthData) (w : world) :
  step now (AtGet a) w = (AtWrite a (db w !! ensureRef a), w).
Proof. reflexivity. Qed.

(** The write of an invocation that read the profile as absent. *)
Lemma step_create (now : Z) (a : AuthData) (w : world) :
  step now (AtWrite a None) w
  = (Finished (Ok (renderCreated (newUserProfile a now) now)),
     World (<[ensureRef a := newUserProfile a now]> (db w)) (errors w)).
Proof. reflexivity. Qed.

Lemma first_logins_race_free_fails : ~ first_logins_race_free.
Proof.
  intros H.
  destruct (H alice (token alice) ∅ [(First, 1); (Second, 2); (First, 3)]
              [(Second, 4)] (newUserProfile alice 3))
    as (d' & Hd' & Hc); try reflexivity.
  vm_compute in Hd'. injection Hd' as <-. vm_compute in Hc. discriminate Hc.
Qed.

(** C7. Two concurrent first logins of one identity never produce two
    profile documents: whatever the schedule, the invocations write no
    document but that identity's profile. The creation path though is a
    read followed by an unconditional set, not a conditional create: an
    invocation that read the profile as absent overwrites whatever is
    stored when its set arrives, so when both invocations read before
    either writes, both answer with success and the profile left is the
    one written last; the first write is replaced whole. *)
Theorem first_logins_last_write_wins (a : AuthData) (claims' : Token.t)
    (st : store) (t1 t2 t3 t4 : Z) :
  st !! ensureRef a = None ->
  let a' := {| uid := uid a; token := claims' |} in
  (forall sched q,
      q <> ensureRef a ->
      db (shared (run_schedule sched (two_logins a claims' st))) !! q = st !! q) /\
  (forall now w,
      db (step now (AtWrite a None) w).2
      = <[ensureRef a := newUserProfile a now]> (db w)) /\
  let final :=
    run_schedule [(First, t1); (Second, t2); (First, t3); (Second, t4)]
      (two_logins a claims' st) in
  db (shared final) = <[ensureRef a := newUserProfile a' t4]> st /\
  thread1 final = Finished (Ok (renderCreated (newUserProfile a t3) t3)) /\
  thread2 final = Finished (Ok (renderCreated (newUserProfile a' t4) t4)).
Proof.
  intros Habs a'. split; [|split].
  - intros sched q Hq.
    now rewrite (run_schedule_other (uid a)).
  - reflexivity.
  - unfold two_logins. subst a'. unfold ensureRef in Habs.
    rewrite run_schedule_cons. unfold race_step.
    cbn [fst snd thread1 thread2 shared]. rewrite step_get.
    unfold ensureRef. cbn [fst snd db uid]. rewrite Habs.
    rewrite run_schedule_cons. unfold race_step.
    cbn [fst snd thread1 thread2 shared]. rewrite step_get.
    unfold ensureRef. cbn [fst snd db uid]. rewrite Habs.
    rewrite run_schedule_cons. unfold race_step.
    cbn [fst snd thread1 thread2 shared]. rewrite step_create.
    rewrite run_schedule_cons. unfold race_step.
    cbn [fst snd thread1 thread2 shared]. rewrite step_create.
    unfold ensureRef.
    cbn [run_schedule fold_left fst snd thread1 thread2 shared db uid].
    now rewrite insert_insert_eq.
Qed.

Lemma first_logins_last_write_wins_witness :
  (∅ : store) !! ensureRef alice = None /\
  db (shared (run_schedule [(First, 1); (Second, 2); (First, 3); (Second, 4)]
                (two_logins alice (token alice) ∅)))
  = <[ensureRef alice := newUserProfile alice 4]> ∅.
Proof.
  assert (Habs : (∅ : store) !! ensureRef alice = None) by reflexivity.
  split; [exact Habs|].
  apply (first_logins_last_write_wins alice (token alice) ∅ 1 2 3 4 Habs).
Defined.


(** * Further properties of the handlers *)

(** ** Authentication and authorization gates *)

(** X1. A request without a verified identity is refused with
    unauthenticated before any store access, by every callable and for
    every payload object: the database is as it was, and no error is
    logged except by ensureUserProfile, which records the refusal. The
    refusal presupposes a payload where the handler destructures one:
    called without payload, addSalon, updateSalon, deleteSalon and
    searchUsersByEmail throw a TypeError in their first statement, before
    the identity is looked at, whoever the caller is. *)
Theorem unauthenticated_request_refused (env : Env) (now : Z) (st : store)
    (add : AddSalonData.t) (upd : UpdateSalonData.t) (id : string)
    (term : value) (target : option string) (patch : UpdateData.t)
    (who : option AuthData) :
  let refused {A} : outcome A :=
    Throw (HttpsError unauthenticated
             "The function must be called while authenticated.") in
  let type_error {A} : outcome A := Throw (SdkError "TypeError") in
  (run (addSalon env now {| auth := None; data := add |}) st
     = (refused, World st []) /\
   run (updateSalon env now {| auth := None; data := upd |}) st
     = (refused, World st []) /\
   run (deleteSalon env {| auth := None; data := id |}) st
     = (refused, World st []) /\
   run (searchUsersByEmail env {| auth := None; data := term |}) st
     = (refused, World st []) /\
   run (getAllUserProfiles now {| auth := None; data := tt |}) st
     = (refused, World st []) /\
   run (getAuthUserProfile env now {| auth := None; data := target |}) st
     = (refused, World st []) /\
   run (updateAuthUserProfile env now {| auth := None; data := patch |}) st
     = (refused, World st []) /\
   run (ensureUserProfile now {| auth := None; data := tt |}) st
     = (refused, World st ["ensureUserProfile: Unauthenticated request."])) /\
  (run (destructured (addSalon env now) {| auth := who; data := None |}) st
     = (type_error, World st []) /\
   run (destructured (updateSalon env now) {| auth := who; data := None |}) st
     = (type_error, World st []) /\
   run (destructured (deleteSalon env) {| auth := who; data := None |}) st
     = (type_error, World st []) /\
   run (destructured (searchUsersByEmail env) {| auth := who; data := None |}) st
     = (type_error, World st [])) /\
  (run (destructured (addSalon env now) {| auth := None; data := Some add |}) st
     = (refused, World st []) /\
   run (destructured (updateSalon env now) {| auth := None; data := Some upd |}) st
     = (refused, World st []) /\
   run (destructured (deleteSalon env) {| auth := None; data := Some id |}) st
     = (refused, World st []) /\
   run (destructured (searchUsersByEmail env) {| auth := None; data := Some term |}) st
     = (refused, World st [])).
Proof. cbn zeta. repeat split; reflexivity. Qed.

Lemma assertAdmin_gate {D A} (request : CallableRequest D) (a : AuthData)
    (appId : string) (k : M A) (w : world) :
  auth request = Some a -> isAdminIn (db w) appId (uid a) = false ->
  exists msg,
    (assertAdmin request appId ;;; k) w
    = (Throw (HttpsError permission_denied msg), w).
Proof.
  intros Ha Hadm.
  destruct (assertAdmin_denied request a appId w Ha Hadm) as [msg Hmsg].
  exists msg. now apply bind_throw.
Qed.

(** X2. The five administrator-only callables (addSalon, updateSalon,
    deleteSalon, searchUsersByEmail, getAllUserProfiles) refuse a caller
    whose profile is missing or whose role is not admin with
    permission-denied, for every payload object: input is not validated,
    the identity provider is not consulted, nothing is written and no
    error is logged. The first four look the caller up under the
    environment's application id and under no other, getAllUserProfiles
    under the hardcoded one and under no other. *)
Theorem non_admin_refused (env : Env) (now : Z) (st : store) (a : AuthData)
    (add : AddSalonData.t) (upd : UpdateSalonData.t) (id : string)
    (term : value) :
  (isAdminIn st (envAppId env) (uid a) = false ->
   (exists msg, run (addSalon env now {| auth := Some a; data := add |}) st
                = (Throw (HttpsError permission_denied msg), World st [])) /\
   (exists msg, run (updateSalon env now {| auth := Some a; data := upd |}) st
                = (Throw (HttpsError permission_denied msg), World st [])) /\
   (exists msg, run (deleteSalon env {| auth := Some a; data := id |}) st
                = (Throw (HttpsError permission_denied msg), World st [])) /\
   (exists msg, run (searchUsersByEmail env {| auth := Some a; data := term |}) st
                = (Throw (HttpsError permission_denied msg), World st []))) /\
  (isAdminIn st hardcodedAppId (uid a) = false ->
   exists msg, run (getAllUserProfiles now {| auth := Some a; data := tt |}) st
               = (Throw (HttpsError permission_denied msg), World st [])).
Proof.
  unfold run. split; intros Hadm.
  - repeat split; eapply assertAdmin_gate; try reflexivity; assumption.
  - eapply assertAdmin_gate; [reflexivity|assumption].
Qed.

Lemma non_admin_refused_witness :
  isAdminIn admin_and_alice hardcodedAppId (uid root) = true /\
  isAdminIn admin_and_alice (envAppId env_unset) (uid root) = false /\
  exists msg,
    run (deleteSalon env_unset {| auth := Some root; data := "s1" |})
        admin_and_alice
    = (Throw (HttpsError permission_denied msg), World admin_and_alice []).
Proof.
  assert (Henv : isAdminIn admin_and_alice (envAppId env_unset) (uid root)
                 = false) by (vm_compute; reflexivity).
  split; [vm_compute; reflexivity|]. split; [exact Henv|].
  destruct (non_admin_refused env_unset 200 admin_and_alice root
              (data add_for_stranger) (data transfer_to_alice) "s1"
              (VStr "a@")) as [H _].
  destruct (H Henv) as (_ & _ & Hdel & _). exact Hdel.
Defined.

(** ** The salon callables *)

Lemma isAdminIn_off_profiles (appId c : string) (st st' : store) :
  (forall u, st' !! getUserProfilePath appId u = st !! getUserProfilePath appId u) ->
  isAdminIn st' appId c = isAdminIn st appId c.
Proof. intros H. unfold isAdminIn. now rewrite H. Qed.

(** X3. deleteSalon, called by an administrator with an id that the store
    accepts as a document identifier (not empty, at most 1500 bytes,
    without a slash, neither a single nor a double period, not starting
    with two underscores), the application id being such an identifier
    too, succeeds whether or not the salon exists and removes that
    document and nothing else: no profile is touched (a former owner keeps
    the role it was given), and a replay succeeds again and leaves the
    database as the first call left it. *)
Theorem deleteSalon_removes_only_the_salon (env : Env) (a : AuthData)
    (id : string) (st : store) :
  isAdminIn st (envAppId env) (uid a) = true ->
  is_document_id (envAppId env) = true ->
  is_document_id id = true ->
  let salonDocRef := getSalonsCollectionPath (envAppId env) +:+ "/" +:+ id in
  let request := {| auth := Some a; data := id |} in
  let once := run (deleteSalon env request) st in
  once = (Ok "Salon deleted successfully!", World (delete salonDocRef st) []) /\
  db once.2 !! salonDocRef = None /\
  (forall q, q <> salonDocRef -> db once.2 !! q = st !! q) /\
  deleteSalon env request once.2 = once.
Proof.
  intros Hadm _ Hdoc sp request once.
  assert (Hid : truthy_str id = true)
    by (apply andb_true_iff in Hdoc; tauto).
  assert (Honce : once = (Ok "Salon deleted successfully!",
                          World (delete sp st) [])).
  { unfold once, run, deleteSalon. cbn [data request].
    erewrite bind_ok by (now apply (assertAdmin_admin _ a)).
    now rewrite Hid. }
  rewrite Honce. cbn [snd db].
  split; [reflexivity|]. split; [apply lookup_delete_eq|].
  split; [intros q Hq; apply lookup_delete_ne; congruence|].
  unfold deleteSalon. cbn [data request].
  erewrite bind_ok.
  2:{ apply (assertAdmin_admin _ a); [reflexivity|]. cbn [db].
      rewrite (isAdminIn_off_profiles _ _ st); [exact Hadm|].
      intros u. apply lookup_delete_ne, salon_path_ne_profile. }
  rewrite Hid. cbn [negb]. fold sp.
  unfold try_catch, bind, doc_delete, ret. cbn [db errors].
  now rewrite delete_delete_eq.
Qed.

Lemma deleteSalon_removes_only_the_salon_witness :
  isAdminIn seed_alice (envAppId env_same) (uid root) = true /\
  is_document_id (envAppId env_same) = true /\
  is_document_id "s1" = true /\
  db (run (deleteSalon env_same {| auth := Some root; data := "s1" |})
          seed_alice).2
    !! (getSalonsCollectionPath (envAppId env_same) +:+ "/" +:+ "s1") = None.
Proof.
  split; [reflexivity|]. split; [reflexivity|]. split; [reflexivity|].
  apply (deleteSalon_removes_only_the_salon env_same root "s1" seed_alice
           eq_refl eq_refl eq_refl).
Defined.

(** X4. An administrator's salon request whose payload object lacks
    required input is refused with invalid-argument before the identity
    provider or the salon collection is touched: addSalon when name,
    address, description or ownerEmail is missing or empty; updateSalon
    when the id is missing or empty, or when none of name, address,
    description and ownerEmail is supplied non-empty; deleteSalon when the
    id is missing or empty. Nothing is written and no error is logged.
    (A request without any payload does not get this far: see X1.) *)
Theorem salon_handlers_validate_input (env : Env) (now : Z) (a : AuthData)
    (st : store) :
  isAdminIn st (envAppId env) (uid a) = true ->
  (forall add, addSalon_invalid add = true ->
     run (addSalon env now {| auth := Some a; data := add |}) st
     = (Throw (HttpsError invalid_argument
                 "Missing required salon fields or owner email."),
        World st [])) /\
  (forall upd, updateSalon_invalid upd = true ->
     run (updateSalon env now {| auth := Some a; data := upd |}) st
     = (Throw (HttpsError invalid_argument "Missing salon ID or update fields."),
        World st [])) /\
  run (deleteSalon env {| auth := Some a; data := "" |}) st
  = (Throw (HttpsError invalid_argument "Missing salon ID."), World st []).
Proof.
  intros Hadm. split; [|split].
  - intros add Hinv. unfold run, addSalon. cbn [data].
    erewrite bind_ok by (now apply (assertAdmin_admin _ a)).
    fold (addSalon_invalid add). now rewrite Hinv.
  - intros upd Hinv. unfold run, updateSalon. cbn [data].
    erewrite bind_ok by (now apply (assertAdmin_admin _ a)).
    fold (updateSalon_invalid upd). now rewrite Hinv.
  - unfold run, deleteSalon. cbn [data].
    now erewrite bind_ok by (now apply (assertAdmin_admin _ a)).
Qed.

Lemma salon_handlers_validate_input_witness :
  isAdminIn seed_alice (envAppId env_same) (uid root) = true /\
  run (deleteSalon env_same {| auth := Some root; data := "" |}) seed_alice
  = (Throw (HttpsError invalid_argument "Missing salon ID."),
     World seed_alice []).
Proof.
  split; [reflexivity|].
  apply (salon_handlers_validate_input env_same 200 root seed_alice eq_refl).
Defined.

Lemma addSalon_run (env : Env) (now : Z) (a : AuthData) (d : AddSalonData.t)
    (w : world) :
  isAdminIn (db w) (envAppId env) (uid a) = true ->
  addSalon_invalid d = false ->
  db w !! (getSalonsCollectionPath (envAppId env) +:+ "/" +:+ autoId env) = None ->
  addSalon env now {| auth := Some a; data := d |} w
  = (Ok (autoId env, "Salon added successfully!"),
     World (<[getSalonsCollectionPath (envAppId env) +:+ "/" +:+ autoId env
              := newSalonDoc now d]> (db w)) (errors w)).
Proof.
  intros Hadm Hinv Hfree. unfold addSalon. cbn [auth data].
  erewrite bind_ok by (now apply (assertAdmin_admin _ a)).
  fold (addSalon_invalid d). rewrite Hinv.
  unfold try_catch, bind, collection_add. now rewrite Hfree.
Qed.

(** X5. A successful addSalon creates exactly one document, under the
    generated id: it holds the request's name, address and description,
    the owner email as ownerId, and createdAt equal to updatedAt; every
    other document is as it was. In particular, unlike updateSalon, no
    profile is created or promoted for the owner. *)
Theorem addSalon_creates_one_document (env : Env) (now : Z) (a : AuthData)
    (d : AddSalonData.t) (st : store) :
  isAdminIn st (envAppId env) (uid a) = true ->
  addSalon_invalid d = false ->
  let salonDocRef :=
    getSalonsCollectionPath (envAppId env) +:+ "/" +:+ autoId env in
  st !! salonDocRef = None ->
  let r := run (addSalon env now {| auth := Some a; data := d |}) st in
  r.1 = Ok (autoId env, "Salon added successfully!") /\
  errors r.2 = [] /\
  db r.2 !! salonDocRef = Some (newSalonDoc now d) /\
  newSalonDoc now d !! "createdAt" = newSalonDoc now d !! "updatedAt" /\
  (forall q, q <> salonDocRef -> db r.2 !! q = st !! q) /\
  (forall u, db r.2 !! getUserProfilePath (envAppId env) u
             = st !! getUserProfilePath (envAppId env) u).
Proof.
  intros Hadm Hinv sp Hfree r. unfold r, run.
  rewrite (addSalon_run env now a d (World st []) Hadm Hinv Hfree).
  cbn [fst snd db errors]. fold sp.
  split; [reflexivity|]. split; [reflexivity|].
  split; [apply lookup_insert_eq|]. split; [reflexivity|].
  split.
  - intros q Hq. apply lookup_insert_ne. congruence.
  - intros u. apply lookup_insert_ne, salon_path_ne_profile.
Qed.

Lemma addSalon_creates_one_document_witness :
  isAdminIn (seed hardcodedAppId) (envAppId env_same) (uid root) = true /\
  addSalon_invalid (data add_for_stranger) = false /\
  db (run (addSalon env_same 300 add_for_stranger) (seed hardcodedAppId)).2
    !! (getSalonsCollectionPath (envAppId env_same) +:+ "/" +:+ autoId env_same)
  = Some (newSalonDoc 300 (data add_for_stranger)).
Proof.
  split; [reflexivity|]. split; [reflexivity|].
  assert (Hfree : seed hardcodedAppId
                    !! (getSalonsCollectionPath (envAppId env_same)
                        +:+ "/" +:+ autoId env_same) = None)
    by (vm_compute; reflexivity).
  destruct (addSalon_creates_one_document env_same 300 root
              (data add_for_stranger) (seed hardcodedAppId) eq_refl eq_refl
              Hfree) as (_ & _ & Hdoc & _).
  exact Hdoc.
Defined.

(** X6. Adding a salon and then deleting the id that addSalon returned
    restores the database: both calls succeed and every document is as it
    was before the salon was added. *)
Theorem addSalon_then_deleteSalon (env : Env) (now : Z) (a : AuthData)
    (d : AddSalonData.t) (st : store) :
  isAdminIn st (envAppId env) (uid a) = true ->
  addSalon_invalid d = false ->
  truthy_str (autoId env) = true ->
  st !! (getSalonsCollectionPath (envAppId env) +:+ "/" +:+ autoId env) = None ->
  let added := run (addSalon env now {| auth := Some a; data := d |}) st in
  let deleted :=
    deleteSalon env {| auth := Some a; data := autoId env |} added.2 in
  added.1 = Ok (autoId env, "Salon added successfully!") /\
  deleted = (Ok "Salon deleted successfully!", World st []).
Proof.
  intros Hadm Hinv Hid Hfree added deleted. unfold deleted, added, run.
  rewrite (addSalon_run env now a d (World st []) Hadm Hinv Hfree).
  cbn [fst snd]. split; [reflexivity|].
  unfold deleteSalon. cbn [data].
  erewrite bind_ok.
  2:{ apply (assertAdmin_admin _ a); [reflexivity|]. cbn [db].
      rewrite (isAdminIn_off_profiles _ _ st); [exact Hadm|].
      intros u. apply lookup_insert_ne, salon_path_ne_profile. }
  rewrite Hid. cbn [negb].
  unfold try_catch, bind, doc_delete, ret. cbn [db errors].
  now rewrite delete_insert_eq, delete_id.
Qed.

Lemma addSalon_then_deleteSalon_witness :
  isAdminIn (seed hardcodedAppId) (envAppId env_same) (uid root) = true /\
  deleteSalon env_same {| auth := Some root; data := autoId env_same |}
    (run (addSalon env_same 300 add_for_stranger) (seed hardcodedAppId)).2
  = (Ok "Salon deleted successfully!", World (seed hardcodedAppId) []).
Proof.
  split; [reflexivity|].
  assert (Hfree : seed hardcodedAppId
                    !! (getSalonsCollectionPath (envAppId env_same)
                        +:+ "/" +:+ autoId env_same) = None)
    by (vm_compute; reflexivity).
  destruct (addSalon_then_deleteSalon env_same 300 root
              (data add_for_stranger) (seed hardcodedAppId) eq_refl eq_refl
              eq_refl Hfree) as [_ Hdel].
  exact Hdel.
Defined.

Lemma updateSalon_run_owner (env : Env) (now : Z) (a : AuthData)
    (d : UpdateSalonData.t) (w : world) (o : string) :
  isAdminIn (db w) (envAppId env) (uid a) = true ->
  updateSalon_invalid d = false ->
  opt_truthy_str (UpdateSalonData.ownerEmail d) = true ->
  getUserByEmail env (default "" (UpdateSalonData.ownerEmail d)) = UserRecord o ->
  truthy_str o = true ->
  let appId := envAppId env in
  let salonDocRef := getSalonsCollectionPath appId +:+ "/" +:+ UpdateSalonData.id d in
  let st1 := ownerProfileAfter appId (UpdateSalonData.ownerEmail d) now o (db w) in
  let upd := <["ownerId" := VStr o]>
               (salonUpdateData now (UpdateSalonData.name d)
                  (UpdateSalonData.address d) (UpdateSalonData.description d)) in
  updateSalon env now {| auth := Some a; data := d |} w =
    match db w !! salonDocRef with
    | Some sd =>
        (Ok "Salon updated successfully!",
         World (<[salonDocRef := upd ∪ sd]> st1) (errors w))
    | None =>
        (Throw (HttpsError internal "Failed to update salon."),
         World st1 (errors w ++ ["Error updating salon in Cloud Function:"]))
    end.
Proof.
  intros Hadm Hinv Hoe Hres Ho appId sp st1 upd.
  unfold updateSalon. cbn [auth data].
  erewrite bind_ok by (now apply (assertAdmin_admin _ a)).
  fold (updateSalon_invalid d). rewrite Hinv.
  unfold resolveOwner. rewrite Hoe, Hres.
  erewrite bind_ok by reflexivity. cbn [opt_truthy_str default]. rewrite Ho.
  unfold try_catch.
  erewrite bind_ok.
  2:{ erewrite bind_ok by apply promoteNewOwner_run. reflexivity. }
  fold appId sp st1 upd.
  assert (Hsp : st1 !! sp = db w !! sp).
  { apply ownerProfileAfter_lookup_ne, salon_path_ne_profile. }
  destruct (db w !! sp) as [sd|] eqn:Hsd.
  - erewrite bind_ok by (apply doc_update_present; cbn [db]; exact Hsp).
    reflexivity.
  - erewrite bind_throw by (apply doc_update_absent; cbn [db]; exact Hsp).
    reflexivity.
Qed.

(** X7. When an administrator transfers a salon that does not exist to a
    resolvable owner, the application id, the salon id and the owner's
    uid being identifiers that the store accepts (not empty, at most 1500
    bytes, without a slash, neither a single nor a double period, not
    starting with two underscores), updateSalon fails with
    Internal and logs the error, but the write to the owner's profile,
    which comes first, stays: an owner without a profile has been given
    the stub with role salon, and an owner with role user has been
    promoted, although no salon was updated. *)
Theorem updateSalon_missing_salon_keeps_owner_write (env : Env) (now : Z)
    (a : AuthData) (d : UpdateSalonData.t) (st : store) (o : string) :
  isAdminIn st (envAppId env) (uid a) = true ->
  updateSalon_invalid d = false ->
  opt_truthy_str (UpdateSalonData.ownerEmail d) = true ->
  getUserByEmail env (default "" (UpdateSalonData.ownerEmail d)) = UserRecord o ->
  is_document_id (envAppId env) = true ->
  is_document_id o = true ->
  is_document_id (UpdateSalonData.id d) = true ->
  st !! (getSalonsCollectionPath (envAppId env) +:+ "/" +:+ UpdateSalonData.id d)
    = None ->
  let r := run (updateSalon env now {| auth := Some a; data := d |}) st in
  let owner := getUserProfilePath (envAppId env) o in
  r.1 = Throw (HttpsError internal "Failed to update salon.") /\
  errors r.2 = ["Error updating salon in Cloud Function:"] /\
  db r.2 = ownerProfileAfter (envAppId env) (UpdateSalonData.ownerEmail d) now o st /\
  match st !! owner with
  | None => db r.2 !! owner = Some (ownerStub (UpdateSalonData.ownerEmail d) now)
  | Some p =>
      db r.2 !! owner
      = Some (if is_str (p !! "role") "user"
              then <["role" := VStr "salon"]> p else p)
  end.
Proof.
  intros Hadm Hinv Hoe Hres _ Hodoc _ Hsp r owner. unfold r, run.
  assert (Ho : truthy_str o = true)
    by (apply andb_true_iff in Hodoc; tauto).
  rewrite (updateSalon_run_owner env now a d (World st []) o Hadm Hinv Hoe Hres Ho).
  cbn [db errors]. rewrite Hsp. cbn [fst snd db errors app].
  do 3 (split; [reflexivity|]).
  unfold ownerProfileAfter. fold owner.
  destruct (st !! owner) as [p|] eqn:Hp.
  - destruct (is_str (p !! "role") "user"); [apply lookup_insert_eq|exact Hp].
  - apply lookup_insert_eq.
Qed.

Lemma updateSalon_missing_salon_keeps_owner_write_witness :
  isAdminIn (seed hardcodedAppId) (envAppId env_same) (uid root) = true /\
  seed hardcodedAppId
    !! (getSalonsCollectionPath (envAppId env_same) +:+ "/" +:+ "s9") = None /\
  (run (updateSalon env_same 200
          {| auth := Some root; data := transfer_missing_salon |})
       (seed hardcodedAppId)).1
  = Throw (HttpsError internal "Failed to update salon.").
Proof.
  assert (Hsp : seed hardcodedAppId
                  !! (getSalonsCollectionPath (envAppId env_same) +:+ "/" +:+ "s9")
                = None) by (vm_compute; reflexivity).
  split; [reflexivity|]. split; [exact Hsp|].
  destruct (updateSalon_missing_salon_keeps_owner_write env_same 200 root
              transfer_missing_salon (seed hardcodedAppId) "u1"
              eq_refl eq_refl eq_refl eq_refl eq_refl eq_refl eq_refl Hsp)
    as [Hr _].
  exact Hr.
Defined.

Lemma salonUpdateData_updatedAt (now : Z) (n : option string)
    (a : option value) (d : option string) :
  salonUpdateData now n a d !! "updatedAt" = Some (VTime now).
Proof.
  unfold salonUpdateData, set_if_str, set_if, set_opt.
  repeat case_match; rewrite ?lookup_insert; repeat case_decide;
    try discriminate; apply lookup_singleton_eq.
Qed.

Lemma salonUpdateData_other (now : Z) (n : option string)
    (a : option value) (d : option string) (f : string) :
  f <> "updatedAt" -> f <> "name" -> f <> "address" -> f <> "description" ->
  salonUpdateData now n a d !! f = None.
Proof.
  intros H1 H2 H3 H4. unfold salonUpdateData, set_if_str, set_if, set_opt.
  repeat case_match; rewrite ?lookup_insert; repeat case_decide;
    try congruence; now apply lookup_singleton_ne.
Qed.

Lemma salonUpdateData_name (now : Z) (n : option string)
    (a : option value) (d : option string) :
  salonUpdateData now n a d !! "name"
  = if opt_truthy_str n then Some (VStr (default "" n)) else None.
Proof.
  unfold salonUpdateData, set_if_str, set_if, set_opt, opt_truthy_str.
  repeat case_match; rewrite ?lookup_insert; repeat case_decide;
    try discriminate; try reflexivity; try congruence.
Qed.

(** X8. An administrator's updateSalon without ownerEmail patches the
    existing salon document and nothing else: updatedAt becomes the
    instant of the call, a non-empty name replaces the stored one and an
    absent or empty one leaves it, and every field other than name,
    address, description and updatedAt (ownerId and createdAt among them)
    keeps its value; no other document, and no profile, is written; the
    identity provider's answer plays no part. *)
Theorem updateSalon_plain_fields (env : Env) (now : Z) (a : AuthData)
    (d : UpdateSalonData.t) (st : store) (sd : doc) :
  isAdminIn st (envAppId env) (uid a) = true ->
  updateSalon_invalid d = false ->
  opt_truthy_str (UpdateSalonData.ownerEmail d) = false ->
  let salonDocRef :=
    getSalonsCollectionPath (envAppId env) +:+ "/" +:+ UpdateSalonData.id d in
  st !! salonDocRef = Some sd ->
  let r := run (updateSalon env now {| auth := Some a; data := d |}) st in
  r.1 = Ok "Salon updated successfully!" /\
  errors r.2 = [] /\
  (forall q, q <> salonDocRef -> db r.2 !! q = st !! q) /\
  exists sd',
    db r.2 !! salonDocRef = Some sd' /\
    sd' !! "updatedAt" = Some (VTime now) /\
    sd' !! "name"
      = (if opt_truthy_str (UpdateSalonData.name d)
         then Some (VStr (default "" (UpdateSalonData.name d)))
         else sd !! "name") /\
    (forall f, f <> "updatedAt" -> f <> "name" -> f <> "address" ->
               f <> "description" -> sd' !! f = sd !! f).
Proof.
  intros Hadm Hinv Hoe sp Hsd r. unfold r, run, updateSalon. cbn [auth data].
  erewrite bind_ok by (now apply (assertAdmin_admin _ a)).
  fold (updateSalon_invalid d). rewrite Hinv.
  unfold resolveOwner. rewrite Hoe.
  erewrite bind_ok by reflexivity. cbn [opt_truthy_str].
  unfold try_catch.
  erewrite bind_ok by reflexivity.
  erewrite bind_ok by (apply doc_update_present; exact Hsd).
  cbn [ret fst snd db errors]. fold sp.
  split; [reflexivity|]. split; [reflexivity|]. split.
  { intros q Hq. apply lookup_insert_ne. congruence. }
  eexists. split; [apply lookup_insert_eq|].
  split; [|split].
  - now rewrite lookup_union, salonUpdateData_updatedAt, union_Some_l.
  - rewrite lookup_union, salonUpdateData_name.
    destruct (opt_truthy_str (UpdateSalonData.name d)).
    + now rewrite union_Some_l.
    + now rewrite (left_id_L None _).
  - intros f H1 H2 H3 H4.
    rewrite lookup_union, salonUpdateData_other by assumption.
    now rewrite (left_id_L None _).
Qed.

Lemma updateSalon_plain_fields_witness :
  isAdminIn seed_alice (envAppId env_same) (uid root) = true /\
  (run (updateSalon env_same 200 {| auth := Some root; data := rename_salon |})
       seed_alice).1 = Ok "Salon updated successfully!".
Proof.
  split; [reflexivity|].
  assert (Hsd : seed_alice
                  !! (getSalonsCollectionPath (envAppId env_same) +:+ "/" +:+ "s1")
                = Some (<["name" := VStr "Cut"]> {["ownerId" := VStr "u0"]}))
    by (vm_compute; reflexivity).
  destruct (updateSalon_plain_fields env_same 200 root rename_salon seed_alice
              _ eq_refl eq_refl eq_refl Hsd) as [Hr _].
  exact Hr.
Defined.

(** X9. A successful ownership transfer writes the salon and the owner's
    profile and nothing else: the salon gets the resolved uid as ownerId
    and the instant of the call as updatedAt; an owner without a profile
    gets the stub (the supplied email, role salon, createdAt), an owner
    whose role is user gets role salon and keeps every other field, and a
    profile with any other role is unchanged; every other document is as
    it was, and no error is logged. *)
Theorem updateSalon_transfer_writes_two_documents (env : Env) (now : Z)
    (a : AuthData) (d : UpdateSalonData.t) (st : store) (o : string) (sd : doc) :
  isAdminIn st (envAppId env) (uid a) = true ->
  updateSalon_invalid d = false ->
  opt_truthy_str (UpdateSalonData.ownerEmail d) = true ->
  getUserByEmail env (default "" (UpdateSalonData.ownerEmail d)) = UserRecord o ->
  truthy_str o = true ->
  let salonDocRef :=
    getSalonsCollectionPath (envAppId env) +:+ "/" +:+ UpdateSalonData.id d in
  let owner := getUserProfilePath (envAppId env) o in
  st !! salonDocRef = Some sd ->
  let r := run (updateSalon env now {| auth := Some a; data := d |}) st in
  r.1 = Ok "Salon updated successfully!" /\
  errors r.2 = [] /\
  (exists sd', db r.2 !! salonDocRef = Some sd' /\
               sd' !! "ownerId" = Some (VStr o) /\
               sd' !! "updatedAt" = Some (VTime now) /\
               sd' !! "createdAt" = sd !! "createdAt") /\
  db r.2 !! owner
    = match st !! owner with
      | None => Some (ownerStub (UpdateSalonData.ownerEmail d) now)
      | Some p => Some (if is_str (p !! "role") "user"
                        then <["role" := VStr "salon"]> p else p)
      end /\
  (forall q, q <> salonDocRef -> q <> owner -> db r.2 !! q = st !! q).
Proof.
  intros Hadm Hinv Hoe Hres Ho sp owner Hsd r. unfold r, run.
  rewrite (updateSalon_run_owner env now a d (World st []) o Hadm Hinv Hoe Hres Ho).
  cbn [db errors]. fold sp. rewrite Hsd. cbn [fst snd db errors].
  split; [reflexivity|]. split; [reflexivity|].
  assert (Hne : sp <> owner) by apply salon_path_ne_profile.
  split; [|split].
  - eexists. split; [apply lookup_insert_eq|].
    rewrite !lookup_union.
    rewrite lookup_insert_eq.
    rewrite !lookup_insert_ne by discriminate.
    rewrite salonUpdateData_updatedAt.
    rewrite salonUpdateData_other by discriminate.
    split; [now rewrite union_Some_l|].
    split; [now rewrite union_Some_l|].
    now rewrite (left_id_L None _).
  - rewrite lookup_insert_ne by exact Hne.
    unfold ownerProfileAfter. fold owner.
    destruct (st !! owner) as [p|] eqn:Hp.
    + destruct (is_str (p !! "role") "user"); [apply lookup_insert_eq|exact Hp].
    + apply lookup_insert_eq.
  - intros q Hq1 Hq2. rewrite lookup_insert_ne by congruence.
    now apply ownerProfileAfter_lookup_ne.
Qed.

Lemma updateSalon_transfer_writes_two_documents_witness :
  isAdminIn seed_alice (envAppId env_same) (uid root) = true /\
  errors (run (updateSalon env_same 200 transfer_to_alice) seed_alice).2 = [].
Proof.
  split; [reflexivity|].
  assert (Hsd : seed_alice
                  !! (getSalonsCollectionPath (envAppId env_same) +:+ "/" +:+ "s1")
                = Some (<["name" := VStr "Cut"]> {["ownerId" := VStr "u0"]}))
    by (vm_compute; reflexivity).
  destruct (updateSalon_transfer_writes_two_documents env_same 200 root
              (data transfer_to_alice) seed_alice "u1" _
              eq_refl eq_refl eq_refl eq_refl eq_refl Hsd) as (_ & He & _).
  exact He.
Defined.

(** ** ensureUserProfile over time *)

Lemma last_cons {A} (x d : A) (l : list A) : List.last (x :: l) d = List.last l x.
Proof.
  revert x d. induction l as [|y l IH]; intros x d; [reflexivity|].
  change (List.last (x :: y :: l) d) with (List.last (y :: l) d).
  now rewrite !IH.
Qed.

Lemma logins_touch (u : string) (ls : list (Token.t * Z)) (w : world)
    (d : doc) (t0 : Z) :
  db w !! getUserProfilePath hardcodedAppId u = Some d ->
  d !! "lastLoginAt" = Some (VTime t0) ->
  db (logins u ls w)
  = <[getUserProfilePath hardcodedAppId u
      := <["lastLoginAt" := VTime (List.last (map snd ls) t0)]> d]> (db w).
Proof.
  revert w d t0. induction ls as [|[tok t1] ls IH]; intros w d t0 Hd Ht.
  - cbn. now rewrite (insert_id d), insert_id.
  - unfold logins in *. cbn [fold_left map snd].
    rewrite last_cons.
    pose proof (ensureUserProfile_present {| uid := u; token := tok |} t1 w d Hd)
      as Hstep.
    cbn [uid] in Hstep.
    rewrite (IH _ (<["lastLoginAt" := VTime t1]> d) t1).
    + unfold login_again. cbn [fst snd]. rewrite Hstep.
      now rewrite insert_insert_eq, insert_insert_eq.
    + unfold login_again. cbn [fst snd]. rewrite Hstep. apply lookup_insert_eq.
    + apply lookup_insert_eq.
Qed.

(** X10. However many times an identity logs in after its first login,
    and whatever claims its token carries each time, there is one profile
    document for it and it is the one the first login wrote, with
    lastLoginAt moved to the instant of the latest login: createdAt,
    role, displayName, email, photoURL and the salon lists are those of
    the first login, and no other document is touched. *)
Theorem ensureUserProfile_repeated_logins (a : AuthData) (now : Z)
    (ls : list (Token.t * Z)) (st : store) :
  let path := getUserProfilePath hardcodedAppId (uid a) in
  st !! path = None ->
  let w1 := (run (ensureUserProfile now {| auth := Some a; data := tt |}) st).2 in
  let final := db (logins (uid a) ls w1) in
  final = <[path := <["lastLoginAt" := VTime (List.last (map snd ls) now)]>
                      (newUserProfile a now)]> st /\
  (forall q, q <> path -> final !! q = st !! q) /\
  (exists d, final !! path = Some d /\
             forall f, f <> "lastLoginAt" -> d !! f = newUserProfile a now !! f).
Proof.
  intros path Habs w1 final.
  assert (Hw1 : db w1 = <[path := newUserProfile a now]> st).
  { unfold w1, run. now rewrite ensureUserProfile_absent. }
  assert (Hfinal : final = <[path := <["lastLoginAt" := VTime (List.last (map snd ls) now)]>
                                       (newUserProfile a now)]> st).
  { unfold final.
    rewrite (logins_touch (uid a) ls w1 (newUserProfile a now) now).
    - fold path. rewrite Hw1. apply insert_insert_eq.
    - fold path. rewrite Hw1. apply lookup_insert_eq.
    - reflexivity. }
  split; [exact Hfinal|]. rewrite Hfinal. split.
  - intros q Hq. apply lookup_insert_ne. congruence.
  - eexists. split; [apply lookup_insert_eq|].
    intros f Hf. apply lookup_insert_ne. congruence.
Qed.

Lemma ensureUserProfile_repeated_logins_witness :
  (∅ : store) !! getUserProfilePath hardcodedAppId (uid alice) = None /\
  db (logins (uid alice) [(token carol, 150); (token root, 175)]
        (run (ensureUserProfile 100 {| auth := Some alice; data := tt |}) ∅).2)
  = <[getUserProfilePath hardcodedAppId (uid alice)
      := <["lastLoginAt" := VTime 175]> (newUserProfile alice 100)]> ∅.
Proof.
  assert (Habs : (∅ : store) !! getUserProfilePath hardcodedAppId (uid alice)
                 = None) by reflexivity.
  split; [exact Habs|].
  destruct (ensureUserProfile_repeated_logins alice 100
              [(token carol, 150); (token root, 175)] ∅ Habs) as [Hfinal _].
  exact Hfinal.
Defined.

(** X11. A login cannot be answered when the stored createdAt is not a
    Timestamp (absent, null, or a string such as a patch may have put
    there): ensureUserProfile fails with Internal and logs the error,
    after it has already written the new lastLoginAt, which stays. *)
Theorem ensureUserProfile_unreadable_createdAt (a : AuthData) (now : Z)
    (w : world) (d : doc) :
  let path := getUserProfilePath hardcodedAppId (uid a) in
  db w !! path = Some d ->
  (forall t, d !! "createdAt" <> Some (VTime t)) ->
  ensureUserProfile now {| auth := Some a; data := tt |} w
  = (Throw (HttpsError internal "Failed to set up user profile."),
     World (<[path := <["lastLoginAt" := VTime now]> d]> (db w))
           (errors w ++ ["Error in ensureUserProfile Cloud Function:"])).
Proof.
  intros path Hd Hc. unfold ensureUserProfile. cbn [auth data].
  change (negb (truthy_str hardcodedAppId)) with false. cbv iota.
  fold path. unfold try_catch. rewrite bind_doc_get, Hd.
  unfold bind at 1. rewrite (doc_update_present _ _ d) by exact Hd.
  rewrite bind_doc_get. cbn [db]. rewrite lookup_insert_eq.
  rewrite singleton_union_insert. unfold renderProfile.
  rewrite (lookup_insert_ne _ "lastLoginAt" "createdAt") by discriminate.
  destruct (d !! "createdAt") as [[| | | |t| | |]|] eqn:Hcr;
    try reflexivity.
  now destruct (Hc t).
Qed.

Lemma ensureUserProfile_unreadable_createdAt_witness :
  let path := getUserProfilePath hardcodedAppId (uid alice) in
  let d : doc := {["createdAt" := VStr "2000-01-01T00:00:00.000Z"]} in
  ({[path := d]} : store) !! path = Some d /\
  ensureUserProfile 300 {| auth := Some alice; data := tt |}
    (World {[path := d]} [])
  = (Throw (HttpsError internal "Failed to set up user profile."),
     World (<[path := <["lastLoginAt" := VTime 300]> d]> {[path := d]})
           ["Error in ensureUserProfile Cloud Function:"]).
Proof.
  intros path d.
  assert (Hd : ({[path := d]} : store) !! path = Some d)
    by apply lookup_singleton_eq.
  split; [exact Hd|].
  apply (ensureUserProfile_unreadable_createdAt alice 300
           (World {[path := d]} []) d Hd).
  intros t. unfold d. rewrite lookup_singleton_eq. discriminate.
Defined.

(** X12. When a salon is transferred to an owner who has never logged
    in, and the environment's application id is the hardcoded one, the
    owner's first login finds the stub that updateSalon wrote and takes
    the touch branch: the profile is never initialised. It holds email,
    role salon, createdAt and now lastLoginAt and nothing else (no uid,
    no displayName, no salon lists), and the record answered to the
    owner has no uid and no displayName. *)
Theorem first_login_after_transfer_keeps_stub (env : Env) (now1 now2 : Z)
    (a : AuthData) (d : UpdateSalonData.t) (st : store) (o : string)
    (sd : doc) (claims : Token.t) :
  envAppId env = hardcodedAppId ->
  isAdminIn st (envAppId env) (uid a) = true ->
  updateSalon_invalid d = false ->
  opt_truthy_str (UpdateSalonData.ownerEmail d) = true ->
  getUserByEmail env (default "" (UpdateSalonData.ownerEmail d)) = UserRecord o ->
  truthy_str o = true ->
  st !! (getSalonsCollectionPath (envAppId env) +:+ "/" +:+ UpdateSalonData.id d)
    = Some sd ->
  st !! getUserProfilePath hardcodedAppId o = None ->
  let w1 := (run (updateSalon env now1 {| auth := Some a; data := d |}) st).2 in
  let r := ensureUserProfile now2
             {| auth := Some {| uid := o; token := claims |}; data := tt |} w1 in
  let stub := ownerStub (UpdateSalonData.ownerEmail d) now1 in
  db r.2 !! getUserProfilePath hardcodedAppId o
    = Some (<["lastLoginAt" := VTime now2]> stub) /\
  (forall f, f <> "email" -> f <> "role" -> f <> "createdAt" ->
             f <> "lastLoginAt" ->
             (<["lastLoginAt" := VTime now2]> stub) !! f = None) /\
  exists record,
    r.1 = Ok record /\
    record !! "uid" = None /\ record !! "displayName" = None /\
    record !! "role" = Some (VStr "salon").
Proof.
  intros Happ Hadm Hinv Hoe Hres Ho Hsd Habs w1 r stub.
  set (owner := getUserProfilePath hardcodedAppId o).
  assert (Hw1 : db w1 !! owner = Some stub).
  { unfold w1, run.
    rewrite (updateSalon_run_owner env now1 a d (World st []) o
               Hadm Hinv Hoe Hres Ho).
    cbn [db errors]. rewrite Hsd. cbn [snd db].
    rewrite lookup_insert_ne by (rewrite Happ; apply salon_path_ne_profile).
    unfold ownerProfileAfter. cbv zeta. rewrite Happ, Habs.
    apply lookup_insert_eq. }
  split; [|split].
  - unfold r.
    rewrite (ensureUserProfile_present {| uid := o; token := claims |}
               now2 w1 stub Hw1).
    apply lookup_insert_eq.
  - intros f H1 H2 H3 H4. unfold stub, ownerStub.
    rewrite !lookup_insert_ne by congruence.
    apply lookup_singleton_ne. congruence.
  - unfold r, ensureUserProfile. cbn [auth data uid].
    change (negb (truthy_str hardcodedAppId)) with false. cbv iota.
    fold owner. unfold try_catch. rewrite bind_doc_get, Hw1.
    unfold bind at 1. rewrite (doc_update_present _ _ stub) by exact Hw1.
    rewrite bind_doc_get. cbn [db]. rewrite lookup_insert_eq.
    rewrite singleton_union_insert.
    eexists. split; [reflexivity|]. repeat split; reflexivity.
Qed.

Lemma first_login_after_transfer_keeps_stub_witness :
  seed hardcodedAppId !! getUserProfilePath hardcodedAppId "u1" = None /\
  db (ensureUserProfile 300 {| auth := Some alice; data := tt |}
        (run (updateSalon env_same 200 transfer_to_alice)
             (seed hardcodedAppId)).2).2
    !! getUserProfilePath hardcodedAppId "u1"
  = Some (<["lastLoginAt" := VTime 300]> (ownerStub (Some "a@x.com") 200)).
Proof.
  assert (Habs : seed hardcodedAppId !! getUserProfilePath hardcodedAppId "u1"
                 = None) by (vm_compute; reflexivity).
  assert (Hsd : seed hardcodedAppId
                  !! (getSalonsCollectionPath (envAppId env_same) +:+ "/" +:+ "s1")
                = Some (<["name" := VStr "Cut"]> {["ownerId" := VStr "u0"]}))
    by (vm_compute; reflexivity).
  split; [exact Habs|].
  destruct (first_login_after_transfer_keeps_stub env_same 200 300 root
              (data transfer_to_alice) (seed hardcodedAppId) "u1" _
              (token alice) eq_refl eq_refl eq_refl eq_refl eq_refl eq_refl
              Hsd Habs) as [Hdoc _].
  exact Hdoc.
Defined.

(** ** updateAuthUserProfile: authorization, validation, success *)

Lemma not_admin_isAdminIn (st : store) (appId c : string) :
  not_admin (st !! getUserProfilePath appId c) = negb (isAdminIn st appId c).
Proof.
  unfold not_admin, isAdminIn.
  now destruct (st !! getUserProfilePath appId c).
Qed.

Ltac simp_upd :=
  repeat first
    [ progress cbn [fst snd db errors app negb orb andb]
    | rewrite not_admin_isAdminIn
    | match goal with
      | H : isAdminIn _ _ _ = _ |- _ => rewrite H
      end
    | progress unfold bind, doc_get, ret, throw ].

(** X13. updateAuthUserProfile refuses with permission-denied, and
    writes and logs nothing, whenever the caller is no administrator and
    either names another user's profile or asks for a role that differs
    from the stored one; the rest of the patch is not looked at. A caller
    who is no administrator can therefore neither touch another profile
    nor change its own role. *)
Theorem updateAuthUserProfile_requires_authorization (env : Env) (now : Z)
    (a : AuthData) (d : UpdateData.t) (w : world) (cur : doc) :
  let target := str_or (UpdateData.targetUid d) (uid a) in
  db w !! getUserProfilePath (envAppId env) target = Some cur ->
  update_authorized (db w) (envAppId env) (uid a) target cur
    (UpdateData.fields d !! "role") = false ->
  exists msg,
    updateAuthUserProfile env now {| auth := Some a; data := d |} w
    = (Throw (HttpsError permission_denied msg), w).
Proof.
  intros target Hcur Hauth. unfold updateAuthUserProfile. cbn [auth data].
  fold target. rewrite bind_doc_get, Hcur.
  unfold update_authorized in Hauth. revert Hauth.
  destruct (String.eqb (uid a) target); simp_upd;
    destruct (isAdminIn (db w) (envAppId env) (uid a)) eqn:Hadm; simp_upd;
    destruct (UpdateData.fields d !! "role") as [rv|]; simp_upd;
    try (destruct (strict_eq (cur !! "role") (Some rv)); simp_upd);
    intros Hauth; try discriminate Hauth; eexists; reflexivity.
Qed.

Lemma updateAuthUserProfile_requires_authorization_witness :
  update_authorized only_alice (envAppId env_unset) (uid carol) "u1"
    {["role" := VStr "customer"]} None = false /\
  exists msg,
    updateAuthUserProfile env_unset 200 (carol_renames "u1") (World only_alice [])
    = (Throw (HttpsError permission_denied msg), World only_alice []).
Proof.
  assert (Hauth : update_authorized only_alice (envAppId env_unset) (uid carol)
                    "u1" {["role" := VStr "customer"]} None = false)
    by (vm_compute; reflexivity).
  assert (Hcur : only_alice !! getUserProfilePath (envAppId env_unset) "u1"
                 = Some {["role" := VStr "customer"]})
    by apply lookup_singleton_eq.
  split; [exact Hauth|].
  exact (updateAuthUserProfile_requires_authorization env_unset 200 carol
           (data (carol_renames "u1")) (World only_alice []) _ Hcur Hauth).
Defined.

Lemma admin_check_run (cond : bool) (appId c : string) (e : exn) (w : world) :
  (if cond then
     callerProfileSnap <- doc_get (getUserProfilePath appId c) ;;
     if not_admin callerProfileSnap then throw e else ret tt
   else ret tt) w
  = if cond && negb (isAdminIn (db w) appId c) then (Throw e, w) else (Ok tt, w).
Proof.
  destruct cond; [|reflexivity]. rewrite bind_doc_get, not_admin_isAdminIn.
  now destruct (isAdminIn (db w) appId c).
Qed.

(** The run of an authorized update of an existing profile. *)
Lemma updateAuthUserProfile_authorized_run (env : Env) (now : Z)
    (a : AuthData) (d : UpdateData.t) (w : world) (cur : doc) :
  let target := str_or (UpdateData.targetUid d) (uid a) in
  let p := getUserProfilePath (envAppId env) target in
  let fu := finalUpdates_of now d in
  db w !! p = Some cur ->
  update_authorized (db w) (envAppId env) (uid a) target cur
    (UpdateData.fields d !! "role") = true ->
  updateAuthUserProfile env now {| auth := Some a; data := d |} w
  = if match fu !! "photoURL" with
       | Some v => not_string_nor_null v
       | None => false
       end
    then (Throw (HttpsError invalid_argument
                   "photoURL must be a string URL or null."), w)
    else
      match (if truthy (fu !! "displayName") || truthy (fu !! "photoURL")
             then updateUser env target (authUpdate_of fu) else None) with
      | None => (Ok "User profile updated successfully!",
                 World (<[p := fu ∪ cur]> (db w)) (errors w))
      | Some _ =>
          (Throw (HttpsError internal "Failed to update user profile."),
           World (<[p := fu ∪ cur]> (db w))
                 (errors w ++ ["Error updating user profile in Cloud Function:"]))
      end.
Proof.
  intros target p fu Hcur Hauth. unfold updateAuthUserProfile. cbn [auth data].
  fold target p. rewrite bind_doc_get, Hcur.
  assert (Hphoto : fu !! "photoURL"
                   = delete "targetUid" (UpdateData.fields d) !! "photoURL").
  { unfold fu, finalUpdates_of. now rewrite lookup_insert_ne by discriminate. }
  unfold update_authorized in Hauth.
  assert (Htail : forall w0 : world, w0 = w ->
            try_catch
              (doc_update p fu ;;;
               (if truthy (fu !! "displayName") || truthy (fu !! "photoURL")
                then match updateUser env target (authUpdate_of fu) with
                     | None => ret tt
                     | Some code => throw (SdkError code)
                     end
                else ret tt) ;;;
               ret "User profile updated successfully!")
              (fun error =>
                 console_error "Error updating user profile in Cloud Function:" ;;;
                 throw (HttpsError internal "Failed to update user profile."))
              w0
            = match (if truthy (fu !! "displayName") || truthy (fu !! "photoURL")
                     then updateUser env target (authUpdate_of fu) else None) with
              | None => (Ok "User profile updated successfully!",
                         World (<[p := fu ∪ cur]> (db w)) (errors w))
              | Some _ =>
                  (Throw (HttpsError internal "Failed to update user profile."),
                   World (<[p := fu ∪ cur]> (db w))
                         (errors w ++ ["Error updating user profile in Cloud Function:"]))
              end).
  { intros w0 ->. unfold try_catch, bind at 1.
    rewrite (doc_update_present _ _ cur) by exact Hcur.
    destruct (truthy (fu !! "displayName") || truthy (fu !! "photoURL"));
      [destruct (updateUser env target (authUpdate_of fu))|]; reflexivity. }
  assert (Hphoto' : forall w0 : world, w0 = w ->
            (match delete "targetUid" (UpdateData.fields d) !! "photoURL" with
             | Some v =>
                 if not_string_nor_null v then
                   throw (HttpsError invalid_argument
                            "photoURL must be a string URL or null.")
                 else ret tt
             | None => ret tt
             end) w0
            = if match fu !! "photoURL" with
                 | Some v => not_string_nor_null v
                 | None => false
                 end
              then (Throw (HttpsError invalid_argument
                             "photoURL must be a string URL or null."), w)
              else (Ok tt, w)).
  { intros w0 ->. rewrite Hphoto.
    destruct (delete "targetUid" (UpdateData.fields d) !! "photoURL") as [v|];
      [destruct (not_string_nor_null v)|]; reflexivity. }
  destruct (UpdateData.fields d !! "role") as [rv|] eqn:Hrole.
  - rewrite (role_reinsert _ rv Hrole).
    fold (finalUpdates_of now d). fold fu. fold (authUpdate_of fu).
    erewrite bind_ok.
    2:{ rewrite admin_check_run.
        destruct (String.eqb (uid a) target),
                 (isAdminIn (db w) (envAppId env) (uid a));
          try reflexivity; discriminate Hauth. }
    erewrite bind_ok.
    2:{ erewrite bind_ok; [reflexivity|]. rewrite admin_check_run.
        destruct (String.eqb (uid a) target),
                 (isAdminIn (db w) (envAppId env) (uid a)),
                 (strict_eq (cur !! "role") (Some rv));
          try reflexivity; discriminate Hauth. }
    cbv beta. unfold bind at 1. rewrite (Hphoto' w eq_refl).
    destruct (match fu !! "photoURL" with
              | Some v => not_string_nor_null v
              | None => false
              end); [reflexivity|exact (Htail w eq_refl)].
  - rewrite (role_absent _ Hrole).
    fold (finalUpdates_of now d). fold fu. fold (authUpdate_of fu).
    erewrite bind_ok.
    2:{ rewrite admin_check_run.
        destruct (String.eqb (uid a) target),
                 (isAdminIn (db w) (envAppId env) (uid a));
          try reflexivity; discriminate Hauth. }
    erewrite bind_ok by reflexivity.
    cbv beta. unfold bind at 1. rewrite (Hphoto' w eq_refl).
    destruct (match fu !! "photoURL" with
              | Some v => not_string_nor_null v
              | None => false
              end); [reflexivity|exact (Htail w eq_refl)].
Qed.

(** X14. For a caller allowed to make the update, a photoURL that is
    neither a string nor null is refused with invalid-argument; nothing is
    written, the identity provider is not called and nothing is logged. *)
Theorem updateAuthUserProfile_rejects_bad_photoURL (env : Env) (now : Z)
    (a : AuthData) (d : UpdateData.t) (w : world) (cur : doc) (v : value) :
  let target := str_or (UpdateData.targetUid d) (uid a) in
  db w !! getUserProfilePath (envAppId env) target = Some cur ->
  update_authorized (db w) (envAppId env) (uid a) target cur
    (UpdateData.fields d !! "role") = true ->
  UpdateData.fields d !! "photoURL" = Some v ->
  not_string_nor_null v = true ->
  updateAuthUserProfile env now {| auth := Some a; data := d |} w
  = (Throw (HttpsError invalid_argument "photoURL must be a string URL or null."),
     w).
Proof.
  intros target Hcur Hauth Hv Hbad.
  rewrite (updateAuthUserProfile_authorized_run env now a d w cur Hcur Hauth).
  rewrite finalUpdates_of_lookup by discriminate. now rewrite Hv, Hbad.
Qed.

Lemma updateAuthUserProfile_rejects_bad_photoURL_witness :
  only_alice !! getUserProfilePath (envAppId env_unset) "u1"
    = Some {["role" := VStr "customer"]} /\
  updateAuthUserProfile env_unset 200
    {| auth := Some alice; data := alice_sends_file |} (World only_alice [])
  = (Throw (HttpsError invalid_argument "photoURL must be a string URL or null."),
     World only_alice []).
Proof.
  assert (Hcur : only_alice !! getUserProfilePath (envAppId env_unset) "u1"
                 = Some {["role" := VStr "customer"]})
    by apply lookup_singleton_eq.
  split; [exact Hcur|].
  apply (updateAuthUserProfile_rejects_bad_photoURL env_unset 200 alice
           alice_sends_file (World only_alice []) _ (VObj []) Hcur);
    reflexivity.
Defined.

(** X15. An allowed update of an existing profile whose photoURL, if
    any, is a string or null, and whose mirrored attributes the identity
    provider accepts, succeeds and patches that one document: updatedAt
    is the instant of the call even when the patch supplies an updatedAt
    of its own, every other property of the request except targetUid is
    stored as sent, every field the request does not name keeps its
    value, and no other document is written. *)
Theorem updateAuthUserProfile_succeeds (env : Env) (now : Z)
    (a : AuthData) (d : UpdateData.t) (st : store) (cur : doc) :
  let target := str_or (UpdateData.targetUid d) (uid a) in
  let p := getUserProfilePath (envAppId env) target in
  let fields := UpdateData.fields d in
  st !! p = Some cur ->
  update_authorized st (envAppId env) (uid a) target cur (fields !! "role")
    = true ->
  (forall v, fields !! "photoURL" = Some v -> not_string_nor_null v = false) ->
  (forall props, updateUser env target props = None) ->
  let r := run (updateAuthUserProfile env now {| auth := Some a; data := d |}) st in
  r.1 = Ok "User profile updated successfully!" /\
  errors r.2 = [] /\
  (forall q, q <> p -> db r.2 !! q = st !! q) /\
  exists new,
    db r.2 !! p = Some new /\
    new !! "updatedAt" = Some (VTime now) /\
    (forall f v, f <> "updatedAt" -> f <> "targetUid" ->
                 fields !! f = Some v -> new !! f = Some v) /\
    (forall f, f <> "updatedAt" -> fields !! f = None \/ f = "targetUid" ->
               new !! f = cur !! f).
Proof.
  intros target p fields Hcur Hauth Hphoto Hmirror r. unfold r, run.
  rewrite (updateAuthUserProfile_authorized_run env now a d (World st []) cur
             Hcur Hauth).
  fold target p.
  assert (Hp : match finalUpdates_of now d !! "photoURL" with
               | Some v => not_string_nor_null v
               | None => false
               end = false).
  { rewrite finalUpdates_of_lookup by discriminate. fold fields.
    destruct (fields !! "photoURL") as [v|] eqn:Hv; [now apply Hphoto|reflexivity]. }
  rewrite Hp.
  assert (Hm : (if truthy (finalUpdates_of now d !! "displayName")
                   || truthy (finalUpdates_of now d !! "photoURL")
                then updateUser env target (authUpdate_of (finalUpdates_of now d))
                else None) = None).
  { rewrite Hmirror. now destruct (_ || _). }
  rewrite Hm. cbn [fst snd db errors].
  split; [reflexivity|]. split; [reflexivity|]. split.
  { intros q Hq. apply lookup_insert_ne. congruence. }
  eexists. split; [apply lookup_insert_eq|]. split; [|split].
  - rewrite lookup_union. unfold finalUpdates_of.
    now rewrite lookup_insert_eq, union_Some_l.
  - intros f v H1 H2 Hf.
    rewrite lookup_union, finalUpdates_of_lookup by assumption.
    fold fields. now rewrite Hf, union_Some_l.
  - intros f H1 Hf. rewrite lookup_union.
    assert (Hnone : finalUpdates_of now d !! f = None).
    { unfold finalUpdates_of. rewrite lookup_insert_ne by congruence.
      destruct Hf as [Hf| ->]; [|apply lookup_delete_eq].
      destruct (decide (f = "targetUid")) as [->|Hne];
        [apply lookup_delete_eq|].
      now rewrite lookup_delete_ne by congruence. }
    now rewrite Hnone, (left_id_L None _).
Qed.

Lemma updateAuthUserProfile_succeeds_witness :
  only_alice !! getUserProfilePath (envAppId env_unset) "u1"
    = Some {["role" := VStr "customer"]} /\
  (run (updateAuthUserProfile env_unset 200
          {| auth := Some alice; data := alice_backdates |}) only_alice).1
  = Ok "User profile updated successfully!".
Proof.
  assert (Hcur : only_alice !! getUserProfilePath (envAppId env_unset) "u1"
                 = Some {["role" := VStr "customer"]})
    by apply lookup_singleton_eq.
  split; [exact Hcur|].
  assert (Hphoto : forall v,
             UpdateData.fields alice_backdates !! "photoURL" = Some v ->
             not_string_nor_null v = false).
  { intros v Hv. vm_compute in Hv. discriminate Hv. }
  destruct (updateAuthUserProfile_succeeds env_unset 200 alice alice_backdates
              only_alice _ Hcur eq_refl Hphoto (fun _ => eq_refl)) as [Hr _].
  exact Hr.
Defined.

(** ** The reading callables *)

(** X16. getAuthUserProfile answers with a profile only to its owner or
    to an administrator: any other caller is refused with
    permission-denied before the target is read. When it answers, the
    answer is null for a missing profile and otherwise the stored
    document with createdAt rendered as a date string, of the stored
    Timestamp or, when createdAt is absent, of the instant of the call.
    It never writes. *)
Theorem getAuthUserProfile_discloses_to_self_or_admin (env : Env) (now : Z)
    (a : AuthData) (target : option string) (st : store) :
  let t := str_or target (uid a) in
  let r := run (getAuthUserProfile env now {| auth := Some a; data := target |}) st in
  db r.2 = st /\
  (uid a <> t -> isAdminIn st (envAppId env) (uid a) = false ->
   r = (Throw (HttpsError permission_denied
                 "You do not have permission to fetch other user profiles."),
        World st [])) /\
  (forall res, r.1 = Ok res ->
     (uid a = t \/ isAdminIn st (envAppId env) (uid a) = true) /\
     match st !! getUserProfilePath (envAppId env) t with
     | None => res = None
     | Some d =>
         exists c, res = Some (<["createdAt" := VIso c]> d) /\
                   (forall t0, d !! "createdAt" = Some (VTime t0) -> c = t0) /\
                   (truthy (d !! "createdAt") = false -> c = now)
     end).
Proof.
  intros t r. unfold r, run, getAuthUserProfile. cbn [auth data]. fold t.
  pose proof (admin_check_run (negb (String.eqb (uid a) t)) (envAppId env)
                (uid a)
                (HttpsError permission_denied
                   "You do not have permission to fetch other user profiles.")
                (World st [])) as Hcheck.
  cbn [db] in Hcheck.
  assert (Hfetch : forall res w',
            try_catch
              (docSnap <- doc_get (getUserProfilePath (envAppId env) t) ;;
               match docSnap with
               | Some profileData =>
                   createdAt <-
                     (if truthy (profileData !! "createdAt")
                      then toDateISO (profileData !! "createdAt")
                      else ret (VIso now)) ;;
                   ret (Some (<["createdAt" := createdAt]> profileData))
               | None => ret None
               end)
              (fun error =>
                 console_error "Error fetching user profile in Cloud Function:" ;;;
                 throw (HttpsError internal "Failed to fetch user profile."))
              (World st []) = (Ok res, w') ->
            match st !! getUserProfilePath (envAppId env) t with
            | None => res = None
            | Some d =>
                exists c, res = Some (<["createdAt" := VIso c]> d) /\
                          (forall t0, d !! "createdAt" = Some (VTime t0) -> c = t0) /\
                          (truthy (d !! "createdAt") = false -> c = now)
            end).
  { intros res w'. unfold try_catch. rewrite bind_doc_get. cbn [db].
    destruct (st !! getUserProfilePath (envAppId env) t) as [d|].
    - destruct (truthy (d !! "createdAt")) eqn:Htr.
      + destruct (d !! "createdAt") as [[| | | |t0| | |]|] eqn:Hc;
          cbn; intros H; try discriminate H.
        injection H as <- _. exists t0. split; [reflexivity|].
        split; [now intros ? [= ->]|discriminate].
      + cbn. intros H. injection H as <- _. exists now.
        split; [reflexivity|]. split; [|reflexivity].
        intros t0 Ht0. rewrite Ht0 in Htr. discriminate Htr.
    - cbn. now intros [= <- _]. }
  assert (Hkeeps : keeps_db (getAuthUserProfile env now
                               {| auth := Some a; data := target |})).
  { unfold getAuthUserProfile. cbn [auth data]. keeps;
      try (destruct (negb _)); try (destruct (not_admin _));
      try (destruct (truthy _)); keeps. }
  split; [exact (Hkeeps (World st []))|].
  destruct (String.eqb (uid a) t) eqn:Heq; cbn [negb andb] in Hcheck.
  - apply String.eqb_eq in Heq. split; [intros Hne; now destruct Hne|].
    intros res Hres. split; [now left|].
    rewrite (bind_ok _ _ _ _ _ Hcheck) in Hres.
    destruct (try_catch _ _ _) as [o w'] eqn:Hrun. cbn [fst] in Hres. subst o.
    exact (Hfetch res w' eq_refl).
  - destruct (isAdminIn st (envAppId env) (uid a)) eqn:Hadm; cbn [negb] in Hcheck.
    + split; [intros _ H; discriminate H|].
      intros res Hres. split; [now right|].
      rewrite (bind_ok _ _ _ _ _ Hcheck) in Hres.
      destruct (try_catch _ _ _) as [o w'] eqn:Hrun. cbn [fst] in Hres. subst o.
      exact (Hfetch res w' eq_refl).
    + rewrite (bind_throw _ _ _ _ _ Hcheck).
      split; [reflexivity|]. intros res H. discriminate H.
Qed.

Lemma getAuthUserProfile_discloses_to_self_or_admin_witness :
  run (getAuthUserProfile env_unset 7 {| auth := Some carol; data := Some "u1" |})
      only_alice
    = (Throw (HttpsError permission_denied
                "You do not have permission to fetch other user profiles."),
       World only_alice []) /\
  db (run (getAuthUserProfile env_unset 7 {| auth := Some alice; data := None |})
          only_alice).2 = only_alice.
Proof.
  split.
  - destruct (getAuthUserProfile_discloses_to_self_or_admin
                env_unset 7 carol (Some "u1") only_alice) as (_ & H & _).
    apply H; [intros E; vm_compute in E; discriminate E|].
    vm_compute; reflexivity.
  - destruct (getAuthUserProfile_discloses_to_self_or_admin
                env_unset 7 alice None only_alice) as (H & _).
    exact H.
Defined.

Lemma keeps_db_assertAdmin {D} (request : CallableRequest D) (appId : string) :
  keeps_db (assertAdmin request appId).
Proof.
  unfold assertAdmin. destruct (auth request); keeps.
Qed.

(** X17. The listing callables never write: whoever calls
    searchUsersByEmail or getAllUserProfiles, with whatever input and
    whatever the outcome, the database is afterwards as it was. *)
Theorem listing_handlers_never_write (env : Env) (now : Z) (st : store)
    (search : CallableRequest value) (listing : CallableRequest unit) :
  db (run (searchUsersByEmail env search) st).2 = st /\
  db (run (getAllUserProfiles now listing) st).2 = st.
Proof.
  split.
  - assert (H : keeps_db (searchUsersByEmail env search)).
    { unfold searchUsersByEmail. apply keeps_db_bind;
        [apply keeps_db_assertAdmin|]. intros _.
      destruct (data search); keeps. }
    exact (H (World st [])).
  - assert (H : keeps_db (getAllUserProfiles now listing)).
    { unfold getAllUserProfiles. apply keeps_db_bind;
        [apply keeps_db_assertAdmin|]. intros _. keeps. }
    exact (H (World st [])).
Qed.

Lemma segments_from_profile_suffix (x cur : string) :
  exists pre, segments_from cur (x +:+ "/profile/data") = pre ++ ["profile"; "data"].
Proof.
  revert cur. induction x as [|c x IH]; intros cur.
  - exists [cur]. reflexivity.
  - rewrite str_app_cons. cbn [segments_from].
    destruct (Ascii.eqb c "/").
    + destruct (IH "") as [pre Hpre]. exists (cur :: pre). now rewrite Hpre.
    + apply IH.
Qed.

(** Every profile path lies in the collection group [profile], whatever
    the application id and the uid. *)
Lemma profile_path_in_group (appId u : string) :
  in_collection_group "profile" (getUserProfilePath appId u) = true.
Proof.
  unfold in_collection_group, segments, getUserProfilePath.
  rewrite <- !str_app_assoc.
  destruct (segments_from_profile_suffix
              ((("artifacts/" +:+ appId) +:+ "/users/") +:+ u) "") as [pre ->].
  now rewrite rev_app_distr.
Qed.

Lemma collectionGroup_elem (g : string) (st : store) (path : string) (d : doc) :
  st !! path = Some d -> in_collection_group g path = true ->
  In (path, d) (collectionGroup g st).
Proof.
  intros Hd Hg. unfold collectionGroup.
  apply list_elem_of_In. rewrite merge_sort_Permutation.
  apply list_elem_of_In, filter_In. split; [|exact Hg].
  apply list_elem_of_In. now apply elem_of_map_to_list.
Qed.

Lemma mapM_ok {A B} (f : A -> M B) (g : A -> B) (l : list A) (w : world) :
  (forall x, In x l -> f x w = (Ok (g x), w)) ->
  mapM f l w = (Ok (map g l), w).
Proof.
  induction l as [|x l IH]; intros H; [reflexivity|].
  cbn [mapM map]. erewrite bind_ok by (apply H; now left).
  erewrite bind_ok by (apply IH; intros y Hy; apply H; now right).
  reflexivity.
Qed.

Lemma mapM_throw {A B} (f : A -> M B) (l : list A) (w : world) (e : exn) :
  (forall x, In x l -> f x w = (Throw e, w) \/ exists y, f x w = (Ok y, w)) ->
  (exists x, In x l /\ f x w = (Throw e, w)) ->
  mapM f l w = (Throw e, w).
Proof.
  induction l as [|x l IH]; intros Hall (b & Hb & Hthrow); [destruct Hb|].
  cbn [mapM]. destruct (Hall x (or_introl eq_refl)) as [Hx|[y Hy]].
  - now erewrite bind_throw by exact Hx.
  - erewrite bind_ok by exact Hy.
    erewrite bind_throw; [reflexivity|].
    apply IH.
    + intros z Hz. apply Hall. now right.
    + destruct Hb as [->|Hb]; [congruence|]. now exists b.
Qed.

Lemma render_listed (now : Z) (d : doc) (w : world) :
  (createdAt <-
     (if truthy (d !! "createdAt") then toDateISO (d !! "createdAt")
      else ret (VIso now)) ;;
   ret (<["createdAt" := createdAt]> d)) w
  = if createdAt_readable d then (Ok (listed now d), w)
    else (Throw (SdkError "TypeError"), w).
Proof.
  unfold createdAt_readable, listed.
  destruct (d !! "createdAt") as [[| | | | | | |]|]; try reflexivity.
  - now destruct b.
  - cbn. now destruct (n =? 0).
  - cbn. now destruct (String.eqb s "").
Qed.

Lemma getAllUserProfiles_run (now : Z) (a : AuthData) (w : world) :
  isAdminIn (db w) hardcodedAppId (uid a) = true ->
  getAllUserProfiles now {| auth := Some a; data := tt |} w
  = try_catch
      (st <- get_db ;;
       mapM (fun pd : string * doc =>
               let data := pd.2 in
               createdAt <-
                 (if truthy (data !! "createdAt")
                  then toDateISO (data !! "createdAt")
                  else ret (VIso now)) ;;
               ret (<["createdAt" := createdAt]> data))
            (collectionGroup "profile" st))
      (fun error =>
         console_error "Error fetching all user profiles in Cloud Function:" ;;;
         throw (HttpsError internal "Failed to fetch all user profiles."))
      w.
Proof.
  intros Hadm. unfold getAllUserProfiles.
  now erewrite bind_ok by (now apply (assertAdmin_admin _ a)).
Qed.

(** X18. Called by an administrator recorded under the hardcoded
    application id, getAllUserProfiles answers with one record per
    document of the collection group profile, each the stored document
    with createdAt rendered as a date string, provided every such
    document has a readable createdAt (a Timestamp, or a falsy value,
    rendered as the instant of the call). The profiles of every
    application id are listed, not only those of the hardcoded one;
    nothing is written and no error is logged. The order of the records
    is the store's and is left open. *)
Theorem getAllUserProfiles_lists_every_profile (now : Z) (a : AuthData)
    (st : store) :
  isAdminIn st hardcodedAppId (uid a) = true ->
  (forall path d, st !! path = Some d ->
                  in_collection_group "profile" path = true ->
                  createdAt_readable d = true) ->
  exists answer,
    run (getAllUserProfiles now {| auth := Some a; data := tt |}) st
      = (Ok answer, World st []) /\
    answer ≡ₚ map (fun pd : string * doc => listed now pd.2)
                (List.filter (fun pd => in_collection_group "profile" pd.1)
                             (map_to_list st)) /\
    (forall appId u d, st !! getUserProfilePath appId u = Some d ->
                       In (listed now d) answer).
Proof.
  intros Hadm Hread.
  exists (map (fun pd : string * doc => listed now pd.2)
              (collectionGroup "profile" st)).
  split; [|split].
  - unfold run. rewrite (getAllUserProfiles_run now a (World st []) Hadm).
    unfold try_catch. erewrite bind_ok by reflexivity. cbn [db].
    rewrite (mapM_ok _ (fun pd : string * doc => listed now pd.2)).
    + reflexivity.
    + intros [path d] Hin. cbn [snd]. rewrite render_listed.
      rewrite (Hread path d); [reflexivity| |].
      * apply list_elem_of_In, collectionGroup_lookup in Hin. exact Hin.
      * unfold collectionGroup in Hin.
        apply list_elem_of_In in Hin. rewrite merge_sort_Permutation in Hin.
        apply list_elem_of_In, filter_In in Hin. exact (proj2 Hin).
  - apply Permutation_map. unfold collectionGroup.
    apply merge_sort_Permutation.
  - intros appId u d Hd.
    apply (in_map (fun pd : string * doc => listed now pd.2) _
                  (getUserProfilePath appId u, d)).
    apply collectionGroup_elem; [exact Hd|apply profile_path_in_group].
Qed.

(** A document with an unreadable createdAt aborts the listing. *)
Lemma getAllUserProfiles_unreadable (now : Z) (a : AuthData)
    (st : store) (appId u : string) (d : doc) :
  isAdminIn st hardcodedAppId (uid a) = true ->
  st !! getUserProfilePath appId u = Some d ->
  createdAt_readable d = false ->
  run (getAllUserProfiles now {| auth := Some a; data := tt |}) st
  = (Throw (HttpsError internal "Failed to fetch all user profiles."),
     World st ["Error fetching all user profiles in Cloud Function:"]).
Proof.
  intros Hadm Hd Hbad. unfold run.
  rewrite (getAllUserProfiles_run now a (World st []) Hadm).
  unfold try_catch. erewrite bind_ok by reflexivity. cbn [db].
  rewrite (mapM_throw _ _ _ (SdkError "TypeError")); [reflexivity| |].
  - intros [path d'] _. cbn [snd]. rewrite render_listed.
    destruct (createdAt_readable d'); [right; eexists; reflexivity|now left].
  - exists (getUserProfilePath appId u, d). split.
    + apply collectionGroup_elem; [exact Hd|apply profile_path_in_group].
    + cbn [snd]. rewrite render_listed. now rewrite Hbad.
Qed.

(** X19. One profile document whose createdAt is truthy but not a
    Timestamp (a string, for instance) makes getAllUserProfiles fail for
    every administrator: the call ends with Internal, the error is
    logged, and no profile is listed. *)
Theorem getAllUserProfiles_one_unreadable_profile (now : Z) (a : AuthData)
    (st : store) (appId u : string) (d : doc) :
  isAdminIn st hardcodedAppId (uid a) = true ->
  st !! getUserProfilePath appId u = Some d ->
  createdAt_readable d = false ->
  run (getAllUserProfiles now {| auth := Some a; data := tt |}) st
  = (Throw (HttpsError internal "Failed to fetch all user profiles."),
     World st ["Error fetching all user profiles in Cloud Function:"]).
Proof. apply getAllUserProfiles_unreadable. Qed.

Lemma getAllUserProfiles_lists_every_profile_witness :
  isAdminIn (seed hardcodedAppId) hardcodedAppId (uid root) = true /\
  exists answer,
    run (getAllUserProfiles 200 {| auth := Some root; data := tt |})
        (seed hardcodedAppId)
      = (Ok answer, World (seed hardcodedAppId) []) /\
    In (listed 200 {["role" := VStr "admin"]}) answer.
Proof.
  split; [reflexivity|].
  assert (Hread : forall path d,
             seed hardcodedAppId !! path = Some d ->
             in_collection_group "profile" path = true ->
             createdAt_readable d = true).
  { intros path d Hd Hg. unfold seed in Hd.
    apply lookup_insert_Some in Hd as [[<- <-]|[_ Hd]]; [reflexivity|].
    apply lookup_insert_Some in Hd as [[<- <-]|[_ Hd]]; [reflexivity|].
    rewrite lookup_empty in Hd. discriminate Hd. }
  destruct (getAllUserProfiles_lists_every_profile 200 root
              (seed hardcodedAppId) eq_refl Hread) as (answer & Hrun & _ & Hin).
  exists answer. split; [exact Hrun|].
  apply (Hin hardcodedAppId "root"). apply lookup_insert_eq.
Defined.

Lemma getAllUserProfiles_one_unreadable_profile_witness :
  isAdminIn store_with_string_date hardcodedAppId (uid root) = true /\
  createdAt_readable {["createdAt" := VStr "2000-01-01T00:00:00.000Z"]} = false /\
  run (getAllUserProfiles 200 {| auth := Some root; data := tt |})
      store_with_string_date
  = (Throw (HttpsError internal "Failed to fetch all user profiles."),
     World store_with_string_date
       ["Error fetching all user profiles in Cloud Function:"]).
Proof.
  assert (Hadm : isAdminIn store_with_string_date hardcodedAppId (uid root) = true)
    by (vm_compute; reflexivity).
  assert (Hd : store_with_string_date !! getUserProfilePath "default-app-id" "u1"
               = Some {["createdAt" := VStr "2000-01-01T00:00:00.000Z"]})
    by (vm_compute; reflexivity).
  split; [exact Hadm|]. split; [reflexivity|].
  exact (getAllUserProfiles_one_unreadable_profile 200 root
           store_with_string_date "default-app-id" "u1" _ Hadm Hd eq_refl).
Defined.

(** ** How the callables compose *)

Lemma str_eqb_refl (s : string) : String.eqb s s = true.
Proof. now apply String.eqb_eq. Qed.

(** X20. Any user can make the administrators' listing fail: after a
    user has patched the own profile with a non-empty string as
    createdAt, which updateAuthUserProfile accepts from anyone for the
    own profile, getAllUserProfiles fails with Internal for every
    administrator. *)
Theorem patched_createdAt_breaks_listing (env : Env) (now now' : Z)
    (a admin : AuthData) (st : store) (cur : doc) (s : string) :
  st !! getUserProfilePath (envAppId env) (uid a) = Some cur ->
  truthy_str s = true ->
  (forall props, updateUser env (uid a) props = None) ->
  isAdminIn st hardcodedAppId (uid admin) = true ->
  let patched :=
    run (updateAuthUserProfile env now {| auth := Some a; data := redate s |}) st in
  patched.1 = Ok "User profile updated successfully!" /\
  (getAllUserProfiles now' {| auth := Some admin; data := tt |} patched.2).1
  = Throw (HttpsError internal "Failed to fetch all user profiles.").
Proof.
  intros Hcur Hs Hmirror Hadm patched.
  set (p := getUserProfilePath (envAppId env) (uid a)) in *.
  set (fu := finalUpdates_of now (redate s)).
  assert (Hfu : forall f, f <> "updatedAt" -> f <> "createdAt" -> fu !! f = None).
  { intros f H1 H2. unfold fu, finalUpdates_of.
    rewrite lookup_insert_ne by congruence. cbn [redate UpdateData.fields].
    destruct (decide (f = "targetUid")) as [->|Hne]; [apply lookup_delete_eq|].
    rewrite lookup_delete_ne by congruence. apply lookup_singleton_ne. congruence. }
  assert (Hcreated : fu !! "createdAt" = Some (VStr s)).
  { unfold fu. rewrite finalUpdates_of_lookup by discriminate.
    apply lookup_singleton_eq. }
  assert (Hauth : update_authorized st (envAppId env) (uid a)
                    (str_or (UpdateData.targetUid (redate s)) (uid a)) cur
                    (UpdateData.fields (redate s) !! "role") = true).
  { unfold update_authorized. cbn [redate UpdateData.targetUid UpdateData.fields str_or].
    rewrite str_eqb_refl, lookup_singleton_ne by discriminate. reflexivity. }
  assert (Hrun : patched = (Ok "User profile updated successfully!",
                            World (<[p := fu ∪ cur]> st) [])).
  { unfold patched, run.
    rewrite (updateAuthUserProfile_authorized_run env now a (redate s)
               (World st []) cur Hcur Hauth).
    fold fu. rewrite !(Hfu _) by discriminate. reflexivity. }
  rewrite Hrun. cbn [fst snd]. split; [reflexivity|].
  pose proof (getAllUserProfiles_unreadable now' admin (<[p := fu ∪ cur]> st)
                (envAppId env) (uid a) (fu ∪ cur)) as Hlist.
  unfold run in Hlist. rewrite Hlist.
  - reflexivity.
  - unfold isAdminIn in *.
    destruct (decide (getUserProfilePath hardcodedAppId (uid admin) = p))
      as [Heq|Hne].
    + rewrite Heq in *. rewrite Hcur in Hadm. rewrite lookup_insert_eq.
      rewrite lookup_union, Hfu by discriminate.
      now rewrite (left_id_L None _).
    + now rewrite lookup_insert_ne by congruence.
  - apply lookup_insert_eq.
  - unfold createdAt_readable. rewrite lookup_union, Hcreated, union_Some_l.
    cbn. unfold truthy_str in Hs. now rewrite Hs.
Qed.

Lemma patched_createdAt_breaks_listing_witness :
  admin_and_alice !! getUserProfilePath (envAppId env_unset) (uid alice)
    = Some {["role" := VStr "customer"]} /\
  isAdminIn admin_and_alice hardcodedAppId (uid root) = true /\
  (getAllUserProfiles 300 {| auth := Some root; data := tt |}
     (run (updateAuthUserProfile env_unset 200
             {| auth := Some alice; data := redate "2000" |})
          admin_and_alice).2).1
  = Throw (HttpsError internal "Failed to fetch all user profiles.").
Proof.
  assert (Hcur : admin_and_alice
                   !! getUserProfilePath (envAppId env_unset) (uid alice)
                 = Some {["role" := VStr "customer"]})
    by (vm_compute; reflexivity).
  assert (Hadm : isAdminIn admin_and_alice hardcodedAppId (uid root) = true)
    by (vm_compute; reflexivity).
  split; [exact Hcur|]. split; [exact Hadm|].
  destruct (patched_createdAt_breaks_listing env_unset 200 300 alice root
              admin_and_alice _ "2000" Hcur eq_refl (fun _ => eq_refl) Hadm)
    as [_ Hlist].
  exact Hlist.
Defined.

(** X21. What the first login answers is what the second login reads
    back: apart from the two dates createdAt and lastLoginAt, which the
    creating call takes from its own clock, the record rendered from the
    stored document agrees field by field with the record that the
    creating call put together itself, whatever claims the second token
    carries. *)
Theorem ensureUserProfile_answers_agree (a : AuthData) (claims' : Token.t)
    (now now' : Z) (st : store) :
  st !! getUserProfilePath hardcodedAppId (uid a) = None ->
  let first := run (ensureUserProfile now {| auth := Some a; data := tt |}) st in
  let second :=
    ensureUserProfile now'
      {| auth := Some {| uid := uid a; token := claims' |}; data := tt |}
      first.2 in
  exists created read,
    first.1 = Ok created /\
    second.1 = Ok read /\
    forall field, field <> "createdAt" -> field <> "lastLoginAt" ->
                  read !! field = created !! field.
Proof.
  intros Habs first second.
  set (path := getUserProfilePath hardcodedAppId (uid a)) in *.
  assert (Hfirst : first = (Ok (renderCreated (newUserProfile a now) now),
                            World (<[path := newUserProfile a now]> st) [])).
  { unfold first, run. now rewrite ensureUserProfile_absent. }
  exists (renderCreated (newUserProfile a now) now),
         (<["lastLoginAt" := VIso now']>
            (renderCreated (newUserProfile a now) now)).
  split; [now rewrite Hfirst|]. split.
  - unfold second. rewrite Hfirst. cbn [snd].
    unfold ensureUserProfile. cbn [auth data uid].
    change (negb (truthy_str hardcodedAppId)) with false. cbv iota.
    fold path. unfold try_catch. rewrite bind_doc_get. cbn [db].
    rewrite lookup_insert_eq.
    unfold bind at 1.
    rewrite (doc_update_present _ _ (newUserProfile a now))
      by (cbn [db]; apply lookup_insert_eq).
    rewrite bind_doc_get. cbn [db]. rewrite lookup_insert_eq.
    rewrite singleton_union_insert.
    assert (Hrender : forall w,
               renderProfile (<["lastLoginAt" := VTime now']> (newUserProfile a now)) w
               = (Ok (<["lastLoginAt" := VIso now']>
                        (renderCreated (newUserProfile a now) now)), w)).
    { intros w. reflexivity. }
    now rewrite Hrender.
  - intros field _ Hlast. now apply lookup_insert_ne.
Qed.

Lemma ensureUserProfile_answers_agree_witness :
  (∅ : store) !! getUserProfilePath hardcodedAppId (uid alice) = None /\
  exists created read,
    (run (ensureUserProfile 100 {| auth := Some alice; data := tt |}) ∅).1
      = Ok created /\
    (ensureUserProfile 200 {| auth := Some alice; data := tt |}
       (run (ensureUserProfile 100 {| auth := Some alice; data := tt |}) ∅).2).1
      = Ok read /\
    read !! "uid" = created !! "uid".
Proof.
  assert (Habs : (∅ : store) !! getUserProfilePath hardcodedAppId (uid alice)
                 = None) by reflexivity.
  split; [exact Habs|].
  destruct (ensureUserProfile_answers_agree alice (token alice) 100 200 ∅ Habs)
    as (created & read & H1 & H2 & Hsame).
  exists created, read. split; [exact H1|]. split; [exact H2|].
  apply Hsame; discriminate.
Defined.

(** ** Paths and search *)

(** X22. Documents do not alias one another under one application id:
    different uids have different profile paths, different salon ids
    have different salon paths, and no salon path is a profile path,
    whatever characters the ids contain. *)
Theorem document_paths_distinct (appId : string) :
  (forall u v, getUserProfilePath appId u = getUserProfilePath appId v -> u = v) /\
  (forall id id',
      getSalonsCollectionPath appId +:+ "/" +:+ id
      = getSalonsCollectionPath appId +:+ "/" +:+ id' -> id = id') /\
  (forall id u,
      getSalonsCollectionPath appId +:+ "/" +:+ id <> getUserProfilePath appId u).
Proof.
  split; [|split].
  - intros u v. apply getUserProfilePath_inj.
  - intros id id' H.
    apply (inj (String.app _)) in H. now apply (inj (String.app _)) in H.
  - intros id u. apply salon_path_ne_profile.
Qed.

Lemma ascii_compare_refl (c : ascii) : Ascii.compare c c = Eq.
Proof. unfold Ascii.compare. apply N.compare_refl. Qed.

Lemma compare_app_head (t a b : string) :
  String.compare (t +:+ a) (t +:+ b) = String.compare a b.
Proof.
  induction t as [|c t IH]; [reflexivity|].
  rewrite !str_app_cons. cbn [String.compare].
  now rewrite ascii_compare_refl.
Qed.

Lemma leb_prefix_range (term rest : string) :
  below_sentinel rest = true ->
  String.leb term (term +:+ rest) = true /\
  String.leb (term +:+ rest) (term +:+ MAX_SENTINEL) = true.
Proof.
  intros Hrest. unfold String.leb. split.
  - replace term with (term +:+ "") at 1.
    + rewrite compare_app_head. now destruct rest.
    + induction term as [|c t IH]; [reflexivity|].
      rewrite str_app_cons. now rewrite IH.
  - rewrite compare_app_head. destruct rest as [|c rest]; [reflexivity|].
    cbn [below_sentinel] in Hrest. apply N.ltb_lt in Hrest.
    unfold MAX_SENTINEL. cbn [String.compare]. unfold Ascii.compare.
    change (N_of_ascii "239") with 239%N.
    apply N.compare_lt_iff in Hrest. now rewrite Hrest.
Qed.

(** X23. An administrator's search finds a profile whenever its email is
    the term followed by nothing or by text that starts with a character
    below the sentinel (any ASCII character), the term has at least 2
    UTF-16 code units, and no more than 10 profiles match: the profile's
    projection is among the records returned, under whatever application
    id the profile is stored. *)
Theorem searchUsersByEmail_finds_prefix (env : Env) (a : AuthData)
    (term rest : string) (st : store) (appId u : string) (d : doc) :
  isAdminIn st (envAppId env) (uid a) = true ->
  (js_length term <? 2)%nat = false ->
  st !! getUserProfilePath appId u = Some d ->
  d !! "email" = Some (VStr (term +:+ rest)) ->
  below_sentinel rest = true ->
  (length (matches term st) <= 10)%nat ->
  exists l,
    run (searchUsersByEmail env {| auth := Some a; data := VStr term |}) st
      = (Ok l, World st []) /\
    In (suggestion d) l.
Proof.
  intros Hadm Hlen Hd Hemail Hrest Hfew.
  unfold run, searchUsersByEmail. cbn [data].
  erewrite bind_ok by (now apply (assertAdmin_admin _ a)).
  rewrite Hlen. unfold try_catch, bind, get_db, ret. cbn [fst snd db].
  eexists. split; [reflexivity|].
  apply (in_map (fun pd : string * doc => suggestion pd.2) _
                (getUserProfilePath appId u, d)).
  unfold query_email_range. fold (matches term st).
  rewrite take_ge by (rewrite merge_sort_Permutation; exact Hfew).
  apply list_elem_of_In. rewrite merge_sort_Permutation.
  apply list_elem_of_In, filter_In. split.
  - apply collectionGroup_elem; [exact Hd|apply profile_path_in_group].
  - cbn [snd]. unfold email_in_range, email_of. rewrite Hemail.
    destruct (leb_prefix_range term rest Hrest) as [-> ->]. reflexivity.
Qed.

Lemma searchUsersByEmail_finds_prefix_witness :
  isAdminIn directory (envAppId env_same) (uid root) = true /\
  directory !! getUserProfilePath hardcodedAppId "u1"
    = Some {["email" := VStr "a@x.com"]} /\
  exists l,
    run (searchUsersByEmail env_same {| auth := Some root; data := VStr "a@" |})
        directory
      = (Ok l, World directory []) /\
    In (suggestion {["email" := VStr "a@x.com"]}) l.
Proof.
  assert (Hadm : isAdminIn directory (envAppId env_same) (uid root) = true)
    by (vm_compute; reflexivity).
  assert (Hd : directory !! getUserProfilePath hardcodedAppId "u1"
               = Some ({["email" := VStr "a@x.com"]} : doc))
    by (vm_compute; reflexivity).
  assert (Hfew : (length (matches "a@" directory) <= 10)%nat)
    by (vm_compute; lia).
  split; [exact Hadm|]. split; [exact Hd|].
  exact (searchUsersByEmail_finds_prefix env_same root "a@" "x.com" directory
           hardcodedAppId "u1" _ Hadm eq_refl Hd eq_refl eq_refl Hfew).
Defined.
